(** * Battery-cell monitor: the telemetry and status model

    A shallow embedding of [app2.py] (the dashboard) and [w1.py] (the
    command-line companion).

    Number model.  Python floats are read as exact rationals ([Q]); the
    decimal literals of the source are the rationals they denote, comparisons
    are the comparisons of [Q], and [round(x, n)] is rounding to [n] decimals
    with ties going to the even neighbour.  NaN and infinities are not
    represented.  Numeric fields are compared with [==] ([Qeq]).

    Effects.  [random.uniform], [datetime.now] and [time.sleep] act on an
    explicit [World]; code that can raise ([IndexError] of
    [cell_key.split('_')[2]]) lives in a state-and-error monad. *)

From Stdlib Require Import QArith ZArith Qround Qabs Bool.
From Stdlib Require Import String Ascii List Lia Lqa.
From Stdlib Require Import DecimalString DecimalNat Sorted.
Import ListNotations.

Open Scope Q_scope.

(** ** Numbers *)

Module PyNum.

(** [x < y] on floats. *)
Definition ltb (x y : Q) : bool := negb (Qle_bool y x).

(** [x > y] is [y < x]. *)
Definition gtb (x y : Q) : bool := ltb y x.

(** Builtin [max(a, b)]: the first argument unless the second is larger. *)
Definition max (a b : Q) : Q := if ltb a b then b else a.

(** Builtin [min(a, b)]: the first argument unless the second is smaller. *)
Definition min (a b : Q) : Q := if ltb b a then b else a.

(** Builtin [abs]. *)
Definition abs (x : Q) : Q := Qabs x.

(** Nearest integer, ties to even. *)
Definition round_half_even (x : Q) : Z :=
  let n := Qnum x in
  let d := Zpos (Qden x) in
  let q := (n / d)%Z in
  let r := (n mod d)%Z in
  match (2 * r ?= d)%Z with
  | Lt => q
  | Gt => (q + 1)%Z
  | Eq => if Z.even q then q else (q + 1)%Z
  end.

Definition pow10 (ndigits : nat) : Q := inject_Z (10 ^ Z.of_nat ndigits).

(** Builtin [round(x, ndigits)], on the exact value: nearest multiple of
    [10^-ndigits], ties to even.  On a binary float whose decimal notation is
    a tie the builtin follows the float, which lies on either side. *)
Definition round (x : Q) (ndigits : nat) : Q :=
  inject_Z (round_half_even (x * pow10 ndigits)) / pow10 ndigits.

End PyNum.

(** ** Strings and ordered dictionaries *)

(** [s.split(sep)] for a one-character separator: never empty, keeps empty
    pieces. *)
Fixpoint split (sep : ascii) (s : string) : list string :=
  match s with
  | EmptyString => [EmptyString]
  | String c rest =>
      if Ascii.eqb c sep then EmptyString :: split sep rest
      else match split sep rest with
           | [] => [String c EmptyString]
           | piece :: pieces => String c piece :: pieces
           end
  end.

(** [sep in s] *)
Fixpoint contains (sep : ascii) (s : string) : bool :=
  match s with
  | EmptyString => false
  | String c rest => Ascii.eqb c sep || contains sep rest
  end.

(** [str(n)] for a non-negative integer. *)
Definition str_of_nat (n : nat) : string :=
  NilEmpty.string_of_uint (Nat.to_uint n).

(** A Python [dict] with string keys: association list in insertion order,
    keys unique. *)
Definition dict (V : Type) : Type := list (string * V).

Fixpoint dict_get {V : Type} (k : string) (d : dict V) : option V :=
  match d with
  | [] => None
  | (k', v) :: rest => if String.eqb k k' then Some v else dict_get k rest
  end.

(** [d[k] = v]: overwrite in place when the key is present, else append. *)
Fixpoint dict_set {V : Type} (k : string) (v : V) (d : dict V) : dict V :=
  match d with
  | [] => [(k, v)]
  | (k', v') :: rest =>
      if String.eqb k k' then (k', v) :: rest
      else (k', v') :: dict_set k v rest
  end.

Definition dict_keys {V : Type} (d : dict V) : list string := map fst d.

(** ** The specification table ([get_cell_specs]) *)

Record CellSpecs : Type := mkCellSpecs {
  nominal_voltage : Q;
  min_voltage : Q;
  max_voltage : Q;
  max_current : Q;
  color : string
}.

Definition specs : dict CellSpecs := [
  ("lfp"%string,     mkCellSpecs 3.2 2.8 3.6  100 "#2E8B57");
  ("nmc"%string,     mkCellSpecs 3.6 3.2 4.0  120 "#4169E1");
  ("lto"%string,     mkCellSpecs 2.4 1.5 2.8  200 "#FF6347");
  ("lifepo4"%string, mkCellSpecs 3.3 2.5 3.65 150 "#9370DB")
].

(** [specs.get(cell_type, specs["lfp"])].  The default [specs["lfp"]] is
    evaluated first, as Python evaluates arguments; the key is in the table,
    so the [None] branch below is dead. *)
Definition get_cell_specs (cell_type : string) : CellSpecs :=
  match dict_get "lfp" specs with
  | Some default =>
      match dict_get cell_type specs with
      | Some s => s
      | None => default
      end
  | None => mkCellSpecs 0 0 0 0 ""
  end.

(** ** Cell data *)

(** The per-cell dictionary.  Its [min_voltage] and [max_voltage] keys are
    the fields [cell_min_voltage] and [cell_max_voltage]. *)
Record CellData : Type := mkCellData {
  voltage : Q;
  current : Q;
  temp : Q;
  capacity : Q;
  cell_min_voltage : Q;
  cell_max_voltage : Q;
  timestamp : Z
}.

(** ** Status classification ([check_cell_status]) *)

Inductive Status : Type := Good | Warning | Critical.

(** An alert is its f-string template together with the interpolated
    values. *)
Inductive Alert : Type :=
| VoltageTooLow (voltage min : Q)
| VoltageTooHigh (voltage max : Q)
| CurrentHigh (abs_current max : Q)
| TemperatureTooHigh (temp : Q)
| TemperatureElevated (temp : Q)
| TemperatureTooLow (temp : Q).

(** ["Warning" if status == "Good" else status] *)
Definition warning_if_good (status : Status) : Status :=
  match status with
  | Good => Warning
  | _ => status
  end.

Definition voltage_checks (specs : CellSpecs) (voltage : Q)
    (st : Status * list Alert) : Status * list Alert :=
  let '(status, alerts) := st in
  if PyNum.ltb voltage (min_voltage specs) then
    (Critical, alerts ++ [VoltageTooLow voltage (min_voltage specs)])
  else if PyNum.gtb voltage (max_voltage specs) then
    (Critical, alerts ++ [VoltageTooHigh voltage (max_voltage specs)])
  else (status, alerts).

Definition current_checks (specs : CellSpecs) (current : Q)
    (st : Status * list Alert) : Status * list Alert :=
  let '(status, alerts) := st in
  if PyNum.gtb (PyNum.abs current) (max_current specs) then
    (warning_if_good status,
     alerts ++ [CurrentHigh (PyNum.abs current) (max_current specs)])
  else (status, alerts).

Definition temperature_checks (temp : Q)
    (st : Status * list Alert) : Status * list Alert :=
  let '(status, alerts) := st in
  if PyNum.gtb temp 45 then
    (Critical, alerts ++ [TemperatureTooHigh temp])
  else if PyNum.gtb temp 40 then
    (warning_if_good status, alerts ++ [TemperatureElevated temp])
  else if PyNum.ltb temp 0 then
    (warning_if_good status, alerts ++ [TemperatureTooLow temp])
  else (status, alerts).

Definition check_cell_status (cell_data : CellData) (cell_type : string)
    : Status * list Alert :=
  let specs := get_cell_specs cell_type in
  let voltage := voltage cell_data in
  let current := current cell_data in
  let temp := temp cell_data in
  let st := (Good, []) in
  let st := voltage_checks specs voltage st in
  let st := current_checks specs current st in
  let st := temperature_checks temp st in
  st.

(** ** The world: random source and clock *)

(** [unit_draws w n] is what the [n]-th call of [random.random()] returns;
    [drawn] counts the calls made so far; [clock] is the wall clock. *)
Record World : Type := mkWorld {
  unit_draws : nat -> Q;
  drawn : nat;
  clock : Z
}.

(** State over [World], with failure for a raised exception. *)
Definition M (A : Type) : Type := World -> option (A * World).

Definition ret {A : Type} (a : A) : M A := fun w => Some (a, w).

Definition bind {A B : Type} (m : M A) (f : A -> M B) : M B :=
  fun w => match m w with
           | Some (a, w') => f a w'
           | None => None
           end.

Definition raise {A : Type} : M A := fun _ => None.

Notation "x <- m ;; k" := (bind m (fun x => k))
  (at level 61, m at next level, right associativity).
Notation "m ;;; k" := (bind m (fun _ => k))
  (at level 61, right associativity).

(** [random.uniform(a, b)], that is [a + (b - a) * random()]. *)
Definition random_uniform (a b : Q) : M Q :=
  fun w => Some (a + (b - a) * unit_draws w (drawn w),
                 mkWorld (unit_draws w) (S (drawn w)) (clock w)).

(** [datetime.now()] *)
Definition datetime_now : M Z := fun w => Some (clock w, w).

(** [time.sleep(seconds)] *)
Definition time_sleep (seconds : Z) : M unit :=
  fun w => Some (tt, mkWorld (unit_draws w) (drawn w) (clock w + seconds)%Z).

(** [for x in xs: acc = body(x, acc)] *)
Fixpoint for_each {A S : Type} (xs : list A) (body : A -> S -> M S) (acc : S)
    : M S :=
  match xs with
  | [] => ret acc
  | x :: rest => acc' <- body x acc ;; for_each rest body acc'
  end.

(** ** The simulation step ([simulate_real_time_data]) *)

Definition simulate_real_time_data (cell_key : string) (base_data : CellData)
    : M CellData :=
  match nth_error (split "_" cell_key) 2 with
  | None => raise
  | Some cell_type =>
      let specs := get_cell_specs cell_type in
      voltage_variation <- random_uniform (-0.05) 0.05 ;;
      temp_variation <- random_uniform (-1.0) 1.0 ;;
      current_variation <- random_uniform (-2.0) 2.0 ;;
      let new_voltage :=
        PyNum.max (min_voltage specs)
                  (PyNum.min (max_voltage specs)
                             (voltage base_data + voltage_variation)) in
      let new_temp := PyNum.max 0 (PyNum.min 50 (temp base_data + temp_variation)) in
      let new_current := current base_data + current_variation in
      now <- datetime_now ;;
      ret {| voltage := PyNum.round new_voltage 3;
             current := PyNum.round new_current 2;
             temp := PyNum.round new_temp 1;
             capacity := PyNum.round (new_voltage * PyNum.abs new_current) 2;
             cell_min_voltage := cell_min_voltage base_data;
             cell_max_voltage := cell_max_voltage base_data;
             timestamp := now |}
  end.

(** ** Session state and the sidebar handlers *)

Record HistoryEntry : Type := mkHistoryEntry {
  entry_timestamp : Z;
  entry_cell_id : string;
  entry_voltage : Q;
  entry_current : Q;
  entry_temp : Q;
  entry_capacity : Q
}.

Record Session : Type := mkSession {
  cells_data : dict CellData;
  historical_data : list HistoryEntry;
  monitoring_active : bool;
  auto_refresh : bool
}.

(** Options of the "Cell i Type" select boxes. *)
Definition cell_types : list string := ["lfp"; "nmc"; "lto"; "lifepo4"]%string.

(** [f"cell_{i+1}_{cell_type}"] *)
Definition cell_key_of (i : nat) (cell_type : string) : string :=
  ("cell_" ++ str_of_nat (i + 1) ++ "_" ++ cell_type)%string.

(** Body of the cell initialisation loop, for index [i] and the type chosen
    in its select box. *)
Definition init_cell (chosen : nat -> string) (i : nat)
    (cells : dict CellData) : M (dict CellData) :=
  let cell_type := chosen i in
  let specs := get_cell_specs cell_type in
  let cell_key := cell_key_of i cell_type in
  u <- random_uniform 25 35 ;;
  now <- datetime_now ;;
  ret (dict_set cell_key
         {| voltage := nominal_voltage specs;
            current := 0.0;
            temp := PyNum.round u 1;
            capacity := 0.0;
            cell_min_voltage := min_voltage specs;
            cell_max_voltage := max_voltage specs;
            timestamp := now |}
         cells).

(** "Initialize or update cells based on number". *)
Definition setup_cells (num_cells : nat) (chosen : nat -> string)
    (s : Session) : M Session :=
  if Nat.eqb (length (cells_data s)) num_cells then ret s
  else
    cells <- for_each (seq 0 num_cells) (init_cell chosen) [] ;;
    ret (mkSession cells (historical_data s)
                   (monitoring_active s) (auto_refresh s)).

(** The "Update Cell Data" button: [cells_data[selected_cell].update(...)]. *)
Definition update_cell_data (selected_cell : string)
    (new_voltage new_current new_temp : Q) (s : Session) : M Session :=
  match dict_get selected_cell (cells_data s) with
  | None => raise
  | Some old =>
      now <- datetime_now ;;
      let updated :=
        {| voltage := new_voltage;
           current := new_current;
           temp := new_temp;
           capacity := PyNum.round (new_voltage * PyNum.abs new_current) 2;
           cell_min_voltage := cell_min_voltage old;
           cell_max_voltage := cell_max_voltage old;
           timestamp := now |} in
      ret (mkSession (dict_set selected_cell updated (cells_data s))
                     (historical_data s)
                     (monitoring_active s) (auto_refresh s))
  end.

(** ** The monitoring tick *)

(** [cells_data[key] = simulate_real_time_data(key, cells_data[key])] *)
Definition simulate_cell (key : string) (cells : dict CellData)
    : M (dict CellData) :=
  match dict_get key cells with
  | None => raise
  | Some base_data =>
      data <- simulate_real_time_data key base_data ;;
      ret (dict_set key data cells)
  end.

Definition historical_entry (current_time : Z) (item : string * CellData)
    : HistoryEntry :=
  let '(key, data) := item in
  {| entry_timestamp := current_time;
     entry_cell_id := key;
     entry_voltage := voltage data;
     entry_current := current data;
     entry_temp := temp data;
     entry_capacity := capacity data |}.

(** [xs[-n:]] for [n > 0]. *)
Definition last_n {A : Type} (n : nat) (xs : list A) : list A :=
  skipn (length xs - n) xs.

(** "Keep only last 100 data points per cell". *)
Definition truncate_history (h : list HistoryEntry) : list HistoryEntry :=
  if Nat.ltb 800 (length h) then last_n 800 h else h.

(** "Real-time monitoring logic", one run of the script body. *)
Definition monitoring_tick (refresh_interval : Z) (s : Session) : M Session :=
  if monitoring_active s && auto_refresh s then
    time_sleep refresh_interval ;;;
    cells <- for_each (dict_keys (cells_data s)) simulate_cell (cells_data s) ;;
    current_time <- datetime_now ;;
    let appended := historical_data s ++ map (historical_entry current_time) cells in
    ret (mkSession cells (truncate_history appended)
                   (monitoring_active s) (auto_refresh s))
  else ret s.

(** [n] tick blocks in a row.  What the script does between two ticks (the
    re-run of the sidebar, whose widgets can raise) is not part of it. *)
Fixpoint monitoring_ticks (n : nat) (refresh_interval : Z) (s : Session)
    : M Session :=
  match n with
  | O => ret s
  | S n' => s' <- monitoring_tick refresh_interval s ;;
            monitoring_ticks n' refresh_interval s'
  end.

(** ** The command-line companion ([w1.py]) *)

Module W1.

Record CellData : Type := mkCellData {
  voltage : Q;
  current : Q;
  temp : Q;
  capacity : Q;
  min_voltage : Q;
  max_voltage : Q
}.

Definition is_lfp (cell_type : string) : bool := String.eqb cell_type "lfp".

(** Body of the set-up loop over [enumerate(list_of_cell, start=1)]. *)
Definition setup_cell (item : nat * string) (cells : dict CellData)
    : M (dict CellData) :=
  let '(idx, cell_type) := item in
  let cell_key := ("cell_" ++ str_of_nat idx ++ "_" ++ cell_type)%string in
  let voltage := if is_lfp cell_type then 3.2 else 3.6 in
  let min_voltage := if is_lfp cell_type then 2.8 else 3.2 in
  let max_voltage := if is_lfp cell_type then 3.6 else 4.0 in
  let current := 0.0 in
  u <- random_uniform 25 40 ;;
  let temp := PyNum.round u 1 in
  let capacity := PyNum.round (voltage * current) 2 in
  ret (dict_set cell_key
         (mkCellData voltage current temp capacity min_voltage max_voltage)
         cells).

(** [enumerate(xs, start)] *)
Fixpoint enumerate {A : Type} (start : nat) (xs : list A) : list (nat * A) :=
  match xs with
  | [] => []
  | x :: rest => (start, x) :: enumerate (S start) rest
  end.

Definition setup (list_of_cell : list string) : M (dict CellData) :=
  for_each (enumerate 1 list_of_cell) setup_cell [].

(** Body of the current-entry loop.  [entered] is the outcome of
    [float(input(...))]: [None] when it raises [ValueError]. *)
Definition enter_current (key : string) (entered : option Q)
    (cells : dict CellData) : option (dict CellData) :=
  let current := match entered with Some c => c | None => 0.0 end in
  match dict_get key cells with
  | None => None
  | Some cell =>
      let voltage := voltage cell in
      Some (dict_set key
              (mkCellData voltage current (temp cell)
                          (PyNum.round (voltage * current) 2)
                          (min_voltage cell) (max_voltage cell))
              cells)
  end.

End W1.

(** ** Vocabulary of the specification *)

(** [Good < Warning < Critical]. *)
Definition severity (s : Status) : nat :=
  match s with
  | Good => 0
  | Warning => 1
  | Critical => 2
  end.

Definition most_severe (a b : Status) : Status :=
  if Nat.ltb (severity a) (severity b) then b else a.

(** The three per-dimension verdicts, as the classification rules word
    them. *)
Definition voltage_dimension (specs : CellSpecs) (v : Q) : Status :=
  if PyNum.ltb v (min_voltage specs) || PyNum.gtb v (max_voltage specs)
  then Critical else Good.

Definition current_dimension (specs : CellSpecs) (c : Q) : Status :=
  if PyNum.gtb (PyNum.abs c) (max_current specs) then Warning else Good.

Definition temperature_dimension (t : Q) : Status :=
  if PyNum.gtb t 45 then Critical
  else if (PyNum.gtb t 40 && negb (PyNum.gtb t 45)) || PyNum.ltb t 0
  then Warning else Good.

Inductive Dimension : Type := OfVoltage | OfCurrent | OfTemperature.

Definition alert_dimension (a : Alert) : Dimension :=
  match a with
  | VoltageTooLow _ _ | VoltageTooHigh _ _ => OfVoltage
  | CurrentHigh _ _ => OfCurrent
  | TemperatureTooHigh _ | TemperatureElevated _ | TemperatureTooLow _ =>
      OfTemperature
  end.

(** The derived field: [round(voltage * abs(current), 2)]. *)
Definition derived_capacity (v c : Q) : Q :=
  PyNum.round (v * PyNum.abs c) 2.

(** The documented bound of the history log: 100 points per cell. *)
Definition history_cap (cell_count : nat) : nat := 100 * cell_count.

(** [random.random()] returns a value of the unit interval. *)
Definition unit_interval (u : Q) : Prop := 0 <= u /\ u <= 1.

(** How a cell of chemistry [cell_type] is seeded: nominal voltage, zero
    current, ambient temperature within [[25, 35]]. *)
Definition seeded (cell_type : string) (data : CellData) : Prop :=
  voltage data = nominal_voltage (get_cell_specs cell_type) /\
  current data == 0 /\
  25 <= temp data /\
  temp data <= 35.

(** A session as the sidebar leaves it with monitoring switched on. *)
Definition monitoring_session (cells : dict CellData)
    (history : list HistoryEntry) : Session :=
  mkSession cells history true true.

(** A world whose random source always returns [u]. *)
Definition constant_world (u : Q) : World := mkWorld (fun _ => u) 0 0.

(** A world whose random source returns the values of [us] in turn, then
    [u] for ever. *)
Definition scripted_world (us : list Q) (u : Q) : World :=
  mkWorld (fun n => nth n us u) 0 0.

(** [x] has at most [ndigits] decimals. *)
Definition has_decimals (ndigits : nat) (x : Q) : Prop :=
  exists k : Z, x == inject_Z k / PyNum.pow10 ndigits.

(** ** Buttons of the sidebar and of the settings tab *)

(** "Start Real-time Monitoring" *)
Definition start_monitoring (s : Session) : Session :=
  mkSession (cells_data s) (historical_data s) true (auto_refresh s).

(** "Stop Monitoring" *)
Definition stop_monitoring (s : Session) : Session :=
  mkSession (cells_data s) (historical_data s) false (auto_refresh s).

(** "Clear Historical Data" *)
Definition clear_historical_data (s : Session) : Session :=
  mkSession (cells_data s) [] (monitoring_active s) (auto_refresh s).

(** "Reset All Cells" *)
Definition reset_all_cells (s : Session) : Session :=
  mkSession [] [] false (auto_refresh s).

(** ** System overview *)

(** Builtin [sum]: starts from 0 and adds from the left. *)
Definition py_sum (xs : list Q) : Q := fold_left Qplus xs 0.

(** [np.mean] of a list. *)
Definition np_mean (xs : list Q) : Q :=
  py_sum xs / inject_Z (Z.of_nat (length xs)).

Definition dict_values {V : Type} (d : dict V) : list V := map snd d.

Record Overview : Type := mkOverview {
  total_voltage : Q;
  avg_temp : Q;
  total_capacity : Q;
  active_cells : nat;
  monitored_cells : nat
}.

(** "Overview metrics"; the block runs only when [cells_data] is not
    empty. *)
Definition system_overview (s : Session) : option Overview :=
  match cells_data s with
  | [] => None
  | _ :: _ =>
      let values := dict_values (cells_data s) in
      Some {| total_voltage := py_sum (map voltage values);
              avg_temp := np_mean (map temp values);
              total_capacity := py_sum (map capacity values);
              active_cells :=
                length (filter (fun data => negb (Qeq_bool (current data) 0))
                               values);
              monitored_cells := length (cells_data s) |}
  end.

(** ** System alerts *)

(** A loop whose body can raise. *)
Fixpoint try_each {A S : Type} (xs : list A) (body : A -> S -> option S)
    (acc : S) : option S :=
  match xs with
  | [] => Some acc
  | x :: rest =>
      match body x acc with
      | Some acc' => try_each rest body acc'
      | None => None
      end
  end.

(** Body of the "Status alerts" loop. *)
Definition collect_cell_alerts (item : string * CellData)
    (all_alerts : list (string * Alert)) : option (list (string * Alert)) :=
  let '(key, data) := item in
  match nth_error (split "_" key) 2 with
  | None => None
  | Some cell_type =>
      let '(status, alerts) := check_cell_status data cell_type in
      match alerts with
      | [] => Some all_alerts
      | _ :: _ => Some (all_alerts ++ map (fun alert => (key, alert)) alerts)
      end
  end.

Definition system_alerts (s : Session) : option (list (string * Alert)) :=
  try_each (cells_data s) collect_cell_alerts [].

(** What the alerts container shows. *)
Inductive AlertsContainer : Type :=
| AllCellsNormal
| Errors (all_alerts : list (string * Alert)).

Definition alerts_container (all_alerts : list (string * Alert))
    : AlertsContainer :=
  match all_alerts with
  | [] => AllCellsNormal
  | _ :: _ => Errors all_alerts
  end.

(** ** The prompts of the companion script *)

Module W1Prompt.

(** The current-entry loop over the keys of [cells_data]; [answers n] is the
    outcome of the [n]-th [float(input(...))]. *)
Fixpoint enter_currents (keys : list string) (answers : nat -> option Q)
    (n : nat) (cells : dict W1.CellData) : option (dict W1.CellData) :=
  match keys with
  | [] => Some cells
  | key :: rest =>
      match W1.enter_current key (answers n) cells with
      | Some cells' => enter_currents rest answers (S n) cells'
      | None => None
      end
  end.

(** The script from the list of entered cell types on. *)
Definition main (list_of_cell : list string) (answers : nat -> option Q)
    : M (dict W1.CellData) :=
  cells <- W1.setup list_of_cell ;;
  match enter_currents (dict_keys cells) answers 0 cells with
  | Some cells' => ret cells'
  | None => raise
  end.

End W1Prompt.

(** ** Further vocabulary *)

(** Number of occurrences of [sep] in [s]. *)
Fixpoint count (sep : ascii) (s : string) : nat :=
  match s with
  | EmptyString => 0
  | String c rest => (if Ascii.eqb c sep then 1 else 0) + count sep rest
  end.

(** The key has a third [_]-separated piece. *)
Definition names_cell_type (key : string) : Prop :=
  exists cell_type : string, nth_error (split "_" key) 2 = Some cell_type.

(** A monitored set as the dashboard builds it: distinct keys, each naming
    a chemistry. *)
Definition well_keyed (cells : dict CellData) : Prop :=
  NoDup (dict_keys cells) /\ Forall names_cell_type (dict_keys cells).

(** The reading respects the limits the simulation step enforces for the
    chemistry its key names. *)
Definition within_limits (item : string * CellData) : Prop :=
  forall cell_type : string,
    nth_error (split "_" (fst item)) 2 = Some cell_type ->
    min_voltage (get_cell_specs cell_type) <= voltage (snd item) /\
    voltage (snd item) <= max_voltage (get_cell_specs cell_type) /\
    0 <= temp (snd item) /\
    temp (snd item) <= 50 /\
    0 <= capacity (snd item).

(** [cell_type = key.split('_')[2]] followed by
    [check_cell_status(data, cell_type)], as every view of the dashboard
    does. *)
Definition classify_cell (item : string * CellData)
    : option (Status * list Alert) :=
  match nth_error (split "_" (fst item)) 2 with
  | None => None
  | Some cell_type => Some (check_cell_status (snd item) cell_type)
  end.

(** The reading a cell of chemistry [cell_type] starts with when
    [random.random()] returns [u] at time [now]. *)
Definition seeded_cell (cell_type : string) (u : Q) (now : Z) : CellData :=
  {| voltage := nominal_voltage (get_cell_specs cell_type);
     current := 0.0;
     temp := PyNum.round (25 + (35 - 25) * u) 1;
     capacity := 0.0;
     cell_min_voltage := min_voltage (get_cell_specs cell_type);
     cell_max_voltage := max_voltage (get_cell_specs cell_type);
     timestamp := now |}.

(** The key and the cell the companion script builds for position [idx]
    and type [cell_type] when [random.random()] returns [u]. *)
Definition companion_key (idx : nat) (cell_type : string) : string :=
  ("cell_" ++ str_of_nat idx ++ "_" ++ cell_type)%string.

Definition companion_cell (cell_type : string) (u : Q) : W1.CellData :=
  W1.mkCellData
    (if W1.is_lfp cell_type then 3.2 else 3.6)
    0.0
    (PyNum.round (25 + (40 - 25) * u) 1)
    (PyNum.round ((if W1.is_lfp cell_type then 3.2 else 3.6) * 0.0) 2)
    (if W1.is_lfp cell_type then 2.8 else 3.2)
    (if W1.is_lfp cell_type then 3.6 else 4.0).

(** The cell after its current has been entered. *)
Definition companion_entered (cell : W1.CellData) (entered : option Q)
    : W1.CellData :=
  let current := match entered with Some c => c | None => 0.0 end in
  W1.mkCellData (W1.voltage cell) current (W1.temp cell)
    (PyNum.round (W1.voltage cell * current) 2)
    (W1.min_voltage cell) (W1.max_voltage cell).

(** Timestamps never decrease along the log and none is later than
    [now]. *)
Definition history_ordered (now : Z) (h : list HistoryEntry) : Prop :=
  StronglySorted Z.le (map entry_timestamp h) /\
  Forall (fun e => (entry_timestamp e <= now)%Z) h.

(** ** Passes of the script as sequences of actions *)

(** Session state of a new browser session. *)
Definition initial_session : Session := mkSession [] [] false false.

(** The "Auto-refresh data" check box. *)
Definition set_auto_refresh (checked : bool) (s : Session) : Session :=
  mkSession (cells_data s) (historical_data s) (monitoring_active s) checked.

(** What a pass of the script can do to the session state.  A pass that an
    exception stops has done the actions before it; the state they left
    stays. *)
Inductive Action : Type :=
| SetupCells (num_cells : nat) (chosen : nat -> string)
| StartMonitoring
| StopMonitoring
| SetAutoRefresh (checked : bool)
| UpdateCellData (selected_cell : string) (new_voltage new_current new_temp : Q)
| MonitoringTick (refresh_interval : Z)
| ClearHistoricalData
| ResetAllCells.

Definition perform (a : Action) (s : Session) : M Session :=
  match a with
  | SetupCells num_cells chosen => setup_cells num_cells chosen s
  | StartMonitoring => ret (start_monitoring s)
  | StopMonitoring => ret (stop_monitoring s)
  | SetAutoRefresh checked => ret (set_auto_refresh checked s)
  | UpdateCellData selected_cell new_voltage new_current new_temp =>
      update_cell_data selected_cell new_voltage new_current new_temp s
  | MonitoringTick refresh_interval => monitoring_tick refresh_interval s
  | ClearHistoricalData => ret (clear_historical_data s)
  | ResetAllCells => ret (reset_all_cells s)
  end.

Fixpoint perform_all (actions : list Action) (s : Session) : M Session :=
  match actions with
  | [] => ret s
  | a :: rest => s' <- perform a s ;; perform_all rest s'
  end.

(** The values the widgets of the sidebar deliver: 1 to 16 cells, a voltage
    within [[0, 5]], a temperature within [[-20, 80]], a refresh interval of
    1, 2, 5 or 10. *)
Definition widget_values (a : Action) : Prop :=
  match a with
  | SetupCells num_cells _ => (1 <= num_cells <= 16)%nat
  | UpdateCellData _ new_voltage _ new_temp =>
      0 <= new_voltage /\ new_voltage <= 5 /\
      -20 <= new_temp /\ new_temp <= 80
  | MonitoringTick refresh_interval => In refresh_interval [1; 2; 5; 10]%Z
  | _ => True
  end.

(** The readings of a cell lie in the ranges of the sidebar's inputs. *)
Definition fits_inputs (data : CellData) : Prop :=
  0 <= voltage data /\ voltage data <= 5 /\
  -20 <= temp data /\ temp data <= 80 /\
  0 <= capacity data.

(** A session state the dashboard can be in. *)
Definition sound_session (s : Session) : Prop :=
  well_keyed (cells_data s) /\
  (length (cells_data s) <= 16)%nat /\
  (length (historical_data s) <= 800)%nat /\
  Forall (fun item => fits_inputs (snd item)) (cells_data s).

(** * Properties *)

(** ** Comparisons and rounding *)

Lemma ltb_lt (x y : Q) : PyNum.ltb x y = true <-> x < y.
Proof.
  unfold PyNum.ltb. rewrite negb_true_iff.
  split; intro H.
  - apply Qnot_le_lt. intro Hle. apply Qle_bool_iff in Hle. congruence.
  - destruct (Qle_bool y x) eqn:E; [|reflexivity].
    apply Qle_bool_iff in E. exfalso. exact (Qlt_not_le _ _ H E).
Qed.

Lemma ltb_ge (x y : Q) : PyNum.ltb x y = false <-> y <= x.
Proof.
  unfold PyNum.ltb. rewrite negb_false_iff. apply Qle_bool_iff.
Qed.

Lemma max_lower (a b : Q) : a <= PyNum.max a b.
Proof.
  unfold PyNum.max. destruct (PyNum.ltb a b) eqn:E.
  - apply ltb_lt in E. apply Qlt_le_weak. exact E.
  - apply Qle_refl.
Qed.

Lemma max_upper (a b c : Q) : a <= c -> b <= c -> PyNum.max a b <= c.
Proof.
  intros Ha Hb. unfold PyNum.max. destruct (PyNum.ltb a b); assumption.
Qed.

Lemma min_upper (a b : Q) : PyNum.min a b <= a.
Proof.
  unfold PyNum.min. destruct (PyNum.ltb b a) eqn:E.
  - apply ltb_lt in E. apply Qlt_le_weak. exact E.
  - apply Qle_refl.
Qed.

(** Clamping [x] into [[lo, hi]] the way the source nests [max] and [min]. *)
Lemma clamp_bounds (lo hi x : Q) :
  lo <= hi -> lo <= PyNum.max lo (PyNum.min hi x) <= hi.
Proof.
  intro H. split.
  - apply max_lower.
  - apply max_upper; [exact H | apply min_upper].
Qed.

Lemma round_half_even_lower (k : Z) (y : Q) :
  inject_Z k <= y -> (k <= PyNum.round_half_even y)%Z.
Proof.
  destruct y as [n d]. unfold Qle, PyNum.round_half_even. cbn [Qnum Qden inject_Z].
  intro H.
  assert (Hq : (k <= n / Zpos d)%Z) by (apply Z.div_le_lower_bound; lia).
  destruct (2 * (n mod Zpos d) ?= Zpos d)%Z; [destruct (Z.even _)| |]; lia.
Qed.

Lemma round_half_even_upper (k : Z) (y : Q) :
  y <= inject_Z k -> (PyNum.round_half_even y <= k)%Z.
Proof.
  destruct y as [n d]. unfold Qle, PyNum.round_half_even. cbn [Qnum Qden inject_Z].
  intro H.
  pose proof (Z.div_mod n (Zpos d) ltac:(lia)) as Hdm.
  pose proof (Z.mod_pos_bound n (Zpos d) ltac:(lia)) as Hr.
  assert (Hq : (n / Zpos d <= k)%Z) by nia.
  assert (Hq1 : (0 < n mod Zpos d -> n / Zpos d + 1 <= k)%Z) by nia.
  destruct (2 * (n mod Zpos d) ?= Zpos d)%Z eqn:E.
  - apply Z.compare_eq in E. destruct (Z.even _); lia.
  - lia.
  - apply Z.compare_gt_iff in E. lia.
Qed.

Lemma pow10_pos (ndigits : nat) : 0 < PyNum.pow10 ndigits.
Proof.
  unfold PyNum.pow10, Qlt. cbn [Qnum Qden inject_Z].
  pose proof (Z.pow_pos_nonneg 10 (Z.of_nat ndigits)). lia.
Qed.

(** Rounding to [ndigits] decimals never crosses a bound that itself has at
    most [ndigits] decimals. *)
Lemma round_lower (ndigits : nat) (lo x : Q) :
  has_decimals ndigits lo -> lo <= x -> lo <= PyNum.round x ndigits.
Proof.
  intros [k Hk] H. rewrite Hk in *. unfold PyNum.round.
  pose proof (pow10_pos ndigits) as Hp.
  apply Qmult_le_r with (z := PyNum.pow10 ndigits); [exact Hp|].
  assert (Hne : ~ PyNum.pow10 ndigits == 0)
    by (intro E; rewrite E in Hp; discriminate).
  unfold Qdiv. rewrite <- !Qmult_assoc, (Qmult_comm (/ _)), Qmult_inv_r, !Qmult_1_r by exact Hne.
  rewrite <- Zle_Qle. apply round_half_even_lower.
  apply Qmult_le_r with (z := PyNum.pow10 ndigits) in H; [|exact Hp].
  unfold Qdiv in H.
  rewrite <- Qmult_assoc, (Qmult_comm (/ _)), Qmult_inv_r, Qmult_1_r in H by exact Hne.
  exact H.
Qed.

Lemma round_upper (ndigits : nat) (hi x : Q) :
  has_decimals ndigits hi -> x <= hi -> PyNum.round x ndigits <= hi.
Proof.
  intros [k Hk] H. rewrite Hk in *. unfold PyNum.round.
  pose proof (pow10_pos ndigits) as Hp.
  apply Qmult_le_r with (z := PyNum.pow10 ndigits); [exact Hp|].
  assert (Hne : ~ PyNum.pow10 ndigits == 0)
    by (intro E; rewrite E in Hp; discriminate).
  unfold Qdiv. rewrite <- !Qmult_assoc, (Qmult_comm (/ _)), Qmult_inv_r, !Qmult_1_r by exact Hne.
  rewrite <- Zle_Qle. apply round_half_even_upper.
  apply Qmult_le_r with (z := PyNum.pow10 ndigits) in H; [|exact Hp].
  unfold Qdiv in H.
  rewrite <- Qmult_assoc, (Qmult_comm (/ _)), Qmult_inv_r, Qmult_1_r in H by exact Hne.
  exact H.
Qed.

(** ** The specification table *)

(** The table has four rows and every lookup lands on one of them. *)
Lemma get_cell_specs_cases (cell_type : string) :
  get_cell_specs cell_type = mkCellSpecs 3.2 2.8 3.6 100 "#2E8B57" \/
  get_cell_specs cell_type = mkCellSpecs 3.6 3.2 4.0 120 "#4169E1" \/
  get_cell_specs cell_type = mkCellSpecs 2.4 1.5 2.8 200 "#FF6347" \/
  get_cell_specs cell_type = mkCellSpecs 3.3 2.5 3.65 150 "#9370DB".
Proof.
  unfold get_cell_specs, specs. cbn [dict_get String.eqb Ascii.eqb Bool.eqb].
  repeat match goal with
         | |- context [String.eqb ?a ?b] => destruct (String.eqb a b)
         end; auto.
Qed.

(** C5: a chemistry identifier outside the table is answered with the
    [lfp] row, without failure, and each of the four identifiers of the table
    is answered with its own row; the lookup is a function of its argument
    alone. *)
Theorem get_cell_specs_defaults_to_lfp :
  (forall cell_type : string,
      ~ In cell_type ["lfp"; "nmc"; "lto"; "lifepo4"]%string ->
      get_cell_specs cell_type = mkCellSpecs 3.2 2.8 3.6 100 "#2E8B57") /\
  get_cell_specs "lfp" = mkCellSpecs 3.2 2.8 3.6 100 "#2E8B57" /\
  get_cell_specs "nmc" = mkCellSpecs 3.6 3.2 4.0 120 "#4169E1" /\
  get_cell_specs "lto" = mkCellSpecs 2.4 1.5 2.8 200 "#FF6347" /\
  get_cell_specs "lifepo4" = mkCellSpecs 3.3 2.5 3.65 150 "#9370DB" /\
  (forall cell_type : string,
      dict_get cell_type specs = Some (get_cell_specs cell_type) \/
      (dict_get cell_type specs = None /\
       dict_get "lfp" specs = Some (get_cell_specs cell_type))).
Proof.
  split; [|repeat split; try reflexivity].
  - intros cell_type Hnot. unfold get_cell_specs, specs, dict_get.
    destruct (String.eqb cell_type "lfp") eqn:E1;
      [apply String.eqb_eq in E1; subst; exfalso; apply Hnot; simpl; auto|].
    destruct (String.eqb cell_type "nmc") eqn:E2;
      [apply String.eqb_eq in E2; subst; exfalso; apply Hnot; simpl; auto|].
    destruct (String.eqb cell_type "lto") eqn:E3;
      [apply String.eqb_eq in E3; subst; exfalso; apply Hnot; simpl; auto|].
    destruct (String.eqb cell_type "lifepo4") eqn:E4;
      [apply String.eqb_eq in E4; subst; exfalso; apply Hnot; simpl; auto|].
    reflexivity.
  - intro cell_type. unfold get_cell_specs.
    destruct (dict_get cell_type specs); [left|right]; auto.
Qed.

Lemma get_cell_specs_defaults_to_lfp_witness :
  ~ In "nicd"%string ["lfp"; "nmc"; "lto"; "lifepo4"]%string /\
  get_cell_specs "nicd" = mkCellSpecs 3.2 2.8 3.6 100 "#2E8B57".
Proof.
  assert (H : ~ In "nicd"%string ["lfp"; "nmc"; "lto"; "lifepo4"]%string).
  { simpl. intros [H|[H|[H|[H|[]]]]]; discriminate H. }
  split; [exact H|].
  exact (proj1 get_cell_specs_defaults_to_lfp "nicd"%string H).
Defined.

Lemma get_cell_specs_ordered (cell_type : string) :
  min_voltage (get_cell_specs cell_type) < nominal_voltage (get_cell_specs cell_type) /\
  nominal_voltage (get_cell_specs cell_type) < max_voltage (get_cell_specs cell_type) /\
  0 <= max_current (get_cell_specs cell_type).
Proof.
  destruct (get_cell_specs_cases cell_type) as [H|[H|[H|H]]]; rewrite H;
    repeat split; discriminate.
Qed.

Lemma specs_bounds_ordered (cell_type : string) :
  min_voltage (get_cell_specs cell_type) <= max_voltage (get_cell_specs cell_type).
Proof.
  destruct (get_cell_specs_ordered cell_type) as (H1 & H2 & _).
  apply Qlt_le_weak. eapply Qlt_trans; eassumption.
Qed.

(** C8: each of the four rows of the table ([lfp], [nmc], [lto],
    [lifepo4]) has [min_voltage < nominal_voltage < max_voltage] and a
    non-negative [max_current]; so has whatever a lookup returns. *)
Theorem specs_rows_ordered :
  map fst specs = ["lfp"; "nmc"; "lto"; "lifepo4"]%string /\
  Forall (fun row : string * CellSpecs =>
            min_voltage (snd row) < nominal_voltage (snd row) /\
            nominal_voltage (snd row) < max_voltage (snd row) /\
            0 <= max_current (snd row))
         specs /\
  forall cell_type : string,
    min_voltage (get_cell_specs cell_type) < nominal_voltage (get_cell_specs cell_type) /\
    nominal_voltage (get_cell_specs cell_type) < max_voltage (get_cell_specs cell_type) /\
    0 <= max_current (get_cell_specs cell_type).
Proof.
  split; [reflexivity|split].
  - unfold specs. repeat constructor; discriminate.
  - exact get_cell_specs_ordered.
Qed.

(** The voltage bounds of the table are written with at most three
    decimals. *)
Lemma specs_bounds_decimals (cell_type : string) :
  has_decimals 3 (min_voltage (get_cell_specs cell_type)) /\
  has_decimals 3 (max_voltage (get_cell_specs cell_type)).
Proof.
  destruct (get_cell_specs_cases cell_type) as [H|[H|[H|H]]]; rewrite H;
    cbn [min_voltage max_voltage]; split.
  - exists 2800%Z. reflexivity.
  - exists 3600%Z. reflexivity.
  - exists 3200%Z. reflexivity.
  - exists 4000%Z. reflexivity.
  - exists 1500%Z. reflexivity.
  - exists 2800%Z. reflexivity.
  - exists 2500%Z. reflexivity.
  - exists 3650%Z. reflexivity.
Qed.

(** ** Status classification *)

Ltac case_tests :=
  repeat match goal with
         | |- context [PyNum.ltb ?a ?b] =>
             let E := fresh "E" in destruct (PyNum.ltb a b) eqn:E
         end.

(** Turns the outcomes of the tests into facts of [Q]. *)
Ltac test_facts :=
  repeat match goal with
         | E : PyNum.ltb _ _ = true |- _ => apply ltb_lt in E
         | E : PyNum.ltb _ _ = false |- _ => apply ltb_ge in E
         end.

Lemma voltage_dimension_critical (specs : CellSpecs) (v : Q) :
  voltage_dimension specs v = Critical <->
  v < min_voltage specs \/ max_voltage specs < v.
Proof.
  unfold voltage_dimension, PyNum.gtb. rewrite <- !ltb_lt.
  case_tests; cbn; intuition congruence.
Qed.

Lemma current_dimension_warning (specs : CellSpecs) (c : Q) :
  current_dimension specs c = Warning <-> max_current specs < Qabs c.
Proof.
  unfold current_dimension, PyNum.gtb, PyNum.abs. rewrite <- ltb_lt.
  case_tests; intuition congruence.
Qed.

Lemma temperature_dimension_critical (t : Q) :
  temperature_dimension t = Critical <-> 45 < t.
Proof.
  unfold temperature_dimension, PyNum.gtb. rewrite <- ltb_lt.
  case_tests; cbn; intuition congruence.
Qed.

Lemma temperature_dimension_warning (t : Q) :
  temperature_dimension t = Warning <-> (40 < t /\ t <= 45) \/ t < 0.
Proof.
  unfold temperature_dimension, PyNum.gtb.
  case_tests; test_facts; cbn; intuition (try congruence; try lra).
Qed.

(** C4: the status of [check_cell_status] is the most severe of the three
    per-dimension verdicts (voltage, current, temperature) under
    [Good < Warning < Critical]; it is never below any single verdict, and
    running the three blocks of checks in any of the six orders gives the
    same status. *)
Theorem check_cell_status_most_severe (cell_data : CellData) (cell_type : string) :
  let specs := get_cell_specs cell_type in
  let dv := voltage_dimension specs (voltage cell_data) in
  let dc := current_dimension specs (current cell_data) in
  let dt := temperature_dimension (temp cell_data) in
  let V := voltage_checks specs (voltage cell_data) in
  let C := current_checks specs (current cell_data) in
  let T := temperature_checks (temp cell_data) in
  let status := fst (check_cell_status cell_data cell_type) in
  status = most_severe (most_severe dv dc) dt /\
  (severity dv <= severity status)%nat /\
  (severity dc <= severity status)%nat /\
  (severity dt <= severity status)%nat /\
  (dv = Critical <->
     voltage cell_data < min_voltage specs \/ max_voltage specs < voltage cell_data) /\
  (dc = Warning <-> max_current specs < Qabs (current cell_data)) /\
  (dt = Critical <-> 45 < temp cell_data) /\
  (dt = Warning <->
     (40 < temp cell_data /\ temp cell_data <= 45) \/ temp cell_data < 0) /\
  status = fst (T (C (V (Good, [])))) /\
  status = fst (C (T (V (Good, [])))) /\
  status = fst (T (V (C (Good, [])))) /\
  status = fst (V (T (C (Good, [])))) /\
  status = fst (C (V (T (Good, [])))) /\
  status = fst (V (C (T (Good, [])))).
Proof.
  cbv zeta.
  repeat match goal with |- _ /\ _ => split end;
    try apply voltage_dimension_critical;
    try apply current_dimension_warning;
    try apply temperature_dimension_critical;
    try apply temperature_dimension_warning;
    unfold check_cell_status, voltage_checks, current_checks,
      temperature_checks, voltage_dimension, current_dimension,
      temperature_dimension, PyNum.gtb;
    case_tests; cbn; try reflexivity; try lia.
Qed.

(** C7: the alerts come as at most one voltage alert, then at most one
    current alert, then at most one temperature alert; the current alert is
    there exactly when [abs(current) > max_current], whatever the other two
    dimensions say; and the status is [Good] exactly when there is no
    alert. *)
Theorem check_cell_status_alert_order (cell_data : CellData) (cell_type : string) :
  let specs := get_cell_specs cell_type in
  let status := fst (check_cell_status cell_data cell_type) in
  let alerts := snd (check_cell_status cell_data cell_type) in
  (exists va ca ta : list Alert,
      alerts = va ++ ca ++ ta /\
      Forall (fun a => alert_dimension a = OfVoltage) va /\
      (length va <= 1)%nat /\
      Forall (fun a => alert_dimension a = OfCurrent) ca /\
      (length ca <= 1)%nat /\
      Forall (fun a => alert_dimension a = OfTemperature) ta /\
      (length ta <= 1)%nat /\
      (va = [] <->
         min_voltage specs <= voltage cell_data /\
         voltage cell_data <= max_voltage specs) /\
      (ca = [CurrentHigh (Qabs (current cell_data)) (max_current specs)] <->
         max_current specs < Qabs (current cell_data)) /\
      (ca = [] <-> Qabs (current cell_data) <= max_current specs) /\
      (ta = [] <-> 0 <= temp cell_data /\ temp cell_data <= 40)) /\
  (status = Good <-> alerts = []).
Proof.
  cbv zeta.
  unfold check_cell_status, voltage_checks, current_checks,
    temperature_checks, PyNum.gtb, PyNum.abs.
  generalize (get_cell_specs cell_type). intros [nominal lo hi maxc col].
  destruct cell_data as [v c t cap cmin cmax ts].
  cbn [voltage current temp min_voltage max_voltage max_current].
  generalize (Qabs c). intro ac.
  split.
  - exists (if PyNum.ltb v lo then [VoltageTooLow v lo]
            else if PyNum.ltb hi v then [VoltageTooHigh v hi] else []),
           (if PyNum.ltb maxc ac then [CurrentHigh ac maxc] else []),
           (if PyNum.ltb 45 t then [TemperatureTooHigh t]
            else if PyNum.ltb 40 t then [TemperatureElevated t]
            else if PyNum.ltb t 0 then [TemperatureTooLow t] else []).
    case_tests; test_facts; cbn [app fst snd length alert_dimension];
      repeat match goal with |- _ /\ _ => split end;
      try reflexivity; try lia; try (repeat constructor; fail);
      intuition (try congruence; try lra).
  - case_tests; cbn; split; intros; congruence.
Qed.

(** C10: two readings with the same voltage, current and temperature get
    the same status and the same alerts for any chemistry identifier; the
    capacity, the timestamp and the bounds stored on the reading play no
    part. *)
Theorem check_cell_status_reads_three_fields
    (d1 d2 : CellData) (cell_type : string) :
  voltage d1 = voltage d2 ->
  current d1 = current d2 ->
  temp d1 = temp d2 ->
  check_cell_status d1 cell_type = check_cell_status d2 cell_type.
Proof.
  intros Hv Hc Ht. unfold check_cell_status. rewrite Hv, Hc, Ht. reflexivity.
Qed.

Lemma check_cell_status_reads_three_fields_witness :
  voltage (mkCellData 2.5 150 46 375 2.8 3.6 10) =
    voltage (mkCellData 2.5 150 46 0 0 9 77) /\
  current (mkCellData 2.5 150 46 375 2.8 3.6 10) =
    current (mkCellData 2.5 150 46 0 0 9 77) /\
  temp (mkCellData 2.5 150 46 375 2.8 3.6 10) =
    temp (mkCellData 2.5 150 46 0 0 9 77) /\
  check_cell_status (mkCellData 2.5 150 46 375 2.8 3.6 10) "lfp" =
    check_cell_status (mkCellData 2.5 150 46 0 0 9 77) "lfp".
Proof.
  split; [reflexivity|]. split; [reflexivity|]. split; [reflexivity|].
  apply (check_cell_status_reads_three_fields
           (mkCellData 2.5 150 46 375 2.8 3.6 10)
           (mkCellData 2.5 150 46 0 0 9 77) "lfp"); reflexivity.
Defined.

(** The worked readings of the specification. *)
Example low_voltage_is_critical :
  check_cell_status (mkCellData 2.5 0 30 0 2.8 3.6 0) "lfp" =
  (Critical, [VoltageTooLow 2.5 2.8]).
Proof. reflexivity. Qed.

Example high_current_is_warning :
  check_cell_status (mkCellData 3.2 150 30 480 2.8 3.6 0) "lfp" =
  (Warning, [CurrentHigh 150 100]).
Proof. reflexivity. Qed.

Example hot_cell_is_critical :
  fst (check_cell_status (mkCellData 3.2 0 46 0 2.8 3.6 0) "lfp") = Critical.
Proof. reflexivity. Qed.

(** ** The simulation step *)

Lemma unit_decimals : has_decimals 1 0 /\ has_decimals 1 50.
Proof.
  split; [exists 0%Z | exists 500%Z]; reflexivity.
Qed.

(** C6: whenever the key names a chemistry (its third [_]-separated piece),
    the simulation step returns a reading whose voltage lies within the
    chemistry's [[min_voltage, max_voltage]] and whose temperature lies
    within [[0, 50]], both clamped before the display rounding; the current
    is the prior current plus its draw, rounded and not clamped. *)
Theorem simulate_real_time_data_bounds
    (cell_key : string) (base_data : CellData) (w : World) (cell_type : string) :
  nth_error (split "_" cell_key) 2 = Some cell_type ->
  exists (data : CellData) (w' : World),
    simulate_real_time_data cell_key base_data w = Some (data, w') /\
    min_voltage (get_cell_specs cell_type) <= voltage data /\
    voltage data <= max_voltage (get_cell_specs cell_type) /\
    0 <= temp data /\
    temp data <= 50 /\
    voltage data =
      PyNum.round
        (PyNum.max (min_voltage (get_cell_specs cell_type))
           (PyNum.min (max_voltage (get_cell_specs cell_type))
              (voltage base_data +
               (-0.05 + (0.05 - -0.05) * unit_draws w (drawn w))))) 3 /\
    temp data =
      PyNum.round
        (PyNum.max 0
           (PyNum.min 50
              (temp base_data +
               (-1.0 + (1.0 - -1.0) * unit_draws w (S (drawn w)))))) 1 /\
    current data =
      PyNum.round
        (current base_data +
         (-2.0 + (2.0 - -2.0) * unit_draws w (S (S (drawn w))))) 2.
Proof.
  intro Hkey. unfold simulate_real_time_data. rewrite Hkey.
  unfold bind, random_uniform, datetime_now, ret.
  cbn [unit_draws drawn clock].
  eexists. eexists. split; [reflexivity|].
  cbn [voltage temp current].
  destruct (specs_bounds_decimals cell_type) as [Hlo Hhi].
  destruct unit_decimals as [H0 H50].
  pose proof (specs_bounds_ordered cell_type) as Hord.
  repeat split.
  - apply round_lower; [exact Hlo|]. apply clamp_bounds. exact Hord.
  - apply round_upper; [exact Hhi|]. apply clamp_bounds. exact Hord.
  - apply round_lower; [exact H0|]. apply clamp_bounds. discriminate.
  - apply round_upper; [exact H50|]. apply clamp_bounds. discriminate.
Qed.

Lemma simulate_real_time_data_bounds_witness :
  nth_error (split "_" "cell_1_lfp") 2 = Some "lfp"%string /\
  exists (data : CellData) (w' : World),
    simulate_real_time_data "cell_1_lfp"
      (mkCellData 3.59 10 49.5 35.9 2.8 3.6 0) (constant_world 1) =
      Some (data, w') /\
    min_voltage (get_cell_specs "lfp") <= voltage data /\
    voltage data <= max_voltage (get_cell_specs "lfp") /\
    0 <= temp data /\
    temp data <= 50.
Proof.
  split; [reflexivity|].
  destruct (simulate_real_time_data_bounds "cell_1_lfp"
              (mkCellData 3.59 10 49.5 35.9 2.8 3.6 0) (constant_world 1)
              "lfp" eq_refl)
    as (data & w' & Hrun & H1 & H2 & H3 & H4 & _).
  exists data, w'. repeat split; assumption.
Defined.

(** ** The derived capacity *)

Lemma dict_get_set_same {V : Type} (k : string) (v : V) (d : dict V) :
  dict_get k (dict_set k v d) = Some v.
Proof.
  induction d as [|[k' v'] rest IH]; cbn.
  - rewrite String.eqb_refl. reflexivity.
  - destruct (String.eqb k k') eqn:E; cbn; rewrite E; [reflexivity | exact IH].
Qed.

(** C1, as stated, fails on the simulation step: with the draws 0.504, 0.5
    and 0.501 a cell at 3.2 V and 10 A is stored with voltage 3.2, current
    10 and capacity 32.02, while the formula on the stored values gives
    32. *)
Lemma simulate_capacity_not_from_stored_values :
  exists (data : CellData) (w' : World),
    simulate_real_time_data "cell_1_lfp" (mkCellData 3.2 10 30 32 2.8 3.6 0)
      (scripted_world [0.504; 0.5; 0.501] 0.5) = Some (data, w') /\
    voltage data == 3.2 /\
    current data == 10 /\
    capacity data == 32.02 /\
    derived_capacity (voltage data) (current data) == 32 /\
    ~ capacity data == derived_capacity (voltage data) (current data).
Proof.
  eexists. eexists. split; [cbv; reflexivity|].
  repeat split; try reflexivity.
  vm_compute. discriminate.
Qed.

(** C1, amended: a manual update stores
    [round(voltage * abs(current), 2)] of the very voltage and current it
    stores; the simulation step stores [round(v * abs(c), 2)] of the clamped
    voltage [v] and the perturbed current [c] as they are before the display
    rounding, [round(v, 3)] and [round(c, 2)] being the stored voltage and
    current.  In both the capacity is computed from these inputs alone. *)
Theorem capacity_is_derived :
  (forall (selected_cell : string) (new_voltage new_current new_temp : Q)
          (s : Session) (w : World) (old : CellData),
      dict_get selected_cell (cells_data s) = Some old ->
      exists (s' : Session) (data : CellData),
        update_cell_data selected_cell new_voltage new_current new_temp s w =
          Some (s', w) /\
        dict_get selected_cell (cells_data s') = Some data /\
        voltage data = new_voltage /\
        current data = new_current /\
        capacity data = derived_capacity (voltage data) (current data)) /\
  (forall (cell_key : string) (base_data : CellData) (w : World)
          (cell_type : string),
      nth_error (split "_" cell_key) 2 = Some cell_type ->
      exists (data : CellData) (w' : World) (v c : Q),
        simulate_real_time_data cell_key base_data w = Some (data, w') /\
        v = PyNum.max (min_voltage (get_cell_specs cell_type))
              (PyNum.min (max_voltage (get_cell_specs cell_type))
                 (voltage base_data +
                  (-0.05 + (0.05 - -0.05) * unit_draws w (drawn w)))) /\
        c = current base_data +
            (-2.0 + (2.0 - -2.0) * unit_draws w (S (S (drawn w)))) /\
        voltage data = PyNum.round v 3 /\
        current data = PyNum.round c 2 /\
        capacity data = derived_capacity v c).
Proof.
  split.
  - intros selected_cell new_voltage new_current new_temp s w old Hold.
    unfold update_cell_data. rewrite Hold.
    unfold bind, datetime_now, ret.
    eexists. eexists. split; [reflexivity|].
    cbn [cells_data]. rewrite dict_get_set_same.
    repeat split.
  - intros cell_key base_data w cell_type Hkey.
    unfold simulate_real_time_data. rewrite Hkey.
    unfold bind, random_uniform, datetime_now, ret.
    cbn [unit_draws drawn clock].
    do 4 eexists. split; [reflexivity|].
    repeat split.
Qed.

Lemma capacity_is_derived_witness :
  (dict_get "cell_1_lfp"
     (cells_data (monitoring_session
                    [("cell_1_lfp"%string, mkCellData 3.2 0 30 0 2.8 3.6 0)] [])) =
     Some (mkCellData 3.2 0 30 0 2.8 3.6 0) /\
   exists (s' : Session) (data : CellData),
     update_cell_data "cell_1_lfp" 3.3 (-12.5) 31
       (monitoring_session
          [("cell_1_lfp"%string, mkCellData 3.2 0 30 0 2.8 3.6 0)] [])
       (constant_world 0.5) = Some (s', constant_world 0.5) /\
     dict_get "cell_1_lfp" (cells_data s') = Some data /\
     capacity data = derived_capacity (voltage data) (current data)) /\
  (nth_error (split "_" "cell_1_lfp") 2 = Some "lfp"%string /\
   exists (data : CellData) (w' : World) (v c : Q),
     simulate_real_time_data "cell_1_lfp" (mkCellData 3.2 10 30 32 2.8 3.6 0)
       (scripted_world [0.504; 0.5; 0.501] 0.5) = Some (data, w') /\
     voltage data = PyNum.round v 3 /\
     current data = PyNum.round c 2 /\
     capacity data = derived_capacity v c).
Proof.
  split.
  - split; [reflexivity|].
    destruct (proj1 capacity_is_derived "cell_1_lfp"%string 3.3 (-12.5) 31
                (monitoring_session
                   [("cell_1_lfp"%string, mkCellData 3.2 0 30 0 2.8 3.6 0)] [])
                (constant_world 0.5) (mkCellData 3.2 0 30 0 2.8 3.6 0) eq_refl)
      as (s' & data & Hrun & Hget & _ & _ & Hcap).
    exists s', data. repeat split; assumption.
  - split; [reflexivity|].
    destruct (proj2 capacity_is_derived "cell_1_lfp"%string
                (mkCellData 3.2 10 30 32 2.8 3.6 0)
                (scripted_world [0.504; 0.5; 0.501] 0.5) "lfp"%string eq_refl)
      as (data & w' & v & c & Hrun & _ & _ & Hv & Hc & Hcap).
    exists data, w', v, c. repeat split; assumption.
Defined.

(** ** Cell keys *)

Lemma split_without_sep (sep : ascii) (s : string) :
  contains sep s = false -> split sep s = [s].
Proof.
  induction s as [|c rest IH]; cbn; [reflexivity|].
  intro H. apply orb_false_iff in H. destruct H as [Hc Hrest].
  rewrite Hc, (IH Hrest). reflexivity.
Qed.

Lemma split_at_first_sep (sep : ascii) (s t : string) :
  contains sep s = false ->
  split sep (s ++ String sep t) = s :: split sep t.
Proof.
  induction s as [|c rest IH]; cbn.
  - intros _. rewrite Ascii.eqb_refl. reflexivity.
  - intro H. apply orb_false_iff in H. destruct H as [Hc Hrest].
    rewrite Hc, (IH Hrest). reflexivity.
Qed.

Lemma string_of_uint_digits (d : Decimal.uint) :
  contains "_" (NilEmpty.string_of_uint d) = false.
Proof.
  induction d; cbn; auto.
Qed.

Lemma str_of_nat_inj (n m : nat) : str_of_nat n = str_of_nat m -> n = m.
Proof.
  unfold str_of_nat. intro H.
  apply Unsigned.to_uint_inj.
  pose proof (NilEmpty.usu (Nat.to_uint n)) as Hn.
  pose proof (NilEmpty.usu (Nat.to_uint m)) as Hm.
  rewrite H in Hn. congruence.
Qed.

(** The pieces of a key built by the initialisation loop. *)
Lemma split_cell_key_of (i : nat) (cell_type : string) :
  split "_" (cell_key_of i cell_type) =
  "cell"%string :: str_of_nat (i + 1) :: split "_" cell_type.
Proof.
  unfold cell_key_of.
  change ("cell_" ++ str_of_nat (i + 1) ++ "_" ++ cell_type)%string
    with ("cell" ++ String "_" (str_of_nat (i + 1) ++ String "_" cell_type))%string.
  rewrite split_at_first_sep by reflexivity.
  rewrite split_at_first_sep by apply string_of_uint_digits.
  reflexivity.
Qed.

Lemma cell_key_of_inj (i j : nat) (a b : string) :
  cell_key_of i a = cell_key_of j b -> i = j.
Proof.
  intro H. apply (f_equal (split "_")) in H.
  rewrite !split_cell_key_of in H.
  injection H as H _. apply str_of_nat_inj in H. lia.
Qed.

(** A chemistry chosen in a select box is found again in the key. *)
Lemma cell_key_of_names_type (i : nat) (cell_type : string) :
  In cell_type cell_types ->
  nth_error (split "_" (cell_key_of i cell_type)) 2 = Some cell_type.
Proof.
  intro H. rewrite split_cell_key_of. cbn [nth_error].
  rewrite split_without_sep; [reflexivity|].
  unfold cell_types in H. cbn in H.
  destruct H as [H|[H|[H|[H|[]]]]]; subst; reflexivity.
Qed.

Lemma dict_set_fresh {V : Type} (k : string) (v : V) (d : dict V) :
  ~ In k (dict_keys d) -> dict_set k v d = d ++ [(k, v)].
Proof.
  induction d as [|[k' v'] rest IH]; cbn; [reflexivity|].
  intro H. destruct (String.eqb k k') eqn:E.
  - apply String.eqb_eq in E. subst. exfalso. apply H. left. reflexivity.
  - rewrite IH; [reflexivity|]. intro Hin. apply H. right. exact Hin.
Qed.

Lemma dict_set_keys {V : Type} (k : string) (v : V) (d : dict V) :
  In k (dict_keys d) -> dict_keys (dict_set k v d) = dict_keys d.
Proof.
  induction d as [|[k' v'] rest IH]; cbn; [intros []|].
  intro H. destruct (String.eqb k k') eqn:E; cbn; [reflexivity|].
  f_equal. apply IH. destruct H as [H|H]; [|exact H].
  subst. rewrite String.eqb_refl in E. discriminate.
Qed.

Lemma dict_get_in_keys {V : Type} (k : string) (d : dict V) :
  In k (dict_keys d) -> exists v, dict_get k d = Some v.
Proof.
  induction d as [|[k' v'] rest IH]; cbn; [intros []|].
  intro H. destruct (String.eqb k k') eqn:E; [eauto|].
  apply IH. destruct H as [H|H]; [|exact H].
  subst. rewrite String.eqb_refl in E. discriminate.
Qed.

(** ** Cell initialisation *)

Lemma uniform_within (a b u : Q) :
  a <= b -> unit_interval u -> a <= a + (b - a) * u /\ a + (b - a) * u <= b.
Proof.
  intros Hab [H0 H1].
  assert (Hlo : 0 <= (b - a) * u) by (apply Qmult_le_0_compat; lra).
  assert (Hhi : (b - a) * u <= (b - a) * 1)
    by (rewrite !(Qmult_comm (b - a)); apply Qmult_le_compat_r; lra).
  lra.
Qed.

Lemma ambient_decimals : has_decimals 1 25 /\ has_decimals 1 35.
Proof.
  split; [exists 250%Z | exists 350%Z]; reflexivity.
Qed.

Section Initialisation.

Variable chosen : nat -> string.

(** The initialisation loop, written out: one cell per index, appended in
    order, each with the next value of the random source. *)
Lemma init_loop_cells (len : nat) :
  forall (start : nat) (acc : dict CellData) (w : World),
    (forall k, In k (dict_keys acc) ->
               exists j, (j < start)%nat /\ k = cell_key_of j (chosen j)) ->
    for_each (seq start len) (init_cell chosen) acc w =
    Some (acc ++
          map (fun i => (cell_key_of i (chosen i),
                         seeded_cell (chosen i)
                           (unit_draws w (drawn w + (i - start))) (clock w)))
              (seq start len),
          mkWorld (unit_draws w) (drawn w + len) (clock w)).
Proof.
  induction len as [|len IH]; intros start acc w Hkeys.
  - cbn. rewrite app_nil_r, Nat.add_0_r. destruct w. reflexivity.
  - cbn [seq for_each map]. unfold bind at 1.
    unfold init_cell at 1. unfold bind, random_uniform, datetime_now, ret.
    rewrite dict_set_fresh.
    2:{ intro Hin. destruct (Hkeys _ Hin) as (j & Hj & E).
        apply cell_key_of_inj in E. lia. }
    rewrite IH.
    + cbn [unit_draws drawn clock]. rewrite <- app_assoc. cbn [app].
      rewrite (map_ext_in _
                 (fun i => (cell_key_of i (chosen i),
                            seeded_cell (chosen i)
                              (unit_draws w (drawn w + (i - start))) (clock w)))
                 (seq (S start) len)).
      * rewrite Nat.sub_diag, Nat.add_0_r, <- plus_n_Sm. reflexivity.
      * intros i Hi. apply in_seq in Hi.
        replace (S (drawn w) + (i - S start))%nat
          with (drawn w + (i - start))%nat by lia.
        reflexivity.
    + intros k Hin. unfold dict_keys in Hin. rewrite map_app in Hin.
      apply in_app_or in Hin. destruct Hin as [Hin|[Hin|[]]].
      * destruct (Hkeys _ Hin) as (j & Hj & E). exists j. split; [lia | exact E].
      * exists start. split; [lia | symmetry; exact Hin].
Qed.

End Initialisation.

Lemma setup_cells_run (num_cells : nat) (chosen : nat -> string)
    (s : Session) (w : World) :
  length (cells_data s) <> num_cells ->
  setup_cells num_cells chosen s w =
  Some (mkSession
          (map (fun i => (cell_key_of i (chosen i),
                          seeded_cell (chosen i) (unit_draws w (drawn w + i))
                                      (clock w)))
               (seq 0 num_cells))
          (historical_data s) (monitoring_active s) (auto_refresh s),
        mkWorld (unit_draws w) (drawn w + num_cells) (clock w)).
Proof.
  intro Hlen. unfold setup_cells. apply Nat.eqb_neq in Hlen. rewrite Hlen.
  unfold bind. rewrite init_loop_cells by (intros k []).
  cbn [app]. unfold ret. do 3 f_equal.
  apply map_ext. intro i. rewrite Nat.sub_0_r. reflexivity.
Qed.

Lemma seeded_cell_temp (cell_type : string) (u : Q) (now : Z) :
  unit_interval u ->
  25 <= temp (seeded_cell cell_type u now) /\
  temp (seeded_cell cell_type u now) <= 35.
Proof.
  intro Hu. cbn [seeded_cell temp].
  destruct ambient_decimals as [H25 H35].
  destruct (uniform_within 25 35 u) as [Hlo Hhi]; [discriminate | exact Hu |].
  split; [apply round_lower | apply round_upper]; assumption.
Qed.

Lemma pointwise_on_map {A B : Type} (P : A -> B -> Prop) (f : A -> B)
    (xs : list A) :
  (forall x, P x (f x)) -> Forall2 P xs (map f xs).
Proof.
  intro H. induction xs as [|x xs IH]; cbn; constructor; [apply H | exact IH].
Qed.

(** C9: when the cell count changes, the monitored set is rebuilt with one
    cell per index, in order, each under the key of its index and chosen
    chemistry.  The cell of index [i] is seeded with its chemistry's nominal
    voltage, zero current and the temperature
    [round(random.uniform(25, 35), 1)] of its own draw, the [i]-th one made
    by the loop; that temperature lies within [[25, 35]] for a random source
    that returns values of the unit interval.  The loop makes [num_cells]
    draws in all. *)
Theorem setup_cells_seeds
    (num_cells : nat) (chosen : nat -> string) (s : Session) (w : World) :
  (forall n, unit_interval (unit_draws w n)) ->
  length (cells_data s) <> num_cells ->
  exists (s' : Session) (w' : World),
    setup_cells num_cells chosen s w = Some (s', w') /\
    Forall2 (fun i item =>
               fst item = cell_key_of i (chosen i) /\
               seeded (chosen i) (snd item) /\
               temp (snd item) =
                 PyNum.round
                   (25 + (35 - 25) * unit_draws w (drawn w + i)%nat) 1)
            (seq 0 num_cells) (cells_data s') /\
    length (cells_data s') = num_cells /\
    unit_draws w' = unit_draws w /\
    drawn w' = (drawn w + num_cells)%nat.
Proof.
  intros Hdraws Hlen.
  eexists. eexists. split; [apply setup_cells_run; exact Hlen|].
  cbn [cells_data unit_draws drawn].
  split; [|split; [rewrite length_map, length_seq; reflexivity | split; reflexivity]].
  apply pointwise_on_map. intro i. cbn [fst snd].
  split; [reflexivity|]. split; [|reflexivity].
  destruct (seeded_cell_temp (chosen i) (unit_draws w (drawn w + i)) (clock w))
    as [H25 H35]; [apply Hdraws|].
  unfold seeded. split; [reflexivity|]. split; [reflexivity|].
  split; assumption.
Qed.

Lemma setup_cells_seeds_witness :
  (forall n, unit_interval
               (unit_draws (scripted_world [0.25; 0.75] 0.5) n)) /\
  length (cells_data (mkSession [] [] false false)) <> 2%nat /\
  exists (s' : Session) (w' : World),
    setup_cells 2 (fun i => nth i ["lto"; "nmc"]%string "lfp"%string)
      (mkSession [] [] false false) (scripted_world [0.25; 0.75] 0.5) =
      Some (s', w') /\
    Forall2 (fun i item =>
               fst item =
                 cell_key_of i (nth i ["lto"; "nmc"]%string "lfp"%string) /\
               seeded (nth i ["lto"; "nmc"]%string "lfp"%string) (snd item) /\
               temp (snd item) =
                 PyNum.round
                   (25 + (35 - 25) *
                         unit_draws (scripted_world [0.25; 0.75] 0.5)
                           (Nat.add (drawn (scripted_world [0.25; 0.75] 0.5)) i)) 1)
            (seq 0 2) (cells_data s') /\
    length (cells_data s') = 2%nat /\
    unit_draws w' = unit_draws (scripted_world [0.25; 0.75] 0.5) /\
    drawn w' = Nat.add (drawn (scripted_world [0.25; 0.75] 0.5)) 2.
Proof.
  assert (Hdraws : forall n, unit_interval
                     (unit_draws (scripted_world [0.25; 0.75] 0.5) n)).
  { intros [|[|n]]; cbn; [| |destruct n]; split; discriminate. }
  assert (Hlen : length (cells_data (mkSession [] [] false false)) <> 2%nat).
  { discriminate. }
  split; [exact Hdraws|]. split; [exact Hlen|].
  exact (setup_cells_seeds 2 (fun i => nth i ["lto"; "nmc"]%string "lfp"%string)
           (mkSession [] [] false false) (scripted_world [0.25; 0.75] 0.5)
           Hdraws Hlen).
Defined.

(** The run of the witness: the draws 0.25 and 0.75 give 27.5 and 32.5
    degrees. *)
Example setup_cells_two_cells :
  option_map (fun r : Session * World =>
                (dict_keys (cells_data (fst r)),
                 map (fun item => Qred (temp (snd item))) (cells_data (fst r)),
                 drawn (snd r)))
    (setup_cells 2 (fun i => nth i ["lto"; "nmc"]%string "lfp"%string)
       (mkSession [] [] false false) (scripted_world [0.25; 0.75] 0.5)) =
  Some (["cell_1_lto"; "cell_2_nmc"]%string, [55 # 2; 65 # 2], 2%nat).
Proof. vm_compute. reflexivity. Qed.

(** ** The history log *)

(** Truncation drops a prefix, the oldest entries, and leaves at most 800
    entries. *)
Lemma truncate_history_fifo (h : list HistoryEntry) :
  exists dropped : list HistoryEntry,
    h = dropped ++ truncate_history h /\
    length dropped = (length h - 800)%nat /\
    (length (truncate_history h) <= 800)%nat.
Proof.
  unfold truncate_history, last_n.
  destruct (Nat.ltb 800 (length h)) eqn:E.
  - apply Nat.ltb_lt in E.
    exists (firstn (length h - 800) h).
    rewrite firstn_skipn, length_firstn, length_skipn. repeat split; lia.
  - apply Nat.ltb_ge in E. exists []. cbn. repeat split; lia.
Qed.

Lemma simulate_cell_keys (key : string) (cells : dict CellData) (w : World)
    (cell_type : string) :
  In key (dict_keys cells) ->
  nth_error (split "_" key) 2 = Some cell_type ->
  exists (cells' : dict CellData) (w' : World),
    simulate_cell key cells w = Some (cells', w') /\
    dict_keys cells' = dict_keys cells /\
    clock w' = clock w.
Proof.
  intros Hin Hkey. unfold simulate_cell.
  destruct (dict_get_in_keys key cells Hin) as [base Hbase]. rewrite Hbase.
  unfold bind, simulate_real_time_data. rewrite Hkey.
  unfold bind, random_uniform, datetime_now, ret. cbn [clock].
  eexists. eexists. split; [reflexivity|].
  split; [apply dict_set_keys; exact Hin | reflexivity].
Qed.

Lemma simulate_all_keys (keys : list string) :
  forall (cells : dict CellData) (w : World),
    (forall k, In k keys ->
               In k (dict_keys cells) /\
               exists cell_type, nth_error (split "_" k) 2 = Some cell_type) ->
    exists (cells' : dict CellData) (w' : World),
      for_each keys simulate_cell cells w = Some (cells', w') /\
      dict_keys cells' = dict_keys cells /\
      clock w' = clock w.
Proof.
  induction keys as [|key rest IH]; intros cells w Hkeys.
  - exists cells, w. repeat split.
  - destruct (Hkeys key (or_introl eq_refl)) as [Hin [cell_type Hkey]].
    destruct (simulate_cell_keys key cells w cell_type Hin Hkey)
      as (cells1 & w1 & Hrun1 & Hkeys1 & Hclock1).
    destruct (IH cells1 w1) as (cells' & w' & Hrun & Hkeys' & Hclock').
    { intros k Hk. rewrite Hkeys1. apply Hkeys. right. exact Hk. }
    exists cells', w'. cbn [for_each]. unfold bind at 1. rewrite Hrun1.
    repeat split; congruence.
Qed.

(** A tick of an active session over well-formed keys goes through, keeps
    the monitored set, appends one entry per cell and then drops the oldest
    entries beyond 800. *)
Lemma monitoring_tick_history (refresh_interval : Z) (s : Session) (w : World) :
  monitoring_active s && auto_refresh s = true ->
  (forall k, In k (dict_keys (cells_data s)) ->
             exists cell_type, nth_error (split "_" k) 2 = Some cell_type) ->
  exists (s' : Session) (w' : World) (dropped : list HistoryEntry),
    monitoring_tick refresh_interval s w = Some (s', w') /\
    dict_keys (cells_data s') = dict_keys (cells_data s) /\
    historical_data s ++
      map (historical_entry (clock w + refresh_interval)%Z) (cells_data s') =
      dropped ++ historical_data s' /\
    length dropped =
      (length (historical_data s) + length (cells_data s) - 800)%nat /\
    (length (historical_data s') <= 800)%nat.
Proof.
  intros Hactive Hkeys. unfold monitoring_tick. rewrite Hactive.
  unfold bind at 1. unfold time_sleep.
  destruct (simulate_all_keys (dict_keys (cells_data s)) (cells_data s)
              (mkWorld (unit_draws w) (drawn w) (clock w + refresh_interval)))
    as (cells' & w' & Hrun & Hkeys' & Hclock).
  { intros k Hk. split; [exact Hk | apply Hkeys; exact Hk]. }
  cbn [clock] in Hclock.
  unfold bind at 1. rewrite Hrun.
  unfold bind, datetime_now, ret. rewrite Hclock.
  match goal with
  | |- context [truncate_history ?h] =>
      destruct (truncate_history_fifo h) as (dropped & Hsplit & Hdropped & Hle)
  end.
  eexists. eexists. exists dropped. split; [reflexivity|].
  cbn [cells_data historical_data].
  repeat split; try assumption.
  rewrite Hdropped, length_app, length_map.
  apply (f_equal (@length string)) in Hkeys'. unfold dict_keys in Hkeys'.
  rewrite !length_map in Hkeys'. lia.
Qed.

(** With eight cells or more the log stays within 100 entries per cell. *)
Lemma monitoring_tick_within_cap (refresh_interval : Z) (s s' : Session)
    (w w' : World) :
  monitoring_active s && auto_refresh s = true ->
  (8 <= length (cells_data s))%nat ->
  monitoring_tick refresh_interval s w = Some (s', w') ->
  (length (historical_data s') <= history_cap (length (cells_data s)))%nat.
Proof.
  intros Hactive Hcells. unfold monitoring_tick. rewrite Hactive.
  unfold bind at 1. unfold time_sleep.
  destruct (for_each (dict_keys (cells_data s)) simulate_cell (cells_data s)
              (mkWorld (unit_draws w) (drawn w) (clock w + refresh_interval)))
    as [[cells' w1]|] eqn:Hrun;
    unfold bind at 1; rewrite Hrun; [|discriminate].
  unfold bind, datetime_now, ret. intro H. injection H as Hs _. subst s'.
  cbn [historical_data].
  match goal with
  | |- context [truncate_history ?h] =>
      destruct (truncate_history_fifo h) as (dropped & _ & _ & Hle)
  end.
  unfold history_cap. lia.
Qed.

(** C3 on a session of one cell: the dashboard is set up with a single
    [lfp] cell, monitoring is on, and after 101 ticks the log holds 101
    entries, above [history_cap 1 = 100]. *)
Theorem history_exceeds_cap_with_one_cell :
  option_map
    (fun r : Session * World =>
       (length (cells_data (fst r)), length (historical_data (fst r))))
    (bind (setup_cells 1 (fun _ => "lfp"%string) (mkSession [] [] true true))
          (monitoring_ticks 101 2)
          (constant_world 0.5)) = Some (1%nat, 101%nat) /\
  history_cap 1 = 100%nat.
Proof.
  split; [vm_compute; reflexivity | reflexivity].
Qed.

(** ** The command-line companion *)

Lemma abs_of_nonneg (c : Q) : 0 <= c -> PyNum.abs c = c.
Proof.
  destruct c as [n d]. unfold Qle, PyNum.abs, Qabs. cbn [Qnum Qden].
  intro H. f_equal. lia.
Qed.

Lemma companion_decimals : has_decimals 1 25 /\ has_decimals 1 40.
Proof.
  split; [exists 250%Z | exists 400%Z]; reflexivity.
Qed.

(** C2, as stated, fails three ways.  An [lto] cell is set up by the
    script at 3.6 V within [[3.2, 4.0]], not at the 2.4 V within
    [[1.5, 2.8]] of the dashboard's table; with [random()] returning 0.9 its
    temperature is 38.5, above 35; and a current of -1 A on an [lfp] cell
    gives the capacity -3.2 where the dashboard's formula gives 3.2. *)
Lemma companion_differs_from_dashboard :
  (exists (cell : W1.CellData) (w' : World),
      W1.setup ["lto"%string] (constant_world 0.9) =
        Some ([("cell_1_lto"%string, cell)], w') /\
      W1.voltage cell == 3.6 /\
      nominal_voltage (get_cell_specs "lto") == 2.4 /\
      ~ W1.voltage cell == nominal_voltage (get_cell_specs "lto") /\
      ~ W1.min_voltage cell == min_voltage (get_cell_specs "lto") /\
      ~ W1.max_voltage cell == max_voltage (get_cell_specs "lto") /\
      W1.temp cell == 38.5 /\
      ~ W1.temp cell <= 35) /\
  (exists cell : W1.CellData,
      W1.enter_current "cell_1_lfp" (Some (-1))
        [("cell_1_lfp"%string, W1.mkCellData 3.2 0 30 0 2.8 3.6)] =
        Some [("cell_1_lfp"%string, cell)] /\
      W1.capacity cell == -3.2 /\
      derived_capacity (W1.voltage cell) (W1.current cell) == 3.2 /\
      ~ W1.capacity cell == derived_capacity (W1.voltage cell) (W1.current cell)).
Proof.
  split.
  - eexists. eexists. split; [cbv; reflexivity|].
    repeat split; try reflexivity; vm_compute; try discriminate.
    intro H. apply H. reflexivity.
  - eexists. split; [cbv; reflexivity|].
    repeat split; try reflexivity; vm_compute; discriminate.
Qed.

(** C2, amended: for a cell of type [lfp] or [nmc] the script seeds the
    nominal, minimum and maximum voltages of the dashboard's table and a zero
    current; its initial temperature is drawn from [[25, 40]]; and for an
    entered current that is not negative its capacity,
    [round(voltage * current, 2)], is the dashboard's
    [round(voltage * abs(current), 2)]. *)
Theorem companion_agrees_on_lfp_nmc :
  (forall (idx : nat) (cell_type : string) (cells : dict W1.CellData) (w : World),
      In cell_type ["lfp"; "nmc"]%string ->
      unit_interval (unit_draws w (drawn w)) ->
      exists (cell : W1.CellData) (w' : World),
        W1.setup_cell (idx, cell_type) cells w =
          Some (dict_set ("cell_" ++ str_of_nat idx ++ "_" ++ cell_type)%string
                         cell cells, w') /\
        W1.voltage cell = nominal_voltage (get_cell_specs cell_type) /\
        W1.min_voltage cell = min_voltage (get_cell_specs cell_type) /\
        W1.max_voltage cell = max_voltage (get_cell_specs cell_type) /\
        W1.current cell == 0 /\
        W1.temp cell =
          PyNum.round (25 + (40 - 25) * unit_draws w (drawn w)) 1 /\
        25 <= W1.temp cell /\
        W1.temp cell <= 40) /\
  (forall (key : string) (entered : option Q) (cells : dict W1.CellData)
          (cell : W1.CellData),
      dict_get key cells = Some cell ->
      0 <= match entered with Some c => c | None => 0.0 end ->
      exists cell' : W1.CellData,
        W1.enter_current key entered cells = Some (dict_set key cell' cells) /\
        W1.voltage cell' = W1.voltage cell /\
        W1.current cell' = match entered with Some c => c | None => 0.0 end /\
        W1.capacity cell' =
          PyNum.round (W1.voltage cell' * W1.current cell') 2 /\
        W1.capacity cell' =
          derived_capacity (W1.voltage cell') (W1.current cell')).
Proof.
  split.
  - intros idx cell_type cells w Htype Hdraw.
    unfold W1.setup_cell, bind, random_uniform, ret.
    eexists. eexists. split; [reflexivity|].
    cbn [W1.voltage W1.min_voltage W1.max_voltage W1.current W1.temp].
    destruct companion_decimals as [H25 H40].
    destruct (uniform_within 25 40 (unit_draws w (drawn w)))
      as [Hlo Hhi]; [discriminate | exact Hdraw |].
    assert (Hrows :
      (if W1.is_lfp cell_type then 3.2 else 3.6) =
        nominal_voltage (get_cell_specs cell_type) /\
      (if W1.is_lfp cell_type then 2.8 else 3.2) =
        min_voltage (get_cell_specs cell_type) /\
      (if W1.is_lfp cell_type then 3.6 else 4.0) =
        max_voltage (get_cell_specs cell_type)).
    { destruct Htype as [H|[H|[]]]; subst; repeat split. }
    destruct Hrows as (Hn & Hmin & Hmax).
    repeat split; try assumption.
    + apply round_lower; assumption.
    + apply round_upper; assumption.
  - intros key entered cells cell Hget Hpos.
    unfold W1.enter_current. rewrite Hget.
    eexists. split; [reflexivity|].
    cbn [W1.voltage W1.current W1.capacity].
    repeat split.
    unfold derived_capacity. rewrite abs_of_nonneg by exact Hpos. reflexivity.
Qed.

Lemma companion_agrees_on_lfp_nmc_witness :
  (In "nmc"%string ["lfp"; "nmc"]%string /\
   unit_interval (unit_draws (constant_world 0.9) (drawn (constant_world 0.9))) /\
   exists (cell : W1.CellData) (w' : World),
     W1.setup_cell (2%nat, "nmc"%string) [] (constant_world 0.9) =
       Some (dict_set "cell_2_nmc" cell [], w') /\
     W1.voltage cell = nominal_voltage (get_cell_specs "nmc")) /\
  (dict_get "cell_1_lfp"
     [("cell_1_lfp"%string, W1.mkCellData 3.2 0 30 0 2.8 3.6)] =
     Some (W1.mkCellData 3.2 0 30 0 2.8 3.6) /\
   0 <= 12.5 /\
   exists cell' : W1.CellData,
     W1.enter_current "cell_1_lfp" (Some 12.5)
       [("cell_1_lfp"%string, W1.mkCellData 3.2 0 30 0 2.8 3.6)] =
       Some (dict_set "cell_1_lfp" cell'
               [("cell_1_lfp"%string, W1.mkCellData 3.2 0 30 0 2.8 3.6)]) /\
     W1.capacity cell' =
       derived_capacity (W1.voltage cell') (W1.current cell')).
Proof.
  assert (Htype : In "nmc"%string ["lfp"; "nmc"]%string)
    by (right; left; reflexivity).
  assert (Hdraw : unit_interval
                    (unit_draws (constant_world 0.9) (drawn (constant_world 0.9))))
    by (split; discriminate).
  assert (Hpos : 0 <= 12.5) by discriminate.
  split.
  - split; [exact Htype|]. split; [exact Hdraw|].
    destruct (proj1 companion_agrees_on_lfp_nmc 2%nat "nmc"%string []
                (constant_world 0.9) Htype Hdraw)
      as (cell & w' & Hrun & Hv & _).
    exists cell, w'. split; assumption.
  - split; [reflexivity|]. split; [exact Hpos|].
    destruct (proj2 companion_agrees_on_lfp_nmc "cell_1_lfp"%string (Some 12.5)
                [("cell_1_lfp"%string, W1.mkCellData 3.2 0 30 0 2.8 3.6)]
                (W1.mkCellData 3.2 0 30 0 2.8 3.6) eq_refl Hpos)
      as (cell' & Hrun & _ & _ & _ & Hcap).
    exists cell'. split; assumption.
Defined.

(** * Further properties of the dashboard *)

(** ** The simulation step, cell by cell *)

(** What the step returns, written out. *)
Lemma simulate_real_time_data_result
    (cell_key : string) (base_data : CellData) (w : World) (cell_type : string) :
  nth_error (split "_" cell_key) 2 = Some cell_type ->
  simulate_real_time_data cell_key base_data w =
  Some ({| voltage :=
             PyNum.round
               (PyNum.max (min_voltage (get_cell_specs cell_type))
                  (PyNum.min (max_voltage (get_cell_specs cell_type))
                     (voltage base_data +
                      (-0.05 + (0.05 - -0.05) * unit_draws w (drawn w))))) 3;
           current :=
             PyNum.round
               (current base_data +
                (-2.0 + (2.0 - -2.0) * unit_draws w (S (S (drawn w))))) 2;
           temp :=
             PyNum.round
               (PyNum.max 0
                  (PyNum.min 50
                     (temp base_data +
                      (-1.0 + (1.0 - -1.0) * unit_draws w (S (drawn w)))))) 1;
           capacity :=
             PyNum.round
               (PyNum.max (min_voltage (get_cell_specs cell_type))
                  (PyNum.min (max_voltage (get_cell_specs cell_type))
                     (voltage base_data +
                      (-0.05 + (0.05 - -0.05) * unit_draws w (drawn w)))) *
                PyNum.abs
                  (current base_data +
                   (-2.0 + (2.0 - -2.0) * unit_draws w (S (S (drawn w)))))) 2;
           cell_min_voltage := cell_min_voltage base_data;
           cell_max_voltage := cell_max_voltage base_data;
           timestamp := clock w |},
        mkWorld (unit_draws w) (S (S (S (drawn w)))) (clock w)).
Proof.
  intro Hkey. unfold simulate_real_time_data. rewrite Hkey. reflexivity.
Qed.

Lemma zero_decimals (ndigits : nat) : has_decimals ndigits 0.
Proof.
  exists 0%Z. unfold Qdiv. rewrite Qmult_0_l. reflexivity.
Qed.

Lemma simulated_within_limits
    (cell_key : string) (base_data data : CellData) (w w' : World) :
  simulate_real_time_data cell_key base_data w = Some (data, w') ->
  within_limits (cell_key, data).
Proof.
  intros Hrun cell_type Hkey. cbn [fst snd] in *.
  rewrite (simulate_real_time_data_result _ _ _ _ Hkey) in Hrun.
  match type of Hrun with Some (?d, _) = _ => set (sim := d) in Hrun end.
  injection Hrun as Hdata _. subst data. subst sim.
  cbn [voltage temp capacity].
  destruct (specs_bounds_decimals cell_type) as [Hlo Hhi].
  destruct unit_decimals as [H0 H50].
  pose proof (specs_bounds_ordered cell_type) as Hord.
  destruct (get_cell_specs_ordered cell_type) as (Hmin & Hnom & _).
  assert (Hpos : 0 <= min_voltage (get_cell_specs cell_type)).
  { destruct (get_cell_specs_cases cell_type) as [H|[H|[H|H]]]; rewrite H;
      discriminate. }
  repeat split.
  - apply round_lower; [exact Hlo|]. apply clamp_bounds. exact Hord.
  - apply round_upper; [exact Hhi|]. apply clamp_bounds. exact Hord.
  - apply round_lower; [exact H0|]. apply clamp_bounds. discriminate.
  - apply round_upper; [exact H50|]. apply clamp_bounds. discriminate.
  - apply round_lower; [apply zero_decimals|].
    apply Qmult_le_0_compat; [|unfold PyNum.abs; apply Qabs_nonneg].
    eapply Qle_trans; [exact Hpos | apply max_lower].
Qed.

Lemma dict_get_past {V : Type} (k : string) (done rest : dict V) :
  ~ In k (dict_keys done) -> dict_get k (done ++ rest) = dict_get k rest.
Proof.
  induction done as [|[k' v'] done IH]; cbn; [reflexivity|].
  intro H. destruct (String.eqb k k') eqn:E.
  - apply String.eqb_eq in E. subst. exfalso. apply H. left. reflexivity.
  - apply IH. intro Hin. apply H. right. exact Hin.
Qed.

Lemma dict_set_past {V : Type} (k : string) (v d : V) (done rest : dict V) :
  ~ In k (dict_keys done) ->
  dict_set k v (done ++ (k, d) :: rest) = done ++ (k, v) :: rest.
Proof.
  induction done as [|[k' v'] done IH]; cbn.
  - intros _. rewrite String.eqb_refl. reflexivity.
  - intro H. destruct (String.eqb k k') eqn:E.
    + apply String.eqb_eq in E. subst. exfalso. apply H. left. reflexivity.
    + rewrite IH; [reflexivity|]. intro Hin. apply H. right. exact Hin.
Qed.

Lemma dict_keys_app {V : Type} (a b : dict V) :
  dict_keys (a ++ b) = dict_keys a ++ dict_keys b.
Proof.
  unfold dict_keys. apply map_app.
Qed.

(** The loop of the tick walks the dictionary once: each cell is replaced
    by the simulation of its own previous reading. *)
Lemma simulate_all_pointwise (rest : dict CellData) :
  forall (done : dict CellData) (w : World),
    NoDup (dict_keys (done ++ rest)) ->
    Forall names_cell_type (dict_keys rest) ->
    exists (rest' : dict CellData) (w' : World),
      for_each (dict_keys rest) simulate_cell (done ++ rest) w =
        Some (done ++ rest', w') /\
      Forall2 (fun old new =>
                 fst new = fst old /\
                 exists wi wi' : World,
                   simulate_real_time_data (fst old) (snd old) wi =
                     Some (snd new, wi') /\
                   unit_draws wi = unit_draws w /\
                   clock wi = clock w)
              rest rest' /\
      unit_draws w' = unit_draws w /\
      drawn w' = (drawn w + 3 * length rest)%nat /\
      clock w' = clock w.
Proof.
  induction rest as [|[key base] rest IH]; intros done w Hnodup Hnames.
  - exists [], w. cbn. repeat split; [constructor | lia].
  - cbn [dict_keys map fst] in *. fold (dict_keys rest) in *.
    inversion Hnames as [|? ? [cell_type Hkey] Hnames']; subst.
    assert (Hfresh : ~ In key (dict_keys done)).
    { rewrite dict_keys_app in Hnodup. cbn in Hnodup.
      apply NoDup_remove_2 in Hnodup. intro Hin. apply Hnodup.
      apply in_or_app. left. exact Hin. }
    cbn [for_each]. unfold bind at 1. unfold simulate_cell at 1.
    rewrite dict_get_past by exact Hfresh. cbn [dict_get].
    rewrite String.eqb_refl. unfold bind at 1.
    rewrite (simulate_real_time_data_result _ _ _ _ Hkey). unfold ret.
    rewrite dict_set_past by exact Hfresh.
    match goal with
    | |- context [for_each _ _ (done ++ ?item :: rest) ?w1] =>
        destruct (IH (done ++ [item]) w1)
          as (rest' & w' & Hrun & Hall & Hdraws & Hdrawn & Hclock);
        [ | exact Hnames' | exists (item :: rest'), w' ]
    end.
    + rewrite <- app_assoc. cbn [app].
      rewrite dict_keys_app in *. exact Hnodup.
    + rewrite <- !app_assoc in Hrun. cbn [app] in Hrun.
      cbn [unit_draws drawn clock] in *.
      split; [exact Hrun|]. split; [|repeat split; try assumption; cbn; lia].
      constructor.
      * split; [reflexivity|]. cbn [fst snd].
        exists w. eexists. split; [|split; reflexivity].
        apply simulate_real_time_data_result. exact Hkey.
      * eapply Forall2_impl; [|exact Hall].
        intros old new (Hfst & wi & wi' & Hsim & Hd & Hc).
        split; [exact Hfst|]. exists wi, wi'. repeat split; assumption.
Qed.

Lemma pointwise_keys {P : string * CellData -> string * CellData -> Prop}
    (cells cells' : dict CellData) :
  Forall2 (fun old new => fst new = fst old /\ P old new) cells cells' ->
  dict_keys cells' = dict_keys cells.
Proof.
  unfold dict_keys.
  induction 1 as [|old new cells cells' [Hfst _] _ IH]; cbn;
    [reflexivity | congruence].
Qed.

(** ** Ordered timestamps *)

Lemma sorted_suffix (a b : list Z) :
  StronglySorted Z.le (a ++ b) -> StronglySorted Z.le b.
Proof.
  induction a as [|x a IH]; cbn; [auto|].
  intro H. apply StronglySorted_inv in H. apply IH. apply H.
Qed.

Lemma sorted_then_repeat (a : list Z) (t : Z) (n : nat) :
  StronglySorted Z.le a -> Forall (fun x => (x <= t)%Z) a ->
  StronglySorted Z.le (a ++ repeat t n).
Proof.
  induction a as [|x a IH]; cbn; intros Hs Hle.
  - induction n as [|n IHn]; cbn; constructor; [exact IHn|].
    apply Forall_forall. intros y Hy. apply repeat_spec in Hy. lia.
  - apply StronglySorted_inv in Hs. destruct Hs as [Hs Hx].
    inversion Hle as [|? ? Hxt Hle']; subst.
    constructor; [apply IH; assumption|].
    apply Forall_app. split; [exact Hx|].
    apply Forall_forall. intros y Hy. apply repeat_spec in Hy. lia.
Qed.

Lemma entry_timestamps (t : Z) (cells : dict CellData) :
  map entry_timestamp (map (historical_entry t) cells) = repeat t (length cells).
Proof.
  induction cells as [|[key data] cells IH]; cbn; [reflexivity|].
  f_equal. exact IH.
Qed.

(** Appending the entries of a tick and truncating keeps the log ordered. *)
Lemma history_ordered_step (now t : Z) (h : list HistoryEntry)
    (cells : dict CellData) :
  (now <= t)%Z ->
  history_ordered now h ->
  history_ordered t (truncate_history (h ++ map (historical_entry t) cells)).
Proof.
  intros Hnow [Hsorted Hle].
  destruct (truncate_history_fifo (h ++ map (historical_entry t) cells))
    as (dropped & Hsplit & _ & _).
  assert (Hall : history_ordered t (h ++ map (historical_entry t) cells)).
  { split.
    - rewrite map_app, entry_timestamps. apply sorted_then_repeat.
      + exact Hsorted.
      + apply Forall_map. eapply Forall_impl; [|exact Hle].
        cbn. intros e He. lia.
    - apply Forall_app. split.
      + eapply Forall_impl; [|exact Hle]. cbn. intros e He. lia.
      + apply Forall_map. apply Forall_forall. intros [key data] _. cbn. lia. }
  rewrite Hsplit in Hall. destruct Hall as [Hs Hl]. split.
  - rewrite map_app in Hs. apply sorted_suffix in Hs. exact Hs.
  - apply Forall_app in Hl. apply Hl.
Qed.

(** ** One tick, all at once *)

Lemma monitoring_tick_run (refresh_interval : Z) (s : Session) (w : World) :
  monitoring_active s && auto_refresh s = true ->
  well_keyed (cells_data s) ->
  exists (cells' : dict CellData) (w' : World),
    monitoring_tick refresh_interval s w =
      Some (mkSession cells'
              (truncate_history
                 (historical_data s ++
                  map (historical_entry (clock w + refresh_interval)%Z) cells'))
              (monitoring_active s) (auto_refresh s), w') /\
    Forall2 (fun old new =>
               fst new = fst old /\
               exists wi wi' : World,
                 simulate_real_time_data (fst old) (snd old) wi =
                   Some (snd new, wi') /\
                 unit_draws wi = unit_draws w /\
                 clock wi = (clock w + refresh_interval)%Z)
            (cells_data s) cells' /\
    unit_draws w' = unit_draws w /\
    drawn w' = (drawn w + 3 * length (cells_data s))%nat /\
    clock w' = (clock w + refresh_interval)%Z.
Proof.
  intros Hactive [Hnodup Hnames]. unfold monitoring_tick. rewrite Hactive.
  unfold bind at 1. unfold time_sleep.
  destruct (simulate_all_pointwise (cells_data s) []
              (mkWorld (unit_draws w) (drawn w) (clock w + refresh_interval)))
    as (cells' & w' & Hrun & Hall & Hdraws & Hdrawn & Hclock);
    [exact Hnodup | exact Hnames |].
  cbn [app unit_draws drawn clock] in *.
  unfold bind at 1. rewrite Hrun.
  unfold bind, datetime_now, ret. rewrite Hclock.
  exists cells', w'. repeat split; assumption.
Qed.

Lemma within_limits_pointwise (cells cells' : dict CellData) (w : World) (t : Z) :
  Forall2 (fun old new =>
             fst new = fst old /\
             exists wi wi' : World,
               simulate_real_time_data (fst old) (snd old) wi =
                 Some (snd new, wi') /\
               unit_draws wi = unit_draws w /\
               clock wi = t)
          cells cells' ->
  Forall within_limits cells'.
Proof.
  induction 1 as [|[k d] [k' d'] cells cells'
                    (Hfst & wi & wi' & Hsim & _) _ IH];
    constructor; [|exact IH].
  cbn [fst snd] in *. subst k'.
  eapply simulated_within_limits. exact Hsim.
Qed.

Lemma min_cap (a b : nat) : (a + b - (a + b - 800) = Nat.min 800 (a + b))%nat.
Proof. lia. Qed.

(** What a tick keeps and what it establishes. *)
Lemma monitoring_tick_step (refresh_interval : Z) (s : Session) (w : World) :
  monitoring_active s && auto_refresh s = true ->
  well_keyed (cells_data s) ->
  exists (s' : Session) (w' : World),
    monitoring_tick refresh_interval s w = Some (s', w') /\
    monitoring_active s' && auto_refresh s' = true /\
    well_keyed (cells_data s') /\
    dict_keys (cells_data s') = dict_keys (cells_data s) /\
    Forall within_limits (cells_data s') /\
    length (historical_data s') =
      Nat.min 800 (length (historical_data s) + length (cells_data s)) /\
    clock w' = (clock w + refresh_interval)%Z /\
    ((0 <= refresh_interval)%Z ->
     history_ordered (clock w) (historical_data s) ->
     history_ordered (clock w') (historical_data s')).
Proof.
  intros Hactive Hkeyed.
  destruct (monitoring_tick_run refresh_interval s w Hactive Hkeyed)
    as (cells' & w' & Hrun & Hall & _ & _ & Hclock).
  pose proof (pointwise_keys _ _ Hall) as Hkeys.
  eexists. exists w'. split; [exact Hrun|].
  cbn [cells_data historical_data monitoring_active auto_refresh].
  split; [exact Hactive|].
  split; [split; rewrite Hkeys; apply Hkeyed|].
  split; [exact Hkeys|].
  split; [eapply within_limits_pointwise; exact Hall|].
  split; [|split; [exact Hclock|]].
  - destruct (truncate_history_fifo
                (historical_data s ++
                 map (historical_entry (clock w + refresh_interval)%Z) cells'))
      as (dropped & Hsplit & Hdropped & _).
    apply (f_equal (@length HistoryEntry)) in Hsplit.
    rewrite length_app in Hsplit.
    rewrite length_app, length_map in Hsplit, Hdropped.
    apply (f_equal (@length string)) in Hkeys. unfold dict_keys in Hkeys.
    rewrite !length_map in Hkeys. lia.
  - intros Hr Hordered. rewrite Hclock.
    apply (history_ordered_step (clock w)); [lia | exact Hordered].
Qed.

(** ** System alerts *)

Lemma status_good_without_alerts (data : CellData) (cell_type : string) :
  fst (check_cell_status data cell_type) = Good <->
  snd (check_cell_status data cell_type) = [].
Proof.
  unfold check_cell_status, voltage_checks, current_checks,
    temperature_checks, PyNum.gtb.
  case_tests; cbn; split; intros; congruence.
Qed.

Lemma at_most_three_alerts (data : CellData) (cell_type : string) :
  (length (snd (check_cell_status data cell_type)) <= 3)%nat.
Proof.
  unfold check_cell_status, voltage_checks, current_checks,
    temperature_checks, PyNum.gtb.
  case_tests; cbn; lia.
Qed.

Lemma collect_cell_alerts_named (key : string) (data : CellData)
    (cell_type : string) (all_alerts : list (string * Alert)) :
  nth_error (split "_" key) 2 = Some cell_type ->
  collect_cell_alerts (key, data) all_alerts =
  Some (all_alerts ++
        map (fun alert => (key, alert)) (snd (check_cell_status data cell_type))).
Proof.
  intro Hkey. unfold collect_cell_alerts. rewrite Hkey.
  destruct (check_cell_status data cell_type) as [status [|a alerts]]; cbn [snd].
  - cbn. rewrite app_nil_r. reflexivity.
  - reflexivity.
Qed.

Lemma system_alerts_loop (cells : dict CellData) :
  forall acc : list (string * Alert),
    Forall names_cell_type (dict_keys cells) ->
    exists all : list (string * Alert),
      try_each cells collect_cell_alerts acc = Some (acc ++ all) /\
      (all = [] <->
       Forall (fun item => option_map fst (classify_cell item) = Some Good) cells) /\
      (length all <= 3 * length cells)%nat /\
      Forall (fun ka =>
                exists (data : CellData) (status : Status) (alerts : list Alert),
                  In (fst ka, data) cells /\
                  classify_cell (fst ka, data) = Some (status, alerts) /\
                  In (snd ka) alerts)
             all.
Proof.
  induction cells as [|[key data] cells IH]; intros acc Hnames.
  - exists []. cbn. rewrite app_nil_r. repeat split; auto.
  - cbn [dict_keys map fst] in Hnames. fold (dict_keys cells) in Hnames.
    inversion Hnames as [|? ? [cell_type Hkey] Hnames']; subst.
    cbn [try_each]. rewrite (collect_cell_alerts_named _ _ _ _ Hkey).
    destruct (IH (acc ++ map (fun alert => (key, alert))
                               (snd (check_cell_status data cell_type))) Hnames')
      as (all & Hrun & Hclear & Hlen & Hfrom).
    exists (map (fun alert => (key, alert))
                (snd (check_cell_status data cell_type)) ++ all).
    rewrite Hrun, <- app_assoc.
    pose proof (status_good_without_alerts data cell_type) as Hgood.
    pose proof (at_most_three_alerts data cell_type) as Hthree.
    assert (Hclass : classify_cell (key, data) =
                     Some (check_cell_status data cell_type)).
    { unfold classify_cell. cbn [fst snd]. rewrite Hkey. reflexivity. }
    split; [reflexivity|]. split; [|split].
    + split.
      * intro Hnil. apply app_eq_nil in Hnil. destruct Hnil as [Hmine Hrest].
        constructor; [|apply Hclear; exact Hrest].
        rewrite Hclass. cbn. f_equal. apply Hgood.
        destruct (snd (check_cell_status data cell_type)); [reflexivity|].
        discriminate Hmine.
      * intro Hall. inversion Hall as [|? ? Hmine Hrest]; subst.
        rewrite Hclass in Hmine. cbn in Hmine.
        injection Hmine as Hmine. apply Hgood in Hmine. rewrite Hmine.
        cbn. apply Hclear. exact Hrest.
    + rewrite length_app, length_map. cbn [length]. lia.
    + apply Forall_app. split.
      * apply Forall_map. apply Forall_forall. intros alert Hin. cbn [fst snd].
        exists data, (fst (check_cell_status data cell_type)),
               (snd (check_cell_status data cell_type)).
        split; [left; reflexivity|]. split; [|exact Hin].
        rewrite Hclass. destruct (check_cell_status data cell_type). reflexivity.
      * eapply Forall_impl; [|exact Hfrom].
        intros ka (d & st & al & Hin & Hcl & Hal).
        exists d, st, al. split; [right; exact Hin | split; assumption].
Qed.

(** X1: on a session whose keys all name a chemistry the "Status alerts"
    loop goes through; the container shows "All cells operating within
    normal parameters" exactly when every cell is classified [Good]; there
    are at most three alerts per cell, and every alert shown is one that
    [check_cell_status] gave for the cell it is shown under. *)
Theorem system_alerts_all_clear (s : Session) :
  Forall names_cell_type (dict_keys (cells_data s)) ->
  exists all_alerts : list (string * Alert),
    system_alerts s = Some all_alerts /\
    (alerts_container all_alerts = AllCellsNormal <->
     Forall (fun item => option_map fst (classify_cell item) = Some Good)
            (cells_data s)) /\
    (length all_alerts <= 3 * length (cells_data s))%nat /\
    Forall (fun ka =>
              exists (data : CellData) (status : Status) (alerts : list Alert),
                In (fst ka, data) (cells_data s) /\
                classify_cell (fst ka, data) = Some (status, alerts) /\
                In (snd ka) alerts)
           all_alerts.
Proof.
  intro Hnames. unfold system_alerts.
  destruct (system_alerts_loop (cells_data s) [] Hnames)
    as (all & Hrun & Hclear & Hlen & Hfrom).
  exists all. cbn [app] in Hrun.
  split; [exact Hrun|]. split; [|split; assumption].
  rewrite <- Hclear. unfold alerts_container.
  destruct all; split; intro H; try reflexivity; discriminate H.
Qed.

Lemma system_alerts_all_clear_witness :
  Forall names_cell_type
    (dict_keys (cells_data
       (monitoring_session
          [("cell_1_lfp"%string, mkCellData 2.5 150 46 375 2.8 3.6 0);
           ("cell_2_nmc"%string, mkCellData 3.6 0 30 0 3.2 4.0 0)] []))) /\
  exists all_alerts : list (string * Alert),
    system_alerts
      (monitoring_session
         [("cell_1_lfp"%string, mkCellData 2.5 150 46 375 2.8 3.6 0);
          ("cell_2_nmc"%string, mkCellData 3.6 0 30 0 3.2 4.0 0)] []) =
      Some all_alerts /\
    (length all_alerts <= 3 * 2)%nat.
Proof.
  assert (Hnames :
    Forall names_cell_type
      (dict_keys (cells_data
         (monitoring_session
            [("cell_1_lfp"%string, mkCellData 2.5 150 46 375 2.8 3.6 0);
             ("cell_2_nmc"%string, mkCellData 3.6 0 30 0 3.2 4.0 0)] [])))).
  { repeat constructor; eexists; reflexivity. }
  split; [exact Hnames|].
  destruct (system_alerts_all_clear _ Hnames) as (all & Hrun & _ & Hlen & _).
  exists all. split; assumption.
Defined.

(** ** One tick *)

(** X2: a tick of an active session with distinct, well-formed keys goes
    through and replaces every cell, in place and in order, by the
    simulation of that cell's own previous reading under its own key; it
    makes three random draws per cell and advances the clock by the refresh
    interval only. *)
Theorem monitoring_tick_simulates_each_cell
    (refresh_interval : Z) (s : Session) (w : World) :
  monitoring_active s && auto_refresh s = true ->
  well_keyed (cells_data s) ->
  exists (s' : Session) (w' : World),
    monitoring_tick refresh_interval s w = Some (s', w') /\
    Forall2 (fun old new =>
               fst new = fst old /\
               exists wi wi' : World,
                 simulate_real_time_data (fst old) (snd old) wi =
                   Some (snd new, wi') /\
                 unit_draws wi = unit_draws w /\
                 clock wi = (clock w + refresh_interval)%Z)
            (cells_data s) (cells_data s') /\
    dict_keys (cells_data s') = dict_keys (cells_data s) /\
    monitoring_active s' = monitoring_active s /\
    auto_refresh s' = auto_refresh s /\
    drawn w' = (drawn w + 3 * length (cells_data s))%nat /\
    clock w' = (clock w + refresh_interval)%Z.
Proof.
  intros Hactive Hkeyed.
  destruct (monitoring_tick_run refresh_interval s w Hactive Hkeyed)
    as (cells' & w' & Hrun & Hall & _ & Hdrawn & Hclock).
  eexists. exists w'. split; [exact Hrun|].
  cbn [cells_data monitoring_active auto_refresh].
  split; [exact Hall|].
  split; [exact (pointwise_keys _ _ Hall)|].
  repeat split; assumption.
Qed.

Lemma two_cells_well_keyed :
  well_keyed
    [("cell_1_lfp"%string, mkCellData 3.2 0 30 0 2.8 3.6 0);
     ("cell_2_lto"%string, mkCellData 2.4 0 28 0 1.5 2.8 0)].
Proof.
  split.
  - repeat constructor; cbn; intuition discriminate.
  - repeat constructor; eexists; reflexivity.
Defined.

Lemma monitoring_tick_simulates_each_cell_witness :
  monitoring_active
    (monitoring_session
       [("cell_1_lfp"%string, mkCellData 3.2 0 30 0 2.8 3.6 0);
        ("cell_2_lto"%string, mkCellData 2.4 0 28 0 1.5 2.8 0)] []) &&
  auto_refresh
    (monitoring_session
       [("cell_1_lfp"%string, mkCellData 3.2 0 30 0 2.8 3.6 0);
        ("cell_2_lto"%string, mkCellData 2.4 0 28 0 1.5 2.8 0)] []) = true /\
  well_keyed
    [("cell_1_lfp"%string, mkCellData 3.2 0 30 0 2.8 3.6 0);
     ("cell_2_lto"%string, mkCellData 2.4 0 28 0 1.5 2.8 0)] /\
  exists (s' : Session) (w' : World),
    monitoring_tick 2
      (monitoring_session
         [("cell_1_lfp"%string, mkCellData 3.2 0 30 0 2.8 3.6 0);
          ("cell_2_lto"%string, mkCellData 2.4 0 28 0 1.5 2.8 0)] [])
      (constant_world 0.75) = Some (s', w') /\
    drawn w' = 6%nat /\
    clock w' = 2%Z.
Proof.
  split; [reflexivity|]. split; [exact two_cells_well_keyed|].
  destruct (monitoring_tick_simulates_each_cell 2
              (monitoring_session
                 [("cell_1_lfp"%string, mkCellData 3.2 0 30 0 2.8 3.6 0);
                  ("cell_2_lto"%string, mkCellData 2.4 0 28 0 1.5 2.8 0)] [])
              (constant_world 0.75) eq_refl two_cells_well_keyed)
    as (s' & w' & Hrun & _ & _ & _ & _ & Hdrawn & Hclock).
  exists s', w'. repeat split; assumption.
Defined.

(** X3: a tick of an active session leaves exactly
    [min(800, previous length + number of cells)] entries in the log, hence
    never more than 800 whatever the number of cells; the monitored keys are
    unchanged and the clock has advanced by the refresh interval. *)
Theorem monitoring_tick_history_length
    (refresh_interval : Z) (s : Session) (w : World) :
  monitoring_active s && auto_refresh s = true ->
  well_keyed (cells_data s) ->
  exists (s' : Session) (w' : World),
    monitoring_tick refresh_interval s w = Some (s', w') /\
    dict_keys (cells_data s') = dict_keys (cells_data s) /\
    length (historical_data s') =
      Nat.min 800 (length (historical_data s) + length (cells_data s)) /\
    (length (historical_data s') <= 800)%nat /\
    clock w' = (clock w + refresh_interval)%Z.
Proof.
  intros Hactive Hkeyed.
  destruct (monitoring_tick_step refresh_interval s w Hactive Hkeyed)
    as (s' & w' & Hrun & _ & _ & Hkeys & _ & Hlen & Hclock & _).
  exists s', w'. repeat split; try assumption. rewrite Hlen. lia.
Qed.

Lemma monitoring_tick_history_length_witness :
  monitoring_active
    (monitoring_session
       [("cell_1_lfp"%string, mkCellData 3.2 0 30 0 2.8 3.6 0);
        ("cell_2_lto"%string, mkCellData 2.4 0 28 0 1.5 2.8 0)] []) &&
  auto_refresh
    (monitoring_session
       [("cell_1_lfp"%string, mkCellData 3.2 0 30 0 2.8 3.6 0);
        ("cell_2_lto"%string, mkCellData 2.4 0 28 0 1.5 2.8 0)] []) = true /\
  well_keyed
    [("cell_1_lfp"%string, mkCellData 3.2 0 30 0 2.8 3.6 0);
     ("cell_2_lto"%string, mkCellData 2.4 0 28 0 1.5 2.8 0)] /\
  exists (s' : Session) (w' : World),
    monitoring_tick 5
      (monitoring_session
         [("cell_1_lfp"%string, mkCellData 3.2 0 30 0 2.8 3.6 0);
          ("cell_2_lto"%string, mkCellData 2.4 0 28 0 1.5 2.8 0)] [])
      (constant_world 0.75) = Some (s', w') /\
    length (historical_data s') = 2%nat /\
    clock w' = 5%Z.
Proof.
  split; [reflexivity|]. split; [exact two_cells_well_keyed|].
  destruct (monitoring_tick_history_length 5
              (monitoring_session
                 [("cell_1_lfp"%string, mkCellData 3.2 0 30 0 2.8 3.6 0);
                  ("cell_2_lto"%string, mkCellData 2.4 0 28 0 1.5 2.8 0)] [])
              (constant_world 0.75) eq_refl two_cells_well_keyed)
    as (s' & w' & Hrun & _ & Hlen & _ & Hclock).
  exists s', w'. repeat split; assumption.
Defined.

(** X4: after a tick every monitored cell has its voltage within the
    bounds of the chemistry its key names, its temperature within [[0, 50]]
    and a capacity that is not negative, whatever the readings were before
    (a manual update can leave any voltage of [[0, 5]]). *)
Theorem monitoring_tick_keeps_limits
    (refresh_interval : Z) (s : Session) (w : World) :
  monitoring_active s && auto_refresh s = true ->
  well_keyed (cells_data s) ->
  exists (s' : Session) (w' : World),
    monitoring_tick refresh_interval s w = Some (s', w') /\
    length (cells_data s') = length (cells_data s) /\
    Forall
      (fun item =>
         exists cell_type : string,
           nth_error (split "_" (fst item)) 2 = Some cell_type /\
           min_voltage (get_cell_specs cell_type) <= voltage (snd item) /\
           voltage (snd item) <= max_voltage (get_cell_specs cell_type) /\
           0 <= temp (snd item) /\
           temp (snd item) <= 50 /\
           0 <= capacity (snd item))
      (cells_data s').
Proof.
  intros Hactive Hkeyed.
  destruct (monitoring_tick_step refresh_interval s w Hactive Hkeyed)
    as (s' & w' & Hrun & _ & [_ Hnames] & Hkeys & Hlim & _).
  exists s', w'. split; [exact Hrun|]. split.
  - apply (f_equal (@length string)) in Hkeys. unfold dict_keys in Hkeys.
    rewrite !length_map in Hkeys. exact Hkeys.
  - rewrite Forall_forall in *. intros item Hin.
    destruct (Hnames (fst item)) as [cell_type Hkey].
    { unfold dict_keys. apply in_map. exact Hin. }
    exists cell_type. split; [exact Hkey|]. apply (Hlim item Hin). exact Hkey.
Qed.

Lemma monitoring_tick_keeps_limits_witness :
  monitoring_active
    (monitoring_session
       [("cell_1_lfp"%string, mkCellData 5 (-7) 30 35 2.8 3.6 0)] []) &&
  auto_refresh
    (monitoring_session
       [("cell_1_lfp"%string, mkCellData 5 (-7) 30 35 2.8 3.6 0)] []) = true /\
  well_keyed [("cell_1_lfp"%string, mkCellData 5 (-7) 30 35 2.8 3.6 0)] /\
  exists (s' : Session) (w' : World),
    monitoring_tick 1
      (monitoring_session
         [("cell_1_lfp"%string, mkCellData 5 (-7) 30 35 2.8 3.6 0)] [])
      (constant_world 0.5) = Some (s', w') /\
    length (cells_data s') = 1%nat.
Proof.
  assert (Hkeyed :
    well_keyed [("cell_1_lfp"%string, mkCellData 5 (-7) 30 35 2.8 3.6 0)]).
  { split.
    - repeat constructor; cbn; intuition discriminate.
    - repeat constructor; eexists; reflexivity. }
  split; [reflexivity|]. split; [exact Hkeyed|].
  destruct (monitoring_tick_keeps_limits 1
              (monitoring_session
                 [("cell_1_lfp"%string, mkCellData 5 (-7) 30 35 2.8 3.6 0)] [])
              (constant_world 0.5) eq_refl Hkeyed)
    as (s' & w' & Hrun & Hlen & _).
  exists s', w'. split; assumption.
Defined.

(** The tick of the witness: 5 V on an [lfp] cell comes back as 3.6 V. *)
Example monitoring_tick_clamps_voltage :
  option_map (fun r : Session * World =>
                map (fun item => Qred (voltage (snd item)))
                    (cells_data (fst r)))
    (monitoring_tick 1
       (monitoring_session
          [("cell_1_lfp"%string, mkCellData 5 (-7) 30 35 2.8 3.6 0)] [])
       (constant_world 0.5)) = Some [18 # 5].
Proof. vm_compute. reflexivity. Qed.

(** X5: with a refresh interval that is not negative, a tick keeps the
    log ordered by timestamp, oldest first, with no entry later than the
    clock. *)
Theorem monitoring_tick_history_ordered
    (refresh_interval : Z) (s : Session) (w : World) :
  monitoring_active s && auto_refresh s = true ->
  well_keyed (cells_data s) ->
  (0 <= refresh_interval)%Z ->
  history_ordered (clock w) (historical_data s) ->
  exists (s' : Session) (w' : World),
    monitoring_tick refresh_interval s w = Some (s', w') /\
    StronglySorted Z.le (map entry_timestamp (historical_data s')) /\
    Forall (fun e => (entry_timestamp e <= clock w')%Z) (historical_data s').
Proof.
  intros Hactive Hkeyed Hr Hordered.
  destruct (monitoring_tick_step refresh_interval s w Hactive Hkeyed)
    as (s' & w' & Hrun & _ & _ & _ & _ & _ & _ & Hord).
  exists s', w'. split; [exact Hrun|]. exact (Hord Hr Hordered).
Qed.

Lemma monitoring_tick_history_ordered_witness :
  monitoring_active
    (monitoring_session
       [("cell_1_lfp"%string, mkCellData 3.2 0 30 0 2.8 3.6 0);
        ("cell_2_lto"%string, mkCellData 2.4 0 28 0 1.5 2.8 0)]
       [mkHistoryEntry (-3) "cell_1_lfp" 3.2 0 30 0;
        mkHistoryEntry (-3) "cell_2_lto" 2.4 0 28 0]) &&
  auto_refresh
    (monitoring_session
       [("cell_1_lfp"%string, mkCellData 3.2 0 30 0 2.8 3.6 0);
        ("cell_2_lto"%string, mkCellData 2.4 0 28 0 1.5 2.8 0)]
       [mkHistoryEntry (-3) "cell_1_lfp" 3.2 0 30 0;
        mkHistoryEntry (-3) "cell_2_lto" 2.4 0 28 0]) = true /\
  well_keyed
    [("cell_1_lfp"%string, mkCellData 3.2 0 30 0 2.8 3.6 0);
     ("cell_2_lto"%string, mkCellData 2.4 0 28 0 1.5 2.8 0)] /\
  (0 <= 10)%Z /\
  history_ordered (clock (constant_world 0.75))
    [mkHistoryEntry (-3) "cell_1_lfp" 3.2 0 30 0;
     mkHistoryEntry (-3) "cell_2_lto" 2.4 0 28 0] /\
  exists (s' : Session) (w' : World),
    monitoring_tick 10
      (monitoring_session
         [("cell_1_lfp"%string, mkCellData 3.2 0 30 0 2.8 3.6 0);
          ("cell_2_lto"%string, mkCellData 2.4 0 28 0 1.5 2.8 0)]
         [mkHistoryEntry (-3) "cell_1_lfp" 3.2 0 30 0;
          mkHistoryEntry (-3) "cell_2_lto" 2.4 0 28 0])
      (constant_world 0.75) = Some (s', w') /\
    StronglySorted Z.le (map entry_timestamp (historical_data s')).
Proof.
  assert (Hr : (0 <= 10)%Z) by discriminate.
  assert (Hordered :
    history_ordered (clock (constant_world 0.75))
      [mkHistoryEntry (-3) "cell_1_lfp" 3.2 0 30 0;
       mkHistoryEntry (-3) "cell_2_lto" 2.4 0 28 0]).
  { split; repeat constructor; discriminate. }
  split; [reflexivity|]. split; [exact two_cells_well_keyed|].
  split; [exact Hr|]. split; [exact Hordered|].
  destruct (monitoring_tick_history_ordered 10
              (monitoring_session
                 [("cell_1_lfp"%string, mkCellData 3.2 0 30 0 2.8 3.6 0);
                  ("cell_2_lto"%string, mkCellData 2.4 0 28 0 1.5 2.8 0)]
                 [mkHistoryEntry (-3) "cell_1_lfp" 3.2 0 30 0;
                  mkHistoryEntry (-3) "cell_2_lto" 2.4 0 28 0])
              (constant_world 0.75) eq_refl two_cells_well_keyed Hr Hordered)
    as (s' & w' & Hrun & Hsorted & _).
  exists s', w'. split; assumption.
Defined.

(** ** A freshly set-up dashboard *)

Lemma cell_keys_distinct (chosen : nat -> string) (indices : list nat) :
  NoDup indices ->
  NoDup (map (fun i => cell_key_of i (chosen i)) indices).
Proof.
  induction 1 as [|i indices Hnotin _ IH]; cbn; constructor; [|exact IH].
  intro Hin. apply in_map_iff in Hin. destruct Hin as (j & E & Hj).
  apply cell_key_of_inj in E. subst j. exact (Hnotin Hj).
Qed.

(** A reading inside every operating range is [Good] and raises no
    alert. *)
Lemma good_reading (data : CellData) (cell_type : string) :
  min_voltage (get_cell_specs cell_type) <= voltage data ->
  voltage data <= max_voltage (get_cell_specs cell_type) ->
  Qabs (current data) <= max_current (get_cell_specs cell_type) ->
  0 <= temp data ->
  temp data <= 40 ->
  check_cell_status data cell_type = (Good, []).
Proof.
  intros Hlo Hhi Hcur Ht0 Ht40.
  unfold check_cell_status, voltage_checks, current_checks,
    temperature_checks, PyNum.gtb, PyNum.abs.
  apply ltb_ge in Hlo, Hhi, Hcur, Ht0.
  assert (H45 : PyNum.ltb 45 (temp data) = false) by (apply ltb_ge; lra).
  apply ltb_ge in Ht40.
  rewrite Hlo, Hhi, Hcur, H45, Ht40, Ht0. reflexivity.
Qed.

Lemma seeded_cell_good (cell_type : string) (u : Q) (now : Z) :
  unit_interval u ->
  check_cell_status (seeded_cell cell_type u now) cell_type = (Good, []).
Proof.
  intro Hu.
  destruct (get_cell_specs_ordered cell_type) as (Hmin & Hmax & Hcur).
  destruct (seeded_cell_temp cell_type u now Hu) as [H25 H35].
  apply good_reading; cbn [seeded_cell voltage current] in *;
    try lra; try (apply Qlt_le_weak; assumption).
  apply Qle_trans with 0; [discriminate | exact Hcur].
Qed.

Lemma nodup_keys_of_map (chosen : nat -> string) (f : nat -> CellData)
    (indices : list nat) :
  dict_keys (map (fun i => (cell_key_of i (chosen i), f i)) indices) =
  map (fun i => cell_key_of i (chosen i)) indices.
Proof.
  unfold dict_keys. rewrite map_map. reflexivity.
Qed.

(** X6: when the cell count changes, the rebuilt dashboard has
    [num_cells] cells under distinct keys that name their chemistry, every
    cell is classified [Good], and the alerts container shows that all cells
    operate normally; the history and the monitoring switches are left as
    they were. *)
Theorem setup_cells_all_good
    (num_cells : nat) (chosen : nat -> string) (s : Session) (w : World) :
  (forall i, In (chosen i) cell_types) ->
  (forall n, unit_interval (unit_draws w n)) ->
  length (cells_data s) <> num_cells ->
  exists (s' : Session) (w' : World),
    setup_cells num_cells chosen s w = Some (s', w') /\
    length (cells_data s') = num_cells /\
    well_keyed (cells_data s') /\
    Forall (fun item => classify_cell item = Some (Good, [])) (cells_data s') /\
    option_map alerts_container (system_alerts s') = Some AllCellsNormal /\
    historical_data s' = historical_data s /\
    monitoring_active s' = monitoring_active s /\
    auto_refresh s' = auto_refresh s.
Proof.
  intros Hchosen Hdraws Hlen.
  eexists. eexists. split; [apply setup_cells_run; exact Hlen|].
  cbn [cells_data historical_data monitoring_active auto_refresh].
  assert (Hgood :
    Forall (fun item => classify_cell item = Some (Good, []))
      (map (fun i => (cell_key_of i (chosen i),
                      seeded_cell (chosen i) (unit_draws w (drawn w + i))
                                  (clock w)))
           (seq 0 num_cells))).
  { apply Forall_map. apply Forall_forall. intros i _.
    unfold classify_cell. cbn [fst snd].
    rewrite (cell_key_of_names_type i (chosen i) (Hchosen i)).
    rewrite seeded_cell_good by apply Hdraws. reflexivity. }
  assert (Hkeyed :
    well_keyed
      (map (fun i => (cell_key_of i (chosen i),
                      seeded_cell (chosen i) (unit_draws w (drawn w + i))
                                  (clock w)))
           (seq 0 num_cells))).
  { split; rewrite nodup_keys_of_map.
    - apply cell_keys_distinct. apply seq_NoDup.
    - apply Forall_map. apply Forall_forall. intros i _.
      exists (chosen i). apply cell_key_of_names_type. apply Hchosen. }
  split; [rewrite length_map, length_seq; reflexivity|].
  split; [exact Hkeyed|]. split; [exact Hgood|].
  split; [|repeat split].
  unfold system_alerts. cbn [cells_data].
  destruct (system_alerts_loop _ [] (proj2 Hkeyed))
    as (all & Hrun & Hclear & _).
  rewrite Hrun. cbn [app option_map].
  assert (Hall : all = []).
  { apply Hclear. eapply Forall_impl; [|exact Hgood].
    intros item Hitem. rewrite Hitem. reflexivity. }
  rewrite Hall. reflexivity.
Qed.

Lemma setup_cells_all_good_witness :
  (forall i, In (nth i ["lto"; "nmc"; "lifepo4"]%string "lfp"%string) cell_types) /\
  (forall n, unit_interval (unit_draws (constant_world 0.25) n)) /\
  length (cells_data (mkSession [] [] false false)) <> 3%nat /\
  exists (s' : Session) (w' : World),
    setup_cells 3 (fun i => nth i ["lto"; "nmc"; "lifepo4"]%string "lfp"%string)
      (mkSession [] [] false false) (constant_world 0.25) = Some (s', w') /\
    length (cells_data s') = 3%nat /\
    option_map alerts_container (system_alerts s') = Some AllCellsNormal.
Proof.
  assert (Hchosen : forall i,
            In (nth i ["lto"; "nmc"; "lifepo4"]%string "lfp"%string) cell_types).
  { intros [|[|[|i]]]; cbn; auto 6. destruct i; auto. }
  assert (Hdraws : forall n, unit_interval (unit_draws (constant_world 0.25) n)).
  { intro n. split; discriminate. }
  assert (Hlen : length (cells_data (mkSession [] [] false false)) <> 3%nat).
  { discriminate. }
  split; [exact Hchosen|]. split; [exact Hdraws|]. split; [exact Hlen|].
  destruct (setup_cells_all_good 3
              (fun i => nth i ["lto"; "nmc"; "lifepo4"]%string "lfp"%string)
              (mkSession [] [] false false) (constant_world 0.25)
              Hchosen Hdraws Hlen)
    as (s' & w' & Hrun & Hn & _ & _ & Hclear & _).
  exists s', w'. repeat split; assumption.
Defined.

(** X7: setting up is idempotent in the cell count alone: once the
    dashboard holds [num_cells] cells, running the set-up again with the same
    count changes nothing and draws nothing, even with other chemistries
    chosen. *)
Theorem setup_cells_idempotent
    (num_cells : nat) (chosen chosen' : nat -> string) (s : Session) (w : World) :
  exists (s1 : Session) (w1 : World),
    setup_cells num_cells chosen s w = Some (s1, w1) /\
    length (cells_data s1) = num_cells /\
    setup_cells num_cells chosen' s1 w1 = Some (s1, w1).
Proof.
  destruct (Nat.eq_dec (length (cells_data s)) num_cells) as [Heq|Hneq].
  - exists s, w. unfold setup_cells.
    rewrite (proj2 (Nat.eqb_eq _ _) Heq). repeat split; assumption.
  - eexists. eexists. split; [apply setup_cells_run; exact Hneq|].
    cbn [cells_data]. split; [rewrite length_map, length_seq; reflexivity|].
    unfold setup_cells at 1. cbn [cells_data].
    rewrite length_map, length_seq, Nat.eqb_refl. reflexivity.
Qed.

(** ** Alerts of simulated readings *)

Lemma within_limits_alerts (key : string) (data : CellData) (cell_type : string) :
  nth_error (split "_" key) 2 = Some cell_type ->
  within_limits (key, data) ->
  Forall (fun a => alert_dimension a <> OfVoltage /\
                   forall t, a <> TemperatureTooLow t)
         (snd (check_cell_status data cell_type)).
Proof.
  intros Hkey Hlim. destruct (Hlim cell_type Hkey) as (Hlo & Hhi & Ht0 & _).
  cbn [fst snd] in *.
  unfold check_cell_status, voltage_checks, current_checks,
    temperature_checks, PyNum.gtb.
  apply ltb_ge in Hlo, Hhi, Ht0. rewrite Hlo, Hhi, Ht0.
  case_tests; cbn; repeat constructor; intros; discriminate.
Qed.

(** X8: whatever the previous reading, the reading the simulation step
    returns is classified without a voltage alert and without a
    "temperature too low" alert: a simulated reading can only raise the
    current alert and the two high-temperature alerts. *)
Theorem simulated_reading_alerts
    (cell_key : string) (base_data : CellData) (w : World) (cell_type : string) :
  nth_error (split "_" cell_key) 2 = Some cell_type ->
  exists (data : CellData) (w' : World),
    simulate_real_time_data cell_key base_data w = Some (data, w') /\
    classify_cell (cell_key, data) = Some (check_cell_status data cell_type) /\
    voltage_dimension (get_cell_specs cell_type) (voltage data) = Good /\
    Forall (fun a => alert_dimension a <> OfVoltage /\
                     forall t, a <> TemperatureTooLow t)
           (snd (check_cell_status data cell_type)).
Proof.
  intro Hkey.
  destruct (simulate_real_time_data cell_key base_data w)
    as [[data w']|] eqn:Hrun.
  2:{ rewrite (simulate_real_time_data_result _ _ _ _ Hkey) in Hrun.
      discriminate Hrun. }
  pose proof (simulated_within_limits _ _ _ _ _ Hrun) as Hlim.
  exists data, w'. split; [reflexivity|]. split.
  { unfold classify_cell. cbn [fst snd]. rewrite Hkey. reflexivity. }
  split.
  - destruct (Hlim cell_type Hkey) as (Hlo & Hhi & _). cbn [fst snd] in *.
    unfold voltage_dimension, PyNum.gtb.
    apply ltb_ge in Hlo, Hhi. rewrite Hlo, Hhi. reflexivity.
  - apply (within_limits_alerts cell_key); assumption.
Qed.

Lemma simulated_reading_alerts_witness :
  nth_error (split "_" "cell_1_lfp") 2 = Some "lfp"%string /\
  exists (data : CellData) (w' : World),
    simulate_real_time_data "cell_1_lfp"
      (mkCellData 5 150 30 750 2.8 3.6 0) (constant_world 0.5) =
      Some (data, w') /\
    voltage_dimension (get_cell_specs "lfp") (voltage data) = Good.
Proof.
  split; [reflexivity|].
  destruct (simulated_reading_alerts "cell_1_lfp"
              (mkCellData 5 150 30 750 2.8 3.6 0) (constant_world 0.5)
              "lfp" eq_refl)
    as (data & w' & Hrun & _ & Hgood & _).
  exists data, w'. split; assumption.
Defined.

(** The reading of the witness: 5 V and 150 A on an [lfp] cell come back as
    3.6 V with the current alert alone. *)
Example simulated_reading_of_overdriven_cell :
  option_map (fun r : CellData * World =>
                check_cell_status (fst r) "lfp")
    (simulate_real_time_data "cell_1_lfp"
       (mkCellData 5 150 30 750 2.8 3.6 0) (constant_world 0.5)) =
  Some (Warning, [CurrentHigh (Qabs (PyNum.round (150 + (-2.0 + (2.0 - -2.0) * 0.5)) 2)) 100]).
Proof. reflexivity. Qed.

(** ** System overview *)

Lemma cells_count_succ (n : nat) :
  inject_Z (Z.of_nat (S n)) == inject_Z (Z.of_nat n) + 1.
Proof.
  rewrite Nat2Z.inj_succ. unfold Z.succ. rewrite inject_Z_plus. reflexivity.
Qed.

Lemma fold_sum_bounds (lo hi : Q) (xs : list Q) :
  forall a : Q,
    Forall (fun x => lo <= x /\ x <= hi) xs ->
    a + inject_Z (Z.of_nat (length xs)) * lo <= fold_left Qplus xs a /\
    fold_left Qplus xs a <= a + inject_Z (Z.of_nat (length xs)) * hi.
Proof.
  induction xs as [|x xs IH]; intros a Hall.
  - cbn [fold_left length]. change (inject_Z (Z.of_nat 0)) with 0.
    split; lra.
  - inversion Hall as [|? ? [Hlo Hhi] Hall']; subst.
    cbn [fold_left length]. destruct (IH (a + x) Hall') as [IHlo IHhi].
    rewrite cells_count_succ.
    set (count := inject_Z (Z.of_nat (length xs))) in *.
    assert (Elo : (count + 1) * lo == count * lo + lo) by ring.
    assert (Ehi : (count + 1) * hi == count * hi + hi) by ring.
    rewrite Elo, Ehi.
    set (plo := count * lo) in *. set (phi := count * hi) in *.
    split; lra.
Qed.

Lemma np_mean_bounds (lo hi : Q) (xs : list Q) :
  xs <> [] ->
  Forall (fun x => lo <= x /\ x <= hi) xs ->
  lo <= np_mean xs /\ np_mean xs <= hi.
Proof.
  intros Hne Hall. unfold np_mean, py_sum.
  destruct (fold_sum_bounds lo hi xs 0 Hall) as [Hlo Hhi].
  assert (Hpos : 0 < inject_Z (Z.of_nat (length xs))).
  { destruct xs as [|x xs]; [congruence|].
    cbn [length]. rewrite cells_count_succ.
    assert (0 <= inject_Z (Z.of_nat (length xs)))
      by (rewrite <- (Zle_Qle 0); lia).
    lra. }
  split.
  - apply Qle_shift_div_l; [exact Hpos|]. lra.
  - apply Qle_shift_div_r; [exact Hpos|]. lra.
Qed.

Lemma filter_length_le {A : Type} (f : A -> bool) (xs : list A) :
  (length (filter f xs) <= length xs)%nat.
Proof.
  induction xs as [|x xs IH]; cbn; [lia|]. destruct (f x); cbn; lia.
Qed.

Lemma system_overview_nonempty (s : Session) :
  cells_data s <> [] ->
  system_overview s =
  Some {| total_voltage := py_sum (map voltage (dict_values (cells_data s)));
          avg_temp := np_mean (map temp (dict_values (cells_data s)));
          total_capacity := py_sum (map capacity (dict_values (cells_data s)));
          active_cells :=
            length (filter (fun data => negb (Qeq_bool (current data) 0))
                           (dict_values (cells_data s)));
          monitored_cells := length (cells_data s) |}.
Proof.
  intro Hne. unfold system_overview.
  destruct (cells_data s); [congruence | reflexivity].
Qed.

Lemma table_voltage_span (cell_type : string) :
  1.5 <= min_voltage (get_cell_specs cell_type) /\
  max_voltage (get_cell_specs cell_type) <= 4.
Proof.
  destruct (get_cell_specs_cases cell_type) as [H|[H|[H|H]]]; rewrite H;
    split; discriminate.
Qed.

(** X9: for a dashboard with at least one cell whose keys name their
    chemistry and whose readings are within the limits the simulation step
    enforces (as a tick leaves them), the overview shows an average
    temperature within [[0, 50]], a total capacity that is not negative, a
    total voltage between 1.5 V and 4 V per cell (the extreme bounds of the
    table) and at most as many active cells as monitored ones. *)
Theorem system_overview_within_limits (s : Session) :
  cells_data s <> [] ->
  Forall names_cell_type (dict_keys (cells_data s)) ->
  Forall within_limits (cells_data s) ->
  exists o : Overview,
    system_overview s = Some o /\
    monitored_cells o = length (cells_data s) /\
    (active_cells o <= monitored_cells o)%nat /\
    0 <= avg_temp o /\
    avg_temp o <= 50 /\
    0 <= total_capacity o /\
    inject_Z (Z.of_nat (monitored_cells o)) * 1.5 <= total_voltage o /\
    total_voltage o <= inject_Z (Z.of_nat (monitored_cells o)) * 4.
Proof.
  intros Hne Hnames Hlim.
  assert (Hfacts :
    Forall (fun item : string * CellData =>
              (1.5 <= voltage (snd item) /\ voltage (snd item) <= 4) /\
              (0 <= temp (snd item) /\ temp (snd item) <= 50) /\
              0 <= capacity (snd item))
           (cells_data s)).
  { rewrite Forall_forall in *. intros item Hin.
    destruct (Hnames (fst item)) as [cell_type Hkey].
    { unfold dict_keys. apply in_map. exact Hin. }
    destruct (Hlim item Hin cell_type Hkey) as (Hlo & Hhi & Ht0 & Ht50 & Hcap).
    destruct (table_voltage_span cell_type) as [Hmin Hmax].
    repeat split; try assumption; lra. }
  eexists. split; [apply system_overview_nonempty; exact Hne|].
  cbn [monitored_cells active_cells avg_temp total_capacity total_voltage].
  unfold dict_values.
  split; [reflexivity|].
  split; [rewrite <- (length_map snd (cells_data s)); apply filter_length_le|].
  assert (Htemp : 0 <= np_mean (map temp (map snd (cells_data s))) /\
                  np_mean (map temp (map snd (cells_data s))) <= 50).
  { apply np_mean_bounds.
    - destruct (cells_data s); [congruence | discriminate].
    - rewrite map_map. apply Forall_map.
      eapply Forall_impl; [|exact Hfacts]. cbn. intros item H. apply H. }
  split; [apply Htemp|]. split; [apply Htemp|].
  assert (Hcap : Forall (fun x => 0 <= x /\ x <= x)
                        (map capacity (map snd (cells_data s)))).
  { rewrite map_map. apply Forall_map.
    eapply Forall_impl; [|exact Hfacts]. cbn. intros item H.
    split; [apply H | apply Qle_refl]. }
  assert (Hcap0 : 0 <= py_sum (map capacity (map snd (cells_data s)))).
  { unfold py_sum.
    assert (Hgen : forall (xs : list Q) (a : Q),
               Forall (fun x => 0 <= x /\ x <= x) xs -> 0 <= a ->
               0 <= fold_left Qplus xs a).
    { induction xs as [|x xs IH]; intros a Hall Ha; [exact Ha|].
      inversion Hall as [|? ? [Hx _] Hall']; subst. cbn [fold_left].
      apply IH; [exact Hall' | lra]. }
    apply Hgen; [exact Hcap | apply Qle_refl]. }
  split; [exact Hcap0|].
  assert (Hvolt : Forall (fun x => 1.5 <= x /\ x <= 4)
                         (map voltage (map snd (cells_data s)))).
  { rewrite map_map. apply Forall_map.
    eapply Forall_impl; [|exact Hfacts]. cbn. intros item H. apply H. }
  destruct (fold_sum_bounds 1.5 4 _ 0 Hvolt) as [Hvlo Hvhi].
  rewrite !length_map in Hvlo, Hvhi. unfold py_sum. split; lra.
Qed.

Lemma two_cells_within_limits :
  Forall within_limits
    [("cell_1_lfp"%string, mkCellData 3.45 (-12.5) 41.5 43.13 2.8 3.6 0);
     ("cell_2_lto"%string, mkCellData 1.5 0 0.5 0 1.5 2.8 0)].
Proof.
  apply Forall_cons; [|apply Forall_cons; [|apply Forall_nil]];
    intros cell_type Hkey; cbn in Hkey;
    injection Hkey as Hkey; subst cell_type; cbn;
    repeat split; discriminate.
Defined.

Lemma system_overview_within_limits_witness :
  cells_data
    (monitoring_session
       [("cell_1_lfp"%string, mkCellData 3.45 (-12.5) 41.5 43.13 2.8 3.6 0);
        ("cell_2_lto"%string, mkCellData 1.5 0 0.5 0 1.5 2.8 0)] []) <> [] /\
  Forall names_cell_type
    (dict_keys
       (cells_data
          (monitoring_session
             [("cell_1_lfp"%string, mkCellData 3.45 (-12.5) 41.5 43.13 2.8 3.6 0);
              ("cell_2_lto"%string, mkCellData 1.5 0 0.5 0 1.5 2.8 0)] []))) /\
  Forall within_limits
    (cells_data
       (monitoring_session
          [("cell_1_lfp"%string, mkCellData 3.45 (-12.5) 41.5 43.13 2.8 3.6 0);
           ("cell_2_lto"%string, mkCellData 1.5 0 0.5 0 1.5 2.8 0)] [])) /\
  exists o : Overview,
    system_overview
      (monitoring_session
         [("cell_1_lfp"%string, mkCellData 3.45 (-12.5) 41.5 43.13 2.8 3.6 0);
          ("cell_2_lto"%string, mkCellData 1.5 0 0.5 0 1.5 2.8 0)] []) =
      Some o /\
    monitored_cells o = 2%nat /\
    0 <= avg_temp o /\
    avg_temp o <= 50.
Proof.
  assert (Hne :
    cells_data
      (monitoring_session
         [("cell_1_lfp"%string, mkCellData 3.45 (-12.5) 41.5 43.13 2.8 3.6 0);
          ("cell_2_lto"%string, mkCellData 1.5 0 0.5 0 1.5 2.8 0)] []) <> [])
    by discriminate.
  assert (Hnames :
    Forall names_cell_type
      (dict_keys
         (cells_data
            (monitoring_session
               [("cell_1_lfp"%string, mkCellData 3.45 (-12.5) 41.5 43.13 2.8 3.6 0);
                ("cell_2_lto"%string, mkCellData 1.5 0 0.5 0 1.5 2.8 0)] [])))).
  { repeat constructor; eexists; reflexivity. }
  split; [exact Hne|]. split; [exact Hnames|].
  split; [exact two_cells_within_limits|].
  destruct (system_overview_within_limits _ Hne Hnames two_cells_within_limits)
    as (o & Hover & Hcount & _ & Hlo & Hhi & _).
  exists o. repeat split; assumption.
Defined.

(** X10: right after the set-up of [num_cells >= 1] cells the overview
    counts [num_cells] monitored cells of which none is active, shows a total
    capacity of zero and an average temperature within [[25, 35]]. *)
Theorem system_overview_after_setup
    (num_cells : nat) (chosen : nat -> string) (s : Session) (w : World) :
  (forall n, unit_interval (unit_draws w n)) ->
  length (cells_data s) <> num_cells ->
  (1 <= num_cells)%nat ->
  exists (s' : Session) (w' : World) (o : Overview),
    setup_cells num_cells chosen s w = Some (s', w') /\
    system_overview s' = Some o /\
    monitored_cells o = num_cells /\
    active_cells o = 0%nat /\
    total_capacity o == 0 /\
    25 <= avg_temp o /\
    avg_temp o <= 35.
Proof.
  intros Hdraws Hlen Hn.
  eexists. eexists. eexists.
  split; [apply setup_cells_run; exact Hlen|].
  split.
  { apply system_overview_nonempty. cbn [cells_data].
    destruct num_cells as [|m]; [lia|]. cbn [seq map]. discriminate. }
  cbn [cells_data monitored_cells active_cells total_capacity avg_temp].
  unfold dict_values. rewrite !map_map. cbn [snd].
  split; [rewrite length_map, length_seq; reflexivity|].
  split.
  { generalize (seq 0 num_cells). intro l.
    induction l as [|i l IH]; [reflexivity|].
    cbn [map filter]. cbn [seeded_cell current]. exact IH. }
  split.
  { assert (Hzero : Forall (fun x => 0 <= x /\ x <= 0)
                      (map (fun i => capacity
                              (seeded_cell (chosen i)
                                 (unit_draws w (drawn w + i)) (clock w)))
                           (seq 0 num_cells))).
    { apply Forall_map. apply Forall_forall. intros i _.
      cbn [seeded_cell capacity]. split; discriminate. }
    destruct (fold_sum_bounds 0 0 _ 0 Hzero) as [Hlo Hhi].
    unfold py_sum. apply Qle_antisym; lra. }
  apply np_mean_bounds.
  - destruct num_cells as [|m]; [lia|]. cbn [seq map]. discriminate.
  - apply Forall_map. apply Forall_forall. intros i _.
    apply seeded_cell_temp. apply Hdraws.
Qed.

Lemma system_overview_after_setup_witness :
  (forall n, unit_interval (unit_draws (constant_world 0.25) n)) /\
  length (cells_data (mkSession [] [] false false)) <> 2%nat /\
  (1 <= 2)%nat /\
  exists (s' : Session) (w' : World) (o : Overview),
    setup_cells 2 (fun _ => "nmc"%string)
      (mkSession [] [] false false) (constant_world 0.25) = Some (s', w') /\
    system_overview s' = Some o /\
    active_cells o = 0%nat.
Proof.
  assert (Hdraws : forall n, unit_interval (unit_draws (constant_world 0.25) n)).
  { intro n. split; discriminate. }
  assert (Hlen : length (cells_data (mkSession [] [] false false)) <> 2%nat).
  { discriminate. }
  assert (Hn : (1 <= 2)%nat) by (repeat constructor).
  split; [exact Hdraws|]. split; [exact Hlen|]. split; [exact Hn|].
  destruct (system_overview_after_setup 2 (fun _ => "nmc"%string)
              (mkSession [] [] false false) (constant_world 0.25)
              Hdraws Hlen Hn)
    as (s' & w' & o & Hrun & Hover & _ & Hactive & _).
  exists s', w', o. repeat split; assumption.
Defined.

(** ** Manual updates *)

Lemma dict_get_set_other {V : Type} (k k' : string) (v : V) (d : dict V) :
  k <> k' -> dict_get k (dict_set k' v d) = dict_get k d.
Proof.
  intro Hne. induction d as [|[k0 v0] d IH]; cbn.
  - destruct (String.eqb k k') eqn:E; [|reflexivity].
    apply String.eqb_eq in E. contradiction.
  - destruct (String.eqb k' k0) eqn:E'; cbn.
    + apply String.eqb_eq in E'. subst k0.
      destruct (String.eqb k k') eqn:E; [|reflexivity].
      apply String.eqb_eq in E. contradiction.
    + rewrite IH. reflexivity.
Qed.

Lemma dict_get_some_in {V : Type} (k : string) (v : V) (d : dict V) :
  dict_get k d = Some v -> In k (dict_keys d).
Proof.
  induction d as [|[k0 v0] d IH]; cbn; [discriminate|].
  destruct (String.eqb k k0) eqn:E.
  - apply String.eqb_eq in E. intros _. left. congruence.
  - intro H. right. apply IH. exact H.
Qed.

(** X11: "Update Cell Data" on a monitored cell rewrites that cell only:
    the keys and their order, every other cell, the voltage bounds stored on
    the cell, the history and the switches are unchanged, no random draw is
    made, and a voltage that is not negative gives a capacity that is not
    negative. *)
Theorem update_cell_data_frame
    (selected_cell : string) (new_voltage new_current new_temp : Q)
    (s : Session) (w : World) (old : CellData) :
  dict_get selected_cell (cells_data s) = Some old ->
  0 <= new_voltage ->
  exists (s' : Session) (data : CellData),
    update_cell_data selected_cell new_voltage new_current new_temp s w =
      Some (s', w) /\
    dict_keys (cells_data s') = dict_keys (cells_data s) /\
    dict_get selected_cell (cells_data s') = Some data /\
    (forall other : string,
        other <> selected_cell ->
        dict_get other (cells_data s') = dict_get other (cells_data s)) /\
    temp data = new_temp /\
    cell_min_voltage data = cell_min_voltage old /\
    cell_max_voltage data = cell_max_voltage old /\
    timestamp data = clock w /\
    0 <= capacity data /\
    historical_data s' = historical_data s /\
    monitoring_active s' = monitoring_active s /\
    auto_refresh s' = auto_refresh s.
Proof.
  intros Hold Hv. unfold update_cell_data. rewrite Hold.
  unfold bind, datetime_now, ret.
  eexists. eexists. split; [reflexivity|].
  cbn [cells_data historical_data monitoring_active auto_refresh].
  split; [apply dict_set_keys; eapply dict_get_some_in; exact Hold|].
  split; [apply dict_get_set_same|].
  split; [intros other Hne; apply dict_get_set_other; exact Hne|].
  cbn [temp cell_min_voltage cell_max_voltage timestamp capacity].
  repeat split.
  apply round_lower; [apply zero_decimals|].
  apply Qmult_le_0_compat; [exact Hv | unfold PyNum.abs; apply Qabs_nonneg].
Qed.

Lemma update_cell_data_frame_witness :
  dict_get "cell_2_lto"
    (cells_data
       (monitoring_session
          [("cell_1_lfp"%string, mkCellData 3.2 0 30 0 2.8 3.6 0);
           ("cell_2_lto"%string, mkCellData 2.4 0 28 0 1.5 2.8 0)] [])) =
    Some (mkCellData 2.4 0 28 0 1.5 2.8 0) /\
  0 <= 2.9 /\
  exists (s' : Session) (data : CellData),
    update_cell_data "cell_2_lto" 2.9 (-250) (-5)
      (monitoring_session
         [("cell_1_lfp"%string, mkCellData 3.2 0 30 0 2.8 3.6 0);
          ("cell_2_lto"%string, mkCellData 2.4 0 28 0 1.5 2.8 0)] [])
      (constant_world 0.5) = Some (s', constant_world 0.5) /\
    dict_keys (cells_data s') = ["cell_1_lfp"; "cell_2_lto"]%string /\
    0 <= capacity data.
Proof.
  assert (Hv : 0 <= 2.9) by discriminate.
  split; [reflexivity|]. split; [exact Hv|].
  destruct (update_cell_data_frame "cell_2_lto" 2.9 (-250) (-5)
              (monitoring_session
                 [("cell_1_lfp"%string, mkCellData 3.2 0 30 0 2.8 3.6 0);
                  ("cell_2_lto"%string, mkCellData 2.4 0 28 0 1.5 2.8 0)] [])
              (constant_world 0.5) (mkCellData 2.4 0 28 0 1.5 2.8 0)
              eq_refl Hv)
    as (s' & data & Hrun & Hkeys & _ & _ & _ & _ & _ & _ & Hcap & _).
  exists s', data. repeat split; assumption.
Defined.

(** ** Keys *)

Lemma split_length (sep : ascii) (s : string) :
  length (split sep s) = S (count sep s).
Proof.
  induction s as [|c rest IH]; cbn; [reflexivity|].
  destruct (Ascii.eqb c sep); cbn.
  - rewrite IH. reflexivity.
  - destruct (split sep rest) as [|piece pieces]; cbn in *; [discriminate|].
    exact IH.
Qed.

(** X12: the simulation step, and the classification every view of the
    dashboard runs, raise [IndexError] exactly for a key with fewer than two
    underscores. *)
Theorem key_without_type_raises
    (cell_key : string) (data : CellData) (w : World) :
  (simulate_real_time_data cell_key data w = None <->
   (count "_" cell_key < 2)%nat) /\
  (classify_cell (cell_key, data) = None <-> (count "_" cell_key < 2)%nat) /\
  (collect_cell_alerts (cell_key, data) [] = None <->
   (count "_" cell_key < 2)%nat).
Proof.
  pose proof (split_length "_" cell_key) as Hlen.
  unfold simulate_real_time_data, classify_cell, collect_cell_alerts.
  cbn [fst snd].
  destruct (nth_error (split "_" cell_key) 2) as [cell_type|] eqn:Hkey.
  - assert (Hlt : (2 < length (split "_" cell_key))%nat).
    { apply nth_error_Some. congruence. }
    unfold bind, random_uniform, datetime_now, ret.
    destruct (check_cell_status data cell_type) as [status [|a alerts]];
      repeat split; intro H; try discriminate H; lia.
  - apply nth_error_None in Hkey.
    repeat split; intro H; try reflexivity; lia.
Qed.

(** X13: a key built by the initialisation loop from an index and a
    chemistry without underscore splits back into ["cell"], the index plus
    one and the chemistry, and the simulation step accepts it. *)
Theorem cell_key_round_trip
    (i : nat) (cell_type : string) (base_data : CellData) (w : World) :
  contains "_" cell_type = false ->
  split "_" (cell_key_of i cell_type) =
    ["cell"%string; str_of_nat (i + 1); cell_type] /\
  classify_cell (cell_key_of i cell_type, base_data) =
    Some (check_cell_status base_data cell_type) /\
  exists (data : CellData) (w' : World),
    simulate_real_time_data (cell_key_of i cell_type) base_data w =
      Some (data, w').
Proof.
  intro Hclean.
  assert (Hsplit : split "_" (cell_key_of i cell_type) =
                   ["cell"%string; str_of_nat (i + 1); cell_type]).
  { rewrite split_cell_key_of, (split_without_sep _ _ Hclean). reflexivity. }
  split; [exact Hsplit|]. split.
  - unfold classify_cell. cbn [fst snd]. rewrite Hsplit. reflexivity.
  - eexists. eexists. apply simulate_real_time_data_result.
    rewrite Hsplit. reflexivity.
Qed.

Lemma cell_key_round_trip_witness :
  contains "_" "lifepo4" = false /\
  split "_" (cell_key_of 11 "lifepo4") = ["cell"; "12"; "lifepo4"]%string.
Proof.
  split; [reflexivity|].
  exact (proj1 (cell_key_round_trip 11 "lifepo4"
                  (mkCellData 3.3 0 30 0 2.5 3.65 0) (constant_world 0.5)
                  eq_refl)).
Defined.

(** ** Charge and discharge *)

Lemma abs_opp (c : Q) : PyNum.abs (- c) = PyNum.abs c.
Proof.
  destruct c as [n d]. unfold PyNum.abs, Qabs, Qopp. cbn [Qnum Qden].
  rewrite Z.abs_opp. reflexivity.
Qed.

(** X14: the classification looks at the magnitude of the current only: a
    reading and the reading with the opposite current, same voltage and same
    temperature, get the same status and the same alerts. *)
Theorem check_cell_status_ignores_current_sign
    (d1 d2 : CellData) (cell_type : string) :
  voltage d2 = voltage d1 ->
  temp d2 = temp d1 ->
  current d2 = - current d1 ->
  check_cell_status d2 cell_type = check_cell_status d1 cell_type.
Proof.
  intros Hv Ht Hc. unfold check_cell_status, current_checks.
  rewrite Hv, Ht, Hc, abs_opp. reflexivity.
Qed.

Lemma check_cell_status_ignores_current_sign_witness :
  voltage (mkCellData 3.2 (-150) 30 480 2.8 3.6 0) =
    voltage (mkCellData 3.2 150 30 480 2.8 3.6 0) /\
  temp (mkCellData 3.2 (-150) 30 480 2.8 3.6 0) =
    temp (mkCellData 3.2 150 30 480 2.8 3.6 0) /\
  current (mkCellData 3.2 (-150) 30 480 2.8 3.6 0) =
    - current (mkCellData 3.2 150 30 480 2.8 3.6 0) /\
  check_cell_status (mkCellData 3.2 (-150) 30 480 2.8 3.6 0) "lfp" =
    check_cell_status (mkCellData 3.2 150 30 480 2.8 3.6 0) "lfp".
Proof.
  split; [reflexivity|]. split; [reflexivity|]. split; [reflexivity|].
  apply (check_cell_status_ignores_current_sign
           (mkCellData 3.2 150 30 480 2.8 3.6 0)
           (mkCellData 3.2 (-150) 30 480 2.8 3.6 0) "lfp"); reflexivity.
Defined.

(** ** Switching off and resetting *)

Lemma monitoring_ticks_idle (n : nat) (refresh_interval : Z)
    (s : Session) (w : World) :
  monitoring_active s && auto_refresh s = false ->
  monitoring_ticks n refresh_interval s w = Some (s, w).
Proof.
  intro Hidle. induction n as [|n IH]; [reflexivity|].
  cbn [monitoring_ticks]. unfold bind, monitoring_tick. rewrite Hidle.
  unfold ret. exact IH.
Qed.

(** X15: after "Stop Monitoring" no number of ticks changes anything:
    cells, history and switches stay, no random draw is made and the clock is
    not advanced by a sleep; "Start" after "Stop" gives back the monitored
    cells and the history as they were. *)
Theorem stop_monitoring_freezes
    (n : nat) (refresh_interval : Z) (s : Session) (w : World) :
  monitoring_ticks n refresh_interval (stop_monitoring s) w =
    Some (stop_monitoring s, w) /\
  cells_data (start_monitoring (stop_monitoring s)) = cells_data s /\
  historical_data (start_monitoring (stop_monitoring s)) = historical_data s /\
  monitoring_active (start_monitoring (stop_monitoring s)) = true.
Proof.
  split; [apply monitoring_ticks_idle; reflexivity | repeat split].
Qed.

(** X16: "Reset All Cells" empties the dashboard and switches monitoring
    off, and the next run of the script, with its cell count of at least
    one, rebuilds [num_cells] fresh cells at once; the history stays empty
    and ticks do nothing until monitoring is started again. *)
Theorem reset_all_cells_then_rerun
    (num_cells : nat) (chosen : nat -> string) (s : Session) (w : World) :
  (1 <= num_cells)%nat ->
  exists (s' : Session) (w' : World),
    setup_cells num_cells chosen (reset_all_cells s) w = Some (s', w') /\
    dict_keys (cells_data s') =
      map (fun i => cell_key_of i (chosen i)) (seq 0 num_cells) /\
    historical_data s' = [] /\
    monitoring_active s' = false /\
    auto_refresh s' = auto_refresh s /\
    drawn w' = (drawn w + num_cells)%nat /\
    forall (n : nat) (refresh_interval : Z),
      monitoring_ticks n refresh_interval s' w' = Some (s', w').
Proof.
  intro Hn.
  eexists. eexists. split.
  { apply setup_cells_run. cbn [reset_all_cells cells_data length]. lia. }
  cbn [cells_data historical_data monitoring_active auto_refresh
       reset_all_cells drawn].
  split; [apply nodup_keys_of_map|].
  repeat split.
  intros n refresh_interval. apply monitoring_ticks_idle. reflexivity.
Qed.

Lemma reset_all_cells_then_rerun_witness :
  (1 <= 2)%nat /\
  exists (s' : Session) (w' : World),
    setup_cells 2 (fun _ => "lfp"%string)
      (reset_all_cells
         (monitoring_session
            [("cell_1_lfp"%string, mkCellData 3.2 0 30 0 2.8 3.6 0);
             ("cell_2_lto"%string, mkCellData 2.4 0 28 0 1.5 2.8 0)] []))
      (constant_world 0.5) = Some (s', w') /\
    dict_keys (cells_data s') = ["cell_1_lfp"; "cell_2_lfp"]%string /\
    historical_data s' = [].
Proof.
  assert (Hn : (1 <= 2)%nat) by (repeat constructor).
  split; [exact Hn|].
  destruct (reset_all_cells_then_rerun 2 (fun _ => "lfp"%string)
              (monitoring_session
                 [("cell_1_lfp"%string, mkCellData 3.2 0 30 0 2.8 3.6 0);
                  ("cell_2_lto"%string, mkCellData 2.4 0 28 0 1.5 2.8 0)] [])
              (constant_world 0.5) Hn)
    as (s' & w' & Hrun & Hkeys & Hhist & _).
  exists s', w'. repeat split; assumption.
Defined.

(** * Further properties of the companion script *)

Lemma split_companion_key (idx : nat) (cell_type : string) :
  split "_" (companion_key idx cell_type) =
  "cell"%string :: str_of_nat idx :: split "_" cell_type.
Proof.
  unfold companion_key.
  change ("cell_" ++ str_of_nat idx ++ "_" ++ cell_type)%string
    with ("cell" ++ String "_" (str_of_nat idx ++ String "_" cell_type))%string.
  rewrite split_at_first_sep by reflexivity.
  rewrite split_at_first_sep by apply string_of_uint_digits.
  reflexivity.
Qed.

Lemma companion_key_inj (i j : nat) (a b : string) :
  companion_key i a = companion_key j b -> i = j.
Proof.
  intro H. apply (f_equal (split "_")) in H.
  rewrite !split_companion_key in H.
  injection H as H _. apply str_of_nat_inj in H. exact H.
Qed.

Lemma enumerate_from {A : Type} (xs : list A) :
  forall (start i : nat) (x : A),
    In (i, x) (W1.enumerate start xs) -> (start <= i)%nat.
Proof.
  induction xs as [|y xs IH]; intros start i x Hin; cbn in Hin; [contradiction|].
  destruct Hin as [Hin|Hin].
  - injection Hin as Hi _. lia.
  - apply IH in Hin. lia.
Qed.

Lemma enumerate_nth {A : Type} (xs : list A) :
  forall (start k : nat),
    nth_error (W1.enumerate start xs) k =
    option_map (fun x => ((start + k)%nat, x)) (nth_error xs k).
Proof.
  induction xs as [|y xs IH]; intros start k.
  - destruct k; reflexivity.
  - destruct k as [|k]; cbn.
    + rewrite Nat.add_0_r. reflexivity.
    + rewrite IH. rewrite <- plus_n_Sm. reflexivity.
Qed.

Lemma enumerate_length {A : Type} (xs : list A) (start : nat) :
  length (W1.enumerate start xs) = length xs.
Proof.
  revert start. induction xs as [|y xs IH]; intro start; cbn;
    [reflexivity | rewrite IH; reflexivity].
Qed.

(** The set-up loop of the script, written out. *)
Lemma companion_setup_loop (list_of_cell : list string) :
  forall (start : nat) (acc : dict W1.CellData) (w : World),
    (forall k, In k (dict_keys acc) ->
               exists j ct, (j < start)%nat /\ k = companion_key j ct) ->
    for_each (W1.enumerate start list_of_cell) W1.setup_cell acc w =
    Some (acc ++
          map (fun item : nat * string =>
                 (companion_key (fst item) (snd item),
                  companion_cell (snd item)
                    (unit_draws w (drawn w + (fst item - start)))))
              (W1.enumerate start list_of_cell),
          mkWorld (unit_draws w) (drawn w + length list_of_cell) (clock w)).
Proof.
  induction list_of_cell as [|cell_type rest IH]; intros start acc w Hkeys.
  - cbn. rewrite app_nil_r, Nat.add_0_r. destruct w. reflexivity.
  - cbn [W1.enumerate for_each map length]. unfold bind at 1.
    unfold W1.setup_cell at 1. unfold bind, random_uniform, ret.
    fold (companion_key start cell_type).
    rewrite dict_set_fresh.
    2:{ intro Hin. destruct (Hkeys _ Hin) as (j & ct & Hj & E).
        apply companion_key_inj in E. lia. }
    rewrite IH.
    + cbn [unit_draws drawn clock fst snd]. rewrite <- app_assoc. cbn [app].
      rewrite (map_ext_in _
                 (fun item : nat * string =>
                    (companion_key (fst item) (snd item),
                     companion_cell (snd item)
                       (unit_draws w (drawn w + (fst item - start)))))
                 (W1.enumerate (S start) rest)).
      * rewrite Nat.sub_diag, Nat.add_0_r, <- plus_n_Sm. reflexivity.
      * intros [i ct] Hi. apply enumerate_from in Hi. cbn [fst snd].
        replace (S (drawn w) + (i - S start))%nat
          with (drawn w + (i - start))%nat by lia.
        reflexivity.
    + intros k Hin. rewrite dict_keys_app in Hin.
      apply in_app_or in Hin. destruct Hin as [Hin|[Hin|[]]].
      * destruct (Hkeys _ Hin) as (j & ct & Hj & E).
        exists j, ct. split; [lia | exact E].
      * exists start, cell_type. split; [lia | symmetry; exact Hin].
Qed.

Lemma companion_keys_distinct (items : list (nat * string)) :
  NoDup (map fst items) ->
  NoDup (map (fun item => companion_key (fst item) (snd item)) items).
Proof.
  induction items as [|[i ct] items IH]; cbn; intro Hnodup; constructor.
  - inversion Hnodup as [|? ? Hnotin _]; subst.
    intro Hin. apply in_map_iff in Hin. destruct Hin as ([j ct'] & E & Hj).
    cbn [fst snd] in E. apply companion_key_inj in E. subst j.
    apply Hnotin. apply in_map_iff. exists (i, ct'). split; [reflexivity | exact Hj].
  - apply IH. inversion Hnodup. assumption.
Qed.

Lemma enumerate_indices {A : Type} (xs : list A) (start : nat) :
  map fst (W1.enumerate start xs) = seq start (length xs).
Proof.
  revert start. induction xs as [|y xs IH]; intro start; cbn;
    [reflexivity | rewrite IH; reflexivity].
Qed.

Lemma companion_cell_facts (cell_type : string) (u : Q) :
  unit_interval u ->
  W1.current (companion_cell cell_type u) == 0 /\
  W1.capacity (companion_cell cell_type u) == 0 /\
  25 <= W1.temp (companion_cell cell_type u) /\
  W1.temp (companion_cell cell_type u) <= 40 /\
  W1.min_voltage (companion_cell cell_type u) <
    W1.voltage (companion_cell cell_type u) /\
  W1.voltage (companion_cell cell_type u) <
    W1.max_voltage (companion_cell cell_type u).
Proof.
  intro Hu. unfold companion_cell.
  cbn [W1.current W1.capacity W1.temp W1.min_voltage W1.voltage W1.max_voltage].
  destruct companion_decimals as [H25 H40].
  destruct (uniform_within 25 40 u) as [Hlo Hhi]; [discriminate | exact Hu |].
  split; [reflexivity|].
  split; [destruct (W1.is_lfp cell_type); reflexivity|].
  split; [apply round_lower; assumption|].
  split; [apply round_upper; assumption|].
  destruct (W1.is_lfp cell_type); split; reflexivity.
Qed.

(** X17: the set-up loop of the script builds one cell per entered type,
    in order, under distinct keys [cell_<position>_<type>] counted from 1;
    every cell starts with zero current and zero capacity, a temperature
    within [[25, 40]] and a voltage strictly inside its own bounds, 3.2 V for
    [lfp] and 3.6 V for anything else. *)
Theorem companion_setup_cells (list_of_cell : list string) (w : World) :
  (forall n, unit_interval (unit_draws w n)) ->
  exists (cells : dict W1.CellData) (w' : World),
    W1.setup list_of_cell w = Some (cells, w') /\
    dict_keys cells =
      map (fun item => companion_key (fst item) (snd item))
          (W1.enumerate 1 list_of_cell) /\
    NoDup (dict_keys cells) /\
    Forall2 (fun cell_type item =>
               W1.voltage (snd item) =
                 (if String.eqb cell_type "lfp" then 3.2 else 3.6) /\
               W1.current (snd item) == 0 /\
               W1.capacity (snd item) == 0 /\
               25 <= W1.temp (snd item) /\
               W1.temp (snd item) <= 40 /\
               W1.min_voltage (snd item) < W1.voltage (snd item) /\
               W1.voltage (snd item) < W1.max_voltage (snd item))
            list_of_cell cells /\
    drawn w' = (drawn w + length list_of_cell)%nat.
Proof.
  intro Hdraws. unfold W1.setup.
  rewrite companion_setup_loop by (intros k []). cbn [app].
  eexists. eexists. split; [reflexivity|].
  assert (Hkeys :
    dict_keys
      (map (fun item : nat * string =>
              (companion_key (fst item) (snd item),
               companion_cell (snd item)
                 (unit_draws w (drawn w + (fst item - 1)))))
           (W1.enumerate 1 list_of_cell)) =
    map (fun item => companion_key (fst item) (snd item))
        (W1.enumerate 1 list_of_cell)).
  { unfold dict_keys. rewrite map_map. reflexivity. }
  split; [exact Hkeys|]. split.
  { rewrite Hkeys. apply companion_keys_distinct.
    rewrite enumerate_indices. apply seq_NoDup. }
  split; [|reflexivity].
  assert (Hgen : forall (g : nat -> nat) (l : list string) (start : nat),
    Forall2 (fun cell_type (item : string * W1.CellData) =>
               W1.voltage (snd item) =
                 (if String.eqb cell_type "lfp" then 3.2 else 3.6) /\
               W1.current (snd item) == 0 /\
               W1.capacity (snd item) == 0 /\
               25 <= W1.temp (snd item) /\
               W1.temp (snd item) <= 40 /\
               W1.min_voltage (snd item) < W1.voltage (snd item) /\
               W1.voltage (snd item) < W1.max_voltage (snd item))
            l
            (map (fun item : nat * string =>
                    (companion_key (fst item) (snd item),
                     companion_cell (snd item) (unit_draws w (g (fst item)))))
                 (W1.enumerate start l))).
  { intros g l. induction l as [|cell_type rest IH]; intro start; cbn;
      constructor; [|apply IH].
    cbn [snd].
    destruct (companion_cell_facts cell_type (unit_draws w (g start)))
      as (Hc & Hcap & H25 & H40 & Hmin & Hmax); [apply Hdraws|].
    repeat split; assumption. }
  apply (Hgen (fun i => (drawn w + (i - 1))%nat)).
Qed.

Lemma companion_setup_cells_witness :
  (forall n, unit_interval (unit_draws (constant_world 0.9) n)) /\
  exists (cells : dict W1.CellData) (w' : World),
    W1.setup ["lfp"; "lto"; ""]%string (constant_world 0.9) = Some (cells, w') /\
    dict_keys cells = ["cell_1_lfp"; "cell_2_lto"; "cell_3_"]%string.
Proof.
  assert (Hdraws : forall n, unit_interval (unit_draws (constant_world 0.9) n)).
  { intro n. split; discriminate. }
  split; [exact Hdraws|].
  destruct (companion_setup_cells ["lfp"; "lto"; ""]%string
              (constant_world 0.9) Hdraws)
    as (cells & w' & Hrun & Hkeys & _).
  exists cells, w'. split; assumption.
Defined.

(** The current-entry loop, written out. *)
Lemma enter_currents_pointwise (answers : nat -> option Q)
    (rest : dict W1.CellData) :
  forall (done : dict W1.CellData) (n : nat),
    NoDup (dict_keys (done ++ rest)) ->
    W1Prompt.enter_currents (dict_keys rest) answers n (done ++ rest) =
    Some (done ++
          map (fun item : nat * (string * W1.CellData) =>
                 (fst (snd item),
                  companion_entered (snd (snd item)) (answers (fst item))))
              (W1.enumerate n rest)).
Proof.
  induction rest as [|[key cell] rest IH]; intros done n Hnodup.
  - reflexivity.
  - assert (Hfresh : ~ In key (dict_keys done)).
    { rewrite dict_keys_app in Hnodup. cbn in Hnodup.
      apply NoDup_remove_2 in Hnodup. intro Hin. apply Hnodup.
      apply in_or_app. left. exact Hin. }
    cbn [dict_keys map fst W1Prompt.enter_currents W1.enumerate snd].
    unfold W1.enter_current.
    rewrite dict_get_past by exact Hfresh. cbn [dict_get].
    rewrite String.eqb_refl, dict_set_past by exact Hfresh.
    fold (companion_entered cell (answers n)).
    fold (dict_keys rest).
    replace (done ++ (key, companion_entered cell (answers n)) :: rest)
      with ((done ++ [(key, companion_entered cell (answers n))]) ++ rest)
      by (rewrite <- app_assoc; reflexivity).
    rewrite IH.
    + rewrite <- app_assoc. reflexivity.
    + rewrite <- app_assoc. cbn [app]. rewrite dict_keys_app in *. exact Hnodup.
Qed.

(** X18: the script never fails on its prompts: for every entered type it
    ends with a cell under [cell_<position>_<type>] whose current is the
    entered one, or 0 after an invalid entry, and whose capacity is
    [round(voltage * current, 2)]; this capacity is zero after an invalid
    entry and takes the sign of the current, so it is not positive for a
    discharge current. *)
Theorem companion_main_cells
    (list_of_cell : list string) (answers : nat -> option Q) (w : World) :
  (forall n, unit_interval (unit_draws w n)) ->
  exists (cells : dict W1.CellData) (w' : World),
    W1Prompt.main list_of_cell answers w = Some (cells, w') /\
    length cells = length list_of_cell /\
    forall (k : nat) (cell_type : string),
      nth_error list_of_cell k = Some cell_type ->
      exists cell : W1.CellData,
        nth_error cells k = Some (companion_key (S k) cell_type, cell) /\
        W1.current cell = match answers k with Some c => c | None => 0.0 end /\
        W1.voltage cell = (if String.eqb cell_type "lfp" then 3.2 else 3.6) /\
        W1.capacity cell = PyNum.round (W1.voltage cell * W1.current cell) 2 /\
        (answers k = None -> W1.capacity cell == 0) /\
        (0 <= W1.current cell -> 0 <= W1.capacity cell) /\
        (W1.current cell <= 0 -> W1.capacity cell <= 0) /\
        25 <= W1.temp cell /\
        W1.temp cell <= 40.
Proof.
  intro Hdraws. unfold W1Prompt.main, W1.setup, bind.
  rewrite companion_setup_loop by (intros k []). cbn [app].
  set (cells0 :=
    map (fun item : nat * string =>
           (companion_key (fst item) (snd item),
            companion_cell (snd item)
              (unit_draws w (drawn w + (fst item - 1)))))
        (W1.enumerate 1 list_of_cell)).
  assert (Hnodup : NoDup (dict_keys ([] ++ cells0))).
  { cbn [app]. unfold cells0, dict_keys. rewrite map_map. cbn [fst].
    apply companion_keys_distinct.
    rewrite enumerate_indices. apply seq_NoDup. }
  pose proof (enter_currents_pointwise answers cells0 [] 0 Hnodup) as Hrun.
  cbn [app] in Hrun. rewrite Hrun. unfold ret.
  eexists. eexists. split; [reflexivity|].
  split.
  { unfold cells0. rewrite length_map, enumerate_length, length_map,
      enumerate_length. reflexivity. }
  intros k cell_type Hnth.
  eexists. split.
  { rewrite nth_error_map, enumerate_nth. unfold cells0.
    rewrite nth_error_map, enumerate_nth, Hnth. reflexivity. }
  cbn [fst snd Nat.add].
  set (u := unit_draws w (drawn w + (S k - 1))).
  destruct (companion_cell_facts cell_type u)
    as (_ & _ & H25 & H40 & _ & _); [apply Hdraws|].
  assert (Hvolt : 0 <= W1.voltage (companion_cell cell_type u)).
  { unfold companion_cell. cbn [W1.voltage].
    destruct (W1.is_lfp cell_type); discriminate. }
  unfold companion_entered, companion_cell in *.
  cbn [W1.current W1.voltage W1.capacity W1.temp] in *.
  split; [reflexivity|]. split; [reflexivity|]. split; [reflexivity|].
  split; [|split; [|split; [|split; assumption]]].
  - intro Hnone. rewrite Hnone.
    destruct (W1.is_lfp cell_type); reflexivity.
  - intro Hpos. apply round_lower; [apply zero_decimals|].
    apply Qmult_le_0_compat; assumption.
  - intro Hneg. apply round_upper; [apply zero_decimals|].
    set (v := if W1.is_lfp cell_type then 3.2 else 3.6) in *.
    set (c := match answers k with Some c => c | None => 0.0 end) in *.
    assert (Hprod : 0 <= v * (- c)) by (apply Qmult_le_0_compat; lra).
    assert (E : v * (- c) == - (v * c)) by ring.
    rewrite E in Hprod. lra.
Qed.

Lemma companion_main_cells_witness :
  (forall n, unit_interval (unit_draws (constant_world 0.9) n)) /\
  exists (cells : dict W1.CellData) (w' : World),
    W1Prompt.main ["lfp"; "nmc"]%string
      (fun n => nth n [Some (-1); None] None) (constant_world 0.9) =
      Some (cells, w') /\
    length cells = 2%nat.
Proof.
  assert (Hdraws : forall n, unit_interval (unit_draws (constant_world 0.9) n)).
  { intro n. split; discriminate. }
  split; [exact Hdraws|].
  destruct (companion_main_cells ["lfp"; "nmc"]%string
              (fun n => nth n [Some (-1); None] None) (constant_world 0.9)
              Hdraws)
    as (cells & w' & Hrun & Hlen & _).
  exists cells, w'. split; assumption.
Defined.

(** * The size of a simulation step *)

Lemma round_half_even_error (y : Q) :
  y - (1 # 2) <= inject_Z (PyNum.round_half_even y) /\
  inject_Z (PyNum.round_half_even y) <= y + (1 # 2).
Proof.
  destruct y as [n d].
  unfold Qle, Qminus, Qplus, Qopp, PyNum.round_half_even.
  cbn [Qnum Qden inject_Z].
  pose proof (Z.div_mod n (Zpos d) ltac:(lia)) as Hdm.
  pose proof (Z.mod_pos_bound n (Zpos d) ltac:(lia)) as Hr.
  rewrite !Pos2Z.inj_mul.
  set (q := (n / Zpos d)%Z) in *. set (r := (n mod Zpos d)%Z) in *.
  clearbody q r. subst n.
  assert (HD : (0 < Zpos d)%Z) by lia.
  set (D := Zpos d) in *. clearbody D.
  destruct (2 * r ?= D)%Z eqn:E.
  - apply Z.compare_eq in E. destruct (Z.even q); split; lia.
  - rewrite Z.compare_lt_iff in E. split; lia.
  - rewrite Z.compare_gt_iff in E. split; lia.
Qed.

(** Rounding to [ndigits] decimals moves a value by at most half a unit of
    the last decimal. *)
Lemma round_error (x : Q) (ndigits : nat) :
  x - (1 # 2) / PyNum.pow10 ndigits <= PyNum.round x ndigits /\
  PyNum.round x ndigits <= x + (1 # 2) / PyNum.pow10 ndigits.
Proof.
  pose proof (pow10_pos ndigits) as Hp.
  assert (Hne : ~ PyNum.pow10 ndigits == 0)
    by (intro E; rewrite E in Hp; discriminate).
  destruct (round_half_even_error (x * PyNum.pow10 ndigits)) as [Hlo Hhi].
  unfold PyNum.round. split.
  - apply Qle_shift_div_l; [exact Hp|].
    assert (E : (x - (1 # 2) / PyNum.pow10 ndigits) * PyNum.pow10 ndigits ==
                x * PyNum.pow10 ndigits - (1 # 2)) by (field; exact Hne).
    rewrite E. exact Hlo.
  - apply Qle_shift_div_r; [exact Hp|].
    assert (E : (x + (1 # 2) / PyNum.pow10 ndigits) * PyNum.pow10 ndigits ==
                x * PyNum.pow10 ndigits + (1 # 2)) by (field; exact Hne).
    rewrite E. exact Hhi.
Qed.

(** Clamping a perturbed value that started inside the range moves it by no
    more than the perturbation. *)
Lemma clamp_step (lo hi v e b : Q) :
  lo <= v -> v <= hi -> - b <= e -> e <= b ->
  v - b <= PyNum.max lo (PyNum.min hi (v + e)) /\
  PyNum.max lo (PyNum.min hi (v + e)) <= v + b.
Proof.
  intros Hlo Hhi He1 He2. unfold PyNum.min.
  destruct (PyNum.ltb (v + e) hi) eqn:Emin; unfold PyNum.max;
    case_tests; test_facts; split; lra.
Qed.

Lemma uniform_symmetric (b u : Q) :
  0 <= b -> unit_interval u ->
  - b <= - b + (b - - b) * u /\ - b + (b - - b) * u <= b.
Proof.
  intros Hb Hu. apply uniform_within; [lra | exact Hu].
Qed.

(** X19: one simulation step is a small move: for a reading whose
    voltage lies within the bounds of its chemistry and whose temperature
    lies within [[0, 50]], and draws of the unit interval, the new voltage
    is within 0.051 V of the previous one and the new temperature within
    1.06 degrees.  Exact arithmetic gives 0.0505 V and 1.05 degrees; the
    bounds stated leave a margin for the rounding of binary floating
    point. *)
Theorem simulate_step_is_small
    (cell_key : string) (base_data : CellData) (w : World) (cell_type : string) :
  nth_error (split "_" cell_key) 2 = Some cell_type ->
  (forall n, unit_interval (unit_draws w n)) ->
  min_voltage (get_cell_specs cell_type) <= voltage base_data ->
  voltage base_data <= max_voltage (get_cell_specs cell_type) ->
  0 <= temp base_data ->
  temp base_data <= 50 ->
  exists (data : CellData) (w' : World),
    simulate_real_time_data cell_key base_data w = Some (data, w') /\
    voltage base_data - 0.051 <= voltage data /\
    voltage data <= voltage base_data + 0.051 /\
    temp base_data - 1.06 <= temp data /\
    temp data <= temp base_data + 1.06.
Proof.
  intros Hkey Hdraws Hvlo Hvhi Ht0 Ht50.
  eexists. eexists.
  split; [apply simulate_real_time_data_result; exact Hkey|].
  cbn [voltage temp].
  match goal with
  | |- context [PyNum.round ?x 3] =>
      destruct (round_error x 3) as [Hv1 Hv2];
      assert (Hv : voltage base_data - 0.05 <= x /\ x <= voltage base_data + 0.05)
  end.
  { apply clamp_step; try assumption;
      apply (uniform_symmetric 0.05); try apply Hdraws; discriminate. }
  match goal with
  | |- context [PyNum.round ?x 1] =>
      destruct (round_error x 1) as [Ht1 Ht2];
      assert (Ht : temp base_data - 1.0 <= x /\ x <= temp base_data + 1.0)
  end.
  { apply clamp_step; try assumption;
      apply (uniform_symmetric 1.0); try apply Hdraws; discriminate. }
  assert (E3 : (1 # 2) / PyNum.pow10 3 == 0.0005) by reflexivity.
  assert (E1 : (1 # 2) / PyNum.pow10 1 == 0.05) by reflexivity.
  rewrite E3 in Hv1, Hv2. rewrite E1 in Ht1, Ht2.
  destruct Hv as [Hva Hvb]. destruct Ht as [Hta Htb].
  repeat split; lra.
Qed.

Lemma simulate_step_is_small_witness :
  nth_error (split "_" "cell_1_lfp") 2 = Some "lfp"%string /\
  (forall n, unit_interval (unit_draws (constant_world 0.9) n)) /\
  min_voltage (get_cell_specs "lfp") <=
    voltage (mkCellData 3.59 10 30.5 35.9 2.8 3.6 0) /\
  voltage (mkCellData 3.59 10 30.5 35.9 2.8 3.6 0) <=
    max_voltage (get_cell_specs "lfp") /\
  0 <= temp (mkCellData 3.59 10 30.5 35.9 2.8 3.6 0) /\
  temp (mkCellData 3.59 10 30.5 35.9 2.8 3.6 0) <= 50 /\
  exists (data : CellData) (w' : World),
    simulate_real_time_data "cell_1_lfp"
      (mkCellData 3.59 10 30.5 35.9 2.8 3.6 0) (constant_world 0.9) =
      Some (data, w') /\
    voltage data <= 3.59 + 0.051 /\
    temp data <= 30.5 + 1.06.
Proof.
  assert (Hdraws : forall n, unit_interval (unit_draws (constant_world 0.9) n)).
  { intro n. split; discriminate. }
  assert (H1 : min_voltage (get_cell_specs "lfp") <=
               voltage (mkCellData 3.59 10 30.5 35.9 2.8 3.6 0)) by discriminate.
  assert (H2 : voltage (mkCellData 3.59 10 30.5 35.9 2.8 3.6 0) <=
               max_voltage (get_cell_specs "lfp")) by discriminate.
  assert (H3 : 0 <= temp (mkCellData 3.59 10 30.5 35.9 2.8 3.6 0))
    by discriminate.
  assert (H4 : temp (mkCellData 3.59 10 30.5 35.9 2.8 3.6 0) <= 50)
    by discriminate.
  split; [reflexivity|]. split; [exact Hdraws|].
  split; [exact H1|]. split; [exact H2|]. split; [exact H3|]. split; [exact H4|].
  destruct (simulate_step_is_small "cell_1_lfp"
              (mkCellData 3.59 10 30.5 35.9 2.8 3.6 0) (constant_world 0.9)
              "lfp" eq_refl Hdraws H1 H2 H3 H4)
    as (data & w' & Hrun & _ & Hv & _ & Ht).
  exists data, w'. repeat split; assumption.
Defined.

(** * A rebuild followed by a tick *)

Lemma cell_key_of_names (i : nat) (cell_type : string) :
  names_cell_type (cell_key_of i cell_type).
Proof.
  unfold names_cell_type. rewrite split_cell_key_of.
  pose proof (split_length "_" cell_type) as Hlen.
  destruct (split "_" cell_type) as [|piece pieces]; [discriminate Hlen|].
  exists piece. reflexivity.
Qed.

Lemma tick_decimals : has_decimals 1 24 /\ has_decimals 1 36.
Proof.
  split; [exists 240%Z | exists 360%Z]; reflexivity.
Qed.

Lemma pointwise_transfer {A B : Type} (R : A -> B -> Prop) (P : A -> Prop)
    (Q : B -> Prop) (xs : list A) (ys : list B) :
  (forall x y, P x -> R x y -> Q y) ->
  Forall2 R xs ys -> Forall P xs -> Forall Q ys.
Proof.
  intros H HR. induction HR as [|x y xs ys Hxy _ IH]; intro HP;
    [constructor|].
  inversion HP; subst. constructor; [eapply H; eassumption | apply IH; assumption].
Qed.

(** X20: one pass of the script that rebuilds the cells (the cell count
    has changed) while both switches are on goes on to the tick without
    raising: the [num_cells] fresh cells are simulated once, four random
    draws per cell in all; the keys are those of the set-up; the log grows
    by one entry per cell up to the 800 kept; and every temperature lies
    within [[24, 36]], away from the clamp at 0 and 50. *)
Theorem rebuild_then_tick
    (num_cells : nat) (refresh_interval : Z) (chosen : nat -> string)
    (s : Session) (w : World) :
  monitoring_active s && auto_refresh s = true ->
  length (cells_data s) <> num_cells ->
  (forall n, unit_interval (unit_draws w n)) ->
  exists (s0 : Session) (w0 : World) (s' : Session) (w' : World),
    setup_cells num_cells chosen s w = Some (s0, w0) /\
    monitoring_tick refresh_interval s0 w0 = Some (s', w') /\
    dict_keys (cells_data s') =
      map (fun i => cell_key_of i (chosen i)) (seq 0 num_cells) /\
    length (historical_data s') =
      Nat.min 800 (length (historical_data s) + num_cells) /\
    Forall (fun item => 24 <= temp (snd item) /\ temp (snd item) <= 36)
           (cells_data s') /\
    Forall within_limits (cells_data s') /\
    drawn w' = (drawn w + 4 * num_cells)%nat /\
    clock w' = (clock w + refresh_interval)%Z.
Proof.
  intros Hactive Hlen Hdraws.
  pose proof (setup_cells_run num_cells chosen s w Hlen) as Hsetup.
  match type of Hsetup with
  | _ = Some (?s1, ?w1) => set (s0 := s1) in *; set (w0 := w1) in *
  end.
  assert (Hkeys0 : dict_keys (cells_data s0) =
                   map (fun i => cell_key_of i (chosen i)) (seq 0 num_cells)).
  { apply nodup_keys_of_map. }
  assert (Hcount0 : length (cells_data s0) = num_cells).
  { subst s0. cbn [cells_data]. rewrite length_map, length_seq. reflexivity. }
  assert (Hkeyed : well_keyed (cells_data s0)).
  { split; rewrite Hkeys0.
    - apply cell_keys_distinct. apply seq_NoDup.
    - apply Forall_map. apply Forall_forall. intros i _.
      apply cell_key_of_names. }
  assert (Hfresh : Forall (fun item : string * CellData =>
                             names_cell_type (fst item) /\
                             25 <= temp (snd item) /\ temp (snd item) <= 35)
                          (cells_data s0)).
  { subst s0. cbn [cells_data]. apply Forall_map. apply Forall_forall.
    intros i _. cbn [fst snd]. split; [apply cell_key_of_names|].
    apply seeded_cell_temp. apply Hdraws. }
  destruct (monitoring_tick_run refresh_interval s0 w0 Hactive Hkeyed)
    as (cells' & w' & Hrun & Hall & Hsame & Hdrawn & Hclock).
  pose proof (pointwise_keys _ _ Hall) as Hkeys.
  exists s0, w0. eexists. exists w'.
  split; [exact Hsetup|]. split; [exact Hrun|].
  cbn [cells_data historical_data].
  split; [rewrite Hkeys; exact Hkeys0|].
  split; [|split; [|split; [|split]]].
  - destruct (truncate_history_fifo
                (historical_data s0 ++
                 map (historical_entry (clock w0 + refresh_interval)%Z) cells'))
      as (dropped & Hsplit & Hdropped & _).
    apply (f_equal (@length HistoryEntry)) in Hsplit.
    rewrite length_app in Hsplit.
    rewrite length_app, length_map in Hsplit, Hdropped.
    apply (f_equal (@length string)) in Hkeys. unfold dict_keys in Hkeys.
    rewrite !length_map in Hkeys.
    replace (length (historical_data s0)) with (length (historical_data s))
      in * by reflexivity.
    lia.
  - eapply pointwise_transfer; [|exact Hall | exact Hfresh].
    intros [key old] [key' new] ([cell_type Hkey] & H25 & H35)
           (Hfst & wi & wi' & Hsim & Hwi & _).
    cbn [fst snd] in *.
    rewrite (simulate_real_time_data_result _ _ _ _ Hkey) in Hsim.
    match type of Hsim with Some (?d, _) = _ => set (sim := d) in Hsim end.
    injection Hsim as Hdata _. subst new. subst sim. cbn [temp].
    destruct tick_decimals as [H24 H36].
    match goal with
    | |- context [PyNum.round ?x 1] =>
        assert (Hx : old.(temp) - 1.0 <= x /\ x <= old.(temp) + 1.0)
    end.
    { apply clamp_step; try lra;
        apply (uniform_symmetric 1.0); try discriminate;
        rewrite Hwi; apply Hdraws. }
    split; [apply round_lower | apply round_upper]; try assumption; lra.
  - eapply within_limits_pointwise. exact Hall.
  - rewrite Hdrawn, Hcount0. subst w0. cbn [drawn]. lia.
  - rewrite Hclock. reflexivity.
Qed.

Lemma rebuild_then_tick_witness :
  monitoring_active
    (monitoring_session
       [("cell_1_lfp"%string, mkCellData 3.2 0 30 0 2.8 3.6 0);
        ("cell_2_lto"%string, mkCellData 2.4 0 28 0 1.5 2.8 0)] []) &&
  auto_refresh
    (monitoring_session
       [("cell_1_lfp"%string, mkCellData 3.2 0 30 0 2.8 3.6 0);
        ("cell_2_lto"%string, mkCellData 2.4 0 28 0 1.5 2.8 0)] []) = true /\
  length
    (cells_data
       (monitoring_session
          [("cell_1_lfp"%string, mkCellData 3.2 0 30 0 2.8 3.6 0);
           ("cell_2_lto"%string, mkCellData 2.4 0 28 0 1.5 2.8 0)] [])) <>
    3%nat /\
  (forall n, unit_interval (unit_draws (constant_world 0.5) n)) /\
  exists (s0 : Session) (w0 : World) (s' : Session) (w' : World),
    setup_cells 3 (fun _ => "lto"%string)
      (monitoring_session
         [("cell_1_lfp"%string, mkCellData 3.2 0 30 0 2.8 3.6 0);
          ("cell_2_lto"%string, mkCellData 2.4 0 28 0 1.5 2.8 0)] [])
      (constant_world 0.5) = Some (s0, w0) /\
    monitoring_tick 2 s0 w0 = Some (s', w') /\
    length (historical_data s') = 3%nat /\
    drawn w' = 12%nat.
Proof.
  assert (Hlen :
    length
      (cells_data
         (monitoring_session
            [("cell_1_lfp"%string, mkCellData 3.2 0 30 0 2.8 3.6 0);
             ("cell_2_lto"%string, mkCellData 2.4 0 28 0 1.5 2.8 0)] [])) <>
      3%nat) by discriminate.
  assert (Hdraws : forall n, unit_interval (unit_draws (constant_world 0.5) n)).
  { intro n. split; discriminate. }
  split; [reflexivity|]. split; [exact Hlen|]. split; [exact Hdraws|].
  destruct (rebuild_then_tick 3 2 (fun _ => "lto"%string)
              (monitoring_session
                 [("cell_1_lfp"%string, mkCellData 3.2 0 30 0 2.8 3.6 0);
                  ("cell_2_lto"%string, mkCellData 2.4 0 28 0 1.5 2.8 0)] [])
              (constant_world 0.5) eq_refl Hlen Hdraws)
    as (s0 & w0 & s' & w' & Hsetup & Hrun & _ & Hhist & _ & _ & Hdrawn & _).
  exists s0, w0, s', w'. repeat split; assumption.
Defined.

(** X21: eviction is first in, first out: after a tick the log is the
    previous log followed by one entry per cell, in cell order, carrying the
    new reading of the cell and the time of the tick, with the oldest
    [max(0, total - 800)] entries dropped from the front. *)
Theorem monitoring_tick_appends_entries
    (refresh_interval : Z) (s : Session) (w : World) :
  monitoring_active s && auto_refresh s = true ->
  well_keyed (cells_data s) ->
  exists (s' : Session) (w' : World) (dropped : list HistoryEntry),
    monitoring_tick refresh_interval s w = Some (s', w') /\
    historical_data s ++
      map (fun item =>
             mkHistoryEntry (clock w + refresh_interval)%Z (fst item)
               (voltage (snd item)) (current (snd item))
               (temp (snd item)) (capacity (snd item)))
          (cells_data s') =
      dropped ++ historical_data s' /\
    length dropped =
      (length (historical_data s) + length (cells_data s) - 800)%nat.
Proof.
  intros Hactive Hkeyed.
  destruct (monitoring_tick_run refresh_interval s w Hactive Hkeyed)
    as (cells' & w' & Hrun & Hall & _).
  destruct (truncate_history_fifo
              (historical_data s ++
               map (historical_entry (clock w + refresh_interval)%Z) cells'))
    as (dropped & Hsplit & Hdropped & _).
  eexists. exists w', dropped. split; [exact Hrun|].
  cbn [cells_data historical_data]. split.
  - rewrite <- Hsplit. f_equal. apply map_ext. intros [key data]. reflexivity.
  - rewrite Hdropped, length_app, length_map.
    pose proof (pointwise_keys _ _ Hall) as Hkeys.
    apply (f_equal (@length string)) in Hkeys. unfold dict_keys in Hkeys.
    rewrite !length_map in Hkeys. lia.
Qed.

Lemma monitoring_tick_appends_entries_witness :
  monitoring_active
    (monitoring_session
       [("cell_1_lfp"%string, mkCellData 3.2 0 30 0 2.8 3.6 0);
        ("cell_2_lto"%string, mkCellData 2.4 0 28 0 1.5 2.8 0)] []) &&
  auto_refresh
    (monitoring_session
       [("cell_1_lfp"%string, mkCellData 3.2 0 30 0 2.8 3.6 0);
        ("cell_2_lto"%string, mkCellData 2.4 0 28 0 1.5 2.8 0)] []) = true /\
  well_keyed
    [("cell_1_lfp"%string, mkCellData 3.2 0 30 0 2.8 3.6 0);
     ("cell_2_lto"%string, mkCellData 2.4 0 28 0 1.5 2.8 0)] /\
  exists (s' : Session) (w' : World) (dropped : list HistoryEntry),
    monitoring_tick 2
      (monitoring_session
         [("cell_1_lfp"%string, mkCellData 3.2 0 30 0 2.8 3.6 0);
          ("cell_2_lto"%string, mkCellData 2.4 0 28 0 1.5 2.8 0)] [])
      (constant_world 0.75) = Some (s', w') /\
    length dropped = 0%nat.
Proof.
  split; [reflexivity|]. split; [exact two_cells_well_keyed|].
  destruct (monitoring_tick_appends_entries 2
              (monitoring_session
                 [("cell_1_lfp"%string, mkCellData 3.2 0 30 0 2.8 3.6 0);
                  ("cell_2_lto"%string, mkCellData 2.4 0 28 0 1.5 2.8 0)] [])
              (constant_world 0.75) eq_refl two_cells_well_keyed)
    as (s' & w' & dropped & Hrun & _ & Hdropped).
  exists s', w', dropped. split; assumption.
Defined.

(** * States the dashboard can reach *)

Lemma forall_dict_set {V : Type} (P : string * V -> Prop)
    (k : string) (v : V) (d : dict V) :
  Forall P d -> (forall k', P (k', v)) -> Forall P (dict_set k v d).
Proof.
  intros Hall Hnew. induction d as [|[k0 v0] d IH]; cbn.
  - constructor; [apply Hnew | constructor].
  - inversion Hall; subst. destruct (String.eqb k k0).
    + constructor; [apply Hnew | assumption].
    + constructor; [assumption | apply IH; assumption].
Qed.

Lemma seeded_cell_fits (cell_type : string) (u : Q) (now : Z) :
  unit_interval u -> fits_inputs (seeded_cell cell_type u now).
Proof.
  intro Hu. destruct (seeded_cell_temp cell_type u now Hu) as [H25 H35].
  destruct (get_cell_specs_ordered cell_type) as (Hmin & Hmax & _).
  destruct (table_voltage_span cell_type) as [Hlo Hhi].
  unfold fits_inputs. cbn [seeded_cell voltage capacity] in *.
  repeat split; lra.
Qed.

Lemma within_limits_fits (item : string * CellData) :
  names_cell_type (fst item) -> within_limits item -> fits_inputs (snd item).
Proof.
  intros [cell_type Hkey] Hlim.
  destruct (Hlim cell_type Hkey) as (Hlo & Hhi & Ht0 & Ht50 & Hcap).
  destruct (table_voltage_span cell_type) as [Hmin Hmax].
  unfold fits_inputs. repeat split; try assumption; lra.
Qed.

Lemma initial_session_sound : sound_session initial_session.
Proof.
  unfold sound_session, well_keyed, initial_session. cbn.
  repeat split; try constructor; lia.
Qed.

(** Every action with values the widgets deliver keeps the session sound
    and leaves the random source what it was. *)
Lemma perform_sound (a : Action) (s s' : Session) (w w' : World) :
  widget_values a ->
  (forall n, unit_interval (unit_draws w n)) ->
  sound_session s ->
  perform a s w = Some (s', w') ->
  sound_session s' /\ unit_draws w' = unit_draws w.
Proof.
  intros Hvalues Hdraws (Hkeyed & Hcells & Hhist & Hfits) Hrun.
  destruct a as [num_cells chosen| | |checked|selected v c t|r| |];
    cbn [perform widget_values] in *.
  - (* set-up *)
    destruct (Nat.eq_dec (length (cells_data s)) num_cells) as [Heq|Hneq].
    + unfold setup_cells in Hrun.
      rewrite (proj2 (Nat.eqb_eq _ _) Heq) in Hrun. unfold ret in Hrun.
      injection Hrun as Hs Hw. subst s' w'.
      split; [|reflexivity].
      unfold sound_session, start_monitoring, stop_monitoring, set_auto_refresh;
        cbn [cells_data historical_data]; auto.
    + rewrite (setup_cells_run _ _ _ _ Hneq) in Hrun.
      injection Hrun as Hs Hw. subst s' w'.
      split; [|reflexivity].
      unfold sound_session. cbn [cells_data historical_data].
      split; [|split; [|split]].
      * split; rewrite nodup_keys_of_map.
        -- apply cell_keys_distinct. apply seq_NoDup.
        -- apply Forall_map. apply Forall_forall. intros i _.
           apply cell_key_of_names.
      * rewrite length_map, length_seq. lia.
      * exact Hhist.
      * apply Forall_map. apply Forall_forall. intros i _. cbn [snd].
        apply seeded_cell_fits. apply Hdraws.
  - injection Hrun as Hs Hw. subst s' w'.
    split; [|reflexivity].
      unfold sound_session, start_monitoring, stop_monitoring, set_auto_refresh;
        cbn [cells_data historical_data]; auto.
  - injection Hrun as Hs Hw. subst s' w'.
    split; [|reflexivity].
      unfold sound_session, start_monitoring, stop_monitoring, set_auto_refresh;
        cbn [cells_data historical_data]; auto.
  - injection Hrun as Hs Hw. subst s' w'.
    split; [|reflexivity].
      unfold sound_session, start_monitoring, stop_monitoring, set_auto_refresh;
        cbn [cells_data historical_data]; auto.
  - (* manual update *)
    unfold update_cell_data in Hrun.
    destruct (dict_get selected (cells_data s)) as [old|] eqn:Hold;
      [|discriminate Hrun].
    unfold bind, datetime_now, ret in Hrun.
    match type of Hrun with Some (?s1, _) = _ => set (updated := s1) in Hrun end.
    injection Hrun as Hs Hw. subst s' w'. subst updated.
    split; [|reflexivity].
    pose proof (dict_get_some_in _ _ _ Hold) as Hin.
    unfold sound_session. cbn [cells_data historical_data].
    destruct Hvalues as (Hv0 & Hv5 & Ht20 & Ht80).
    split; [|split; [|split]].
    + unfold well_keyed. rewrite (dict_set_keys _ _ _ Hin). exact Hkeyed.
    + pose proof (dict_set_keys selected
                    {| voltage := v; current := c; temp := t;
                       capacity := PyNum.round (v * PyNum.abs c) 2;
                       cell_min_voltage := cell_min_voltage old;
                       cell_max_voltage := cell_max_voltage old;
                       timestamp := clock w |} _ Hin) as Hk.
      apply (f_equal (@length string)) in Hk. unfold dict_keys in Hk.
      rewrite !length_map in Hk. rewrite Hk. exact Hcells.
    + exact Hhist.
    + apply forall_dict_set; [exact Hfits|]. intros k'. cbn [snd].
      unfold fits_inputs. cbn [voltage temp capacity].
      repeat split; try assumption.
      apply round_lower; [apply zero_decimals|].
      apply Qmult_le_0_compat; [exact Hv0 | unfold PyNum.abs; apply Qabs_nonneg].
  - (* tick *)
    destruct (monitoring_active s && auto_refresh s) eqn:Hactive.
    + destruct (monitoring_tick_run r s w Hactive Hkeyed)
        as (cells' & w1 & Hrun1 & Hall & Hsame & _ & _).
      rewrite Hrun1 in Hrun.
      match type of Hrun with Some (?s1, _) = _ => set (ticked := s1) in Hrun end.
      injection Hrun as Hs Hw. subst s' w'. subst ticked.
      split; [|exact Hsame].
      pose proof (pointwise_keys _ _ Hall) as Hkeys.
      pose proof (within_limits_pointwise _ _ _ _ Hall) as Hlim.
      unfold sound_session. cbn [cells_data historical_data].
      split; [|split; [|split]].
      * unfold well_keyed. rewrite Hkeys. exact Hkeyed.
      * apply (f_equal (@length string)) in Hkeys. unfold dict_keys in Hkeys.
        rewrite !length_map in Hkeys. rewrite Hkeys. exact Hcells.
      * match goal with
        | |- context [truncate_history ?h] =>
            destruct (truncate_history_fifo h) as (dropped & _ & _ & Hle)
        end.
        exact Hle.
      * destruct Hkeyed as [_ Hnames]. rewrite <- Hkeys in Hnames.
        rewrite Forall_forall in *. intros item Hin.
        apply within_limits_fits; [|apply Hlim; exact Hin].
        apply Hnames. unfold dict_keys. apply in_map. exact Hin.
    + unfold monitoring_tick in Hrun. rewrite Hactive in Hrun.
      injection Hrun as Hs Hw. subst s' w'.
      split; [|reflexivity].
      unfold sound_session, start_monitoring, stop_monitoring, set_auto_refresh;
        cbn [cells_data historical_data]; auto.
  - injection Hrun as Hs Hw. subst s' w'.
    split; [|reflexivity].
    unfold sound_session, clear_historical_data.
    cbn [cells_data historical_data length].
    split; [exact Hkeyed|]. split; [exact Hcells|]. split; [lia | exact Hfits].
  - injection Hrun as Hs Hw. subst s' w'.
    split; [|reflexivity].
    unfold sound_session, well_keyed, reset_all_cells. cbn.
    repeat split; try constructor; lia.
Qed.

Lemma perform_all_sound (actions : list Action) :
  forall (s s' : Session) (w w' : World),
    Forall widget_values actions ->
    (forall n, unit_interval (unit_draws w n)) ->
    sound_session s ->
    perform_all actions s w = Some (s', w') ->
    sound_session s'.
Proof.
  induction actions as [|a rest IH]; intros s s' w w' Hvalues Hdraws Hsound Hrun.
  - injection Hrun as Hs _. subst s'. exact Hsound.
  - inversion Hvalues as [|? ? Ha Hrest]; subst.
    cbn [perform_all] in Hrun. unfold bind in Hrun.
    destruct (perform a s w) as [[s1 w1]|] eqn:Hstep; [|discriminate Hrun].
    destruct (perform_sound a s s1 w w1 Ha Hdraws Hsound Hstep)
      as [Hsound1 Hsame].
    apply (IH s1 s' w1 w' Hrest); try assumption.
    intro n. rewrite Hsame. apply Hdraws.
Qed.

(** X22: whatever the user does, the session stays sound.  From the state
    of a new session, any sequence of set-ups, starts and stops, auto-refresh
    settings, manual updates, ticks, history clearings and resets, with the
    values the widgets deliver and a random source of the unit interval,
    leads, as far as it goes, to a state with distinct keys that name a
    chemistry, at most 16 cells, at most 800 history entries and readings
    within the ranges of the sidebar's inputs (voltage within [[0, 5]],
    temperature within [[-20, 80]]) with a capacity that is not negative; in
    such a state the alerts loop goes through. *)
Theorem dashboard_stays_sound (actions : list Action) (w : World) :
  Forall widget_values actions ->
  (forall n, unit_interval (unit_draws w n)) ->
  match perform_all actions initial_session w with
  | Some (s', _) =>
      NoDup (dict_keys (cells_data s')) /\
      Forall names_cell_type (dict_keys (cells_data s')) /\
      (length (cells_data s') <= 16)%nat /\
      (length (historical_data s') <= 800)%nat /\
      Forall (fun item =>
                0 <= voltage (snd item) /\ voltage (snd item) <= 5 /\
                -20 <= temp (snd item) /\ temp (snd item) <= 80 /\
                0 <= capacity (snd item))
             (cells_data s') /\
      exists all_alerts, system_alerts s' = Some all_alerts
  | None => True
  end.
Proof.
  intros Hvalues Hdraws.
  destruct (perform_all actions initial_session w) as [[s' w']|] eqn:Hrun;
    [|exact I].
  destruct (perform_all_sound actions _ _ _ _ Hvalues Hdraws
              initial_session_sound Hrun)
    as ([Hnodup Hnames] & Hcells & Hhist & Hfits).
  split; [exact Hnodup|]. split; [exact Hnames|].
  split; [exact Hcells|]. split; [exact Hhist|]. split; [exact Hfits|].
  unfold system_alerts.
  destruct (system_alerts_loop (cells_data s') [] Hnames) as (all & Hall & _).
  exists all. exact Hall.
Qed.

Lemma dashboard_stays_sound_witness :
  Forall widget_values
    [SetupCells 2 (fun _ => "lfp"%string); SetAutoRefresh true;
     StartMonitoring; MonitoringTick 2;
     UpdateCellData "cell_1_lfp" 5 (-30) 30; MonitoringTick 2] /\
  (forall n, unit_interval (unit_draws (constant_world 0.5) n)) /\
  match
    perform_all
      [SetupCells 2 (fun _ => "lfp"%string); SetAutoRefresh true;
       StartMonitoring; MonitoringTick 2;
       UpdateCellData "cell_1_lfp" 5 (-30) 30; MonitoringTick 2]
      initial_session (constant_world 0.5)
  with
  | Some (s', _) =>
      NoDup (dict_keys (cells_data s')) /\
      Forall names_cell_type (dict_keys (cells_data s')) /\
      (length (cells_data s') <= 16)%nat /\
      (length (historical_data s') <= 800)%nat /\
      Forall (fun item =>
                0 <= voltage (snd item) /\ voltage (snd item) <= 5 /\
                -20 <= temp (snd item) /\ temp (snd item) <= 80 /\
                0 <= capacity (snd item))
             (cells_data s') /\
      exists all_alerts, system_alerts s' = Some all_alerts
  | None => True
  end.
Proof.
  assert (Hvalues :
    Forall widget_values
      [SetupCells 2 (fun _ => "lfp"%string); SetAutoRefresh true;
       StartMonitoring; MonitoringTick 2;
       UpdateCellData "cell_1_lfp" 5 (-30) 30; MonitoringTick 2]).
  { repeat apply Forall_cons; try apply Forall_nil; cbn.
    - split; repeat constructor.
    - exact I.
    - exact I.
    - right. left. reflexivity.
    - repeat split; discriminate.
    - right. left. reflexivity. }
  assert (Hdraws : forall n, unit_interval (unit_draws (constant_world 0.5) n)).
  { intro n. split; discriminate. }
  split; [exact Hvalues|]. split; [exact Hdraws|].
  exact (dashboard_stays_sound _ (constant_world 0.5) Hvalues Hdraws).
Defined.

(** The run of the witness goes through: two cells, four history entries,
    the 5 V of the manual update brought back to 3.6 V by the tick. *)
Example dashboard_session_run :
  option_map
    (fun r : Session * World =>
       (dict_keys (cells_data (fst r)),
        map (fun item => Qred (voltage (snd item))) (cells_data (fst r)),
        length (historical_data (fst r))))
    (perform_all
       [SetupCells 2 (fun _ => "lfp"%string); SetAutoRefresh true;
        StartMonitoring; MonitoringTick 2;
        UpdateCellData "cell_1_lfp" 5 (-30) 30; MonitoringTick 2]
       initial_session (constant_world 0.5)) =
  Some (["cell_1_lfp"; "cell_2_lfp"]%string, [18 # 5; 16 # 5], 4%nat).
Proof. vm_compute. reflexivity. Qed.
